(** * The "dynamic" cpufreq governor (drivers/cpufreq/cpufreq_dynamic.c)

    A shallow embedding of the decision engine of the governor: the
    run-queue average tracker, the tunables and their sysfs setters, the
    hotplug history and its two checks, and the per-core tick
    [dbs_check_cpu].

    Conventions.
    - A C [unsigned int] is a [Z] kept in [0, 2^32); arithmetic that can
      leave that range is wrapped with [u32].  [to_int] is the conversion
      of a 32-bit pattern to C [int]; [u64]/[s64] are the 64-bit versions.
    - A function whose C text can divide by zero or index outside an array
      returns [option]: [None] stands for the trap.
    - Work items and driver requests that the C code queues are returned
      as a list of [action]s, in program order. *)

From stdpp Require Import base option list numbers.
From Stdlib Require Import ZArith Lia.

Open Scope Z_scope.

(** ** Machine integers *)

Definition u32 (x : Z) : Z := x mod 2 ^ 32.
Definition u64 (x : Z) : Z := x mod 2 ^ 64.

(** [(int) x] for a 32-bit pattern [x]. *)
Definition to_int (x : Z) : Z :=
  if u32 x <? 2 ^ 31 then u32 x else u32 x - 2 ^ 32.

(** [(int64_t) x]. *)
Definition s64 (x : Z) : Z :=
  if u64 x <? 2 ^ 63 then u64 x else u64 x - 2 ^ 64.

Definition INT_MAX : Z := 2 ^ 31 - 1.
Definition EINVAL : Z := 22.

(** [do_div(n, base)]: the 64-bit dividend is taken as unsigned, the
    divisor is a 32-bit unsigned; the quotient is stored back into the
    (signed) variable.  A zero divisor traps. *)
Definition do_div (n base : Z) : option Z :=
  if u32 base =? 0 then None else Some (s64 (u64 n / u32 base)).

(** Unsigned 32-bit division, trapping on a zero divisor. *)
Definition udiv (a b : Z) : option Z :=
  if b =? 0 then None else Some (a / b).

(** ** Run-queue average (struct runqueue_data) *)

Record runqueue_data := {
  nr_run_avg : Z;        (* unsigned int *)
  update_rate : Z;       (* unsigned int *)
  last_time : Z;         (* int64_t, ns *)
  total_time : Z         (* int64_t, ms *)
}.

Definition RQ_AVG_TIMER_RATE : Z := 10.

(** ** Tunables (struct dbs_tuners) *)

Definition IGNORE_NICE_SUSPEND : Z := 0.
Definition IGNORE_NICE_STANDBY : Z := 1.
Definition IGNORE_NICE_ALWAYS : Z := 2.

Definition MAX_HOTPLUG_RATE : Z := 40.
Definition MAX_SAMPLING_DOWN_FACTOR : Z := 10.
Definition NR_CPUS : Z := 4.

Record dbs_tuners := {
  input_boost_freq : Z;
  input_boost_us : Z;
  power_optimal_freq : Z;
  high_freq_sampling_up_factor : Z;
  up_threshold : Z;
  down_differential : Z;
  ignore_nice : Z;
  io_is_busy : Z;
  sampling_rate : Z;
  sampling_down_factor : Z;
  sampling_down_factor_relax_khz : Z;
  max_non_oc_freq : Z;
  oc_freq_boost_ms : Z;
  standby_delay_factor : Z;
  standby_threshold_freq : Z;
  standby_sampling_rate : Z;
  standby_sampling_up_factor : Z;
  suspend_sampling_rate : Z;
  suspend_sampling_up_factor : Z;
  suspend_max_freq : Z;
  cpu_up_rate : Z;
  cpu_down_rate : Z;
  cpu_up_freq : Z;
  cpu_down_freq : Z;
  up_nr_cpus : Z;
  max_cpu_lock : Z;
  min_cpu_lock : Z;
  dvfs_debug : Z;
  max_freq : Z;
  min_freq : Z;
  boost_mincpus : Z;
  (* internal *)
  _suspend_max_freq_soft : Z;
  _suspend_max_freq_hard : Z;
  _standby_max_freq_soft : Z;
  _oc_limit : Z;
  _standby_threshold_freq : Z
}.

(** The static initialiser of [dbs_tuners_ins]; [hz] is the kernel's HZ.
    Fields the initialiser does not name are zero. *)
Definition dbs_tuners_ins (hz : Z) : dbs_tuners := {|
  input_boost_freq := 200000;
  input_boost_us := 0 * 1000;
  power_optimal_freq := 800000;
  high_freq_sampling_up_factor := 2;
  up_threshold := 85;
  down_differential := 5;
  ignore_nice := 1;
  io_is_busy := 10 * 128 / 100;
  sampling_rate := 3 * hz / 100;
  sampling_down_factor := 1;
  sampling_down_factor_relax_khz := 400000;
  max_non_oc_freq := 900000;
  oc_freq_boost_ms := 2000;
  standby_delay_factor := 1;
  standby_threshold_freq := 100000;
  standby_sampling_rate := 2 * hz / 100;
  standby_sampling_up_factor := 5;
  suspend_sampling_rate := 3 * hz / 100;
  suspend_sampling_up_factor := 7;
  suspend_max_freq := 600000;
  cpu_up_rate := 10;
  cpu_down_rate := 20;
  cpu_up_freq := 500000;
  cpu_down_freq := 200000;
  up_nr_cpus := 1;
  max_cpu_lock := 0;
  min_cpu_lock := 4;
  dvfs_debug := 0;
  max_freq := 0;
  min_freq := 0;
  boost_mincpus := 0;
  _suspend_max_freq_soft := 0;
  _suspend_max_freq_hard := 0;
  _standby_max_freq_soft := 0;
  _oc_limit := 0;
  _standby_threshold_freq := 0
|}.

Definition set_up_threshold (v : Z) (t : dbs_tuners) : dbs_tuners := {|
  input_boost_freq := input_boost_freq t;
  input_boost_us := input_boost_us t;
  power_optimal_freq := power_optimal_freq t;
  high_freq_sampling_up_factor := high_freq_sampling_up_factor t;
  up_threshold := v;
  down_differential := down_differential t;
  ignore_nice := ignore_nice t;
  io_is_busy := io_is_busy t;
  sampling_rate := sampling_rate t;
  sampling_down_factor := sampling_down_factor t;
  sampling_down_factor_relax_khz := sampling_down_factor_relax_khz t;
  max_non_oc_freq := max_non_oc_freq t;
  oc_freq_boost_ms := oc_freq_boost_ms t;
  standby_delay_factor := standby_delay_factor t;
  standby_threshold_freq := standby_threshold_freq t;
  standby_sampling_rate := standby_sampling_rate t;
  standby_sampling_up_factor := standby_sampling_up_factor t;
  suspend_sampling_rate := suspend_sampling_rate t;
  suspend_sampling_up_factor := suspend_sampling_up_factor t;
  suspend_max_freq := suspend_max_freq t;
  cpu_up_rate := cpu_up_rate t;
  cpu_down_rate := cpu_down_rate t;
  cpu_up_freq := cpu_up_freq t;
  cpu_down_freq := cpu_down_freq t;
  up_nr_cpus := up_nr_cpus t;
  max_cpu_lock := max_cpu_lock t;
  min_cpu_lock := min_cpu_lock t;
  dvfs_debug := dvfs_debug t;
  max_freq := max_freq t;
  min_freq := min_freq t;
  boost_mincpus := boost_mincpus t;
  _suspend_max_freq_soft := _suspend_max_freq_soft t;
  _suspend_max_freq_hard := _suspend_max_freq_hard t;
  _standby_max_freq_soft := _standby_max_freq_soft t;
  _oc_limit := _oc_limit t;
  _standby_threshold_freq := _standby_threshold_freq t
|}.

Definition set_down_differential (v : Z) (t : dbs_tuners) : dbs_tuners := {|
  input_boost_freq := input_boost_freq t;
  input_boost_us := input_boost_us t;
  power_optimal_freq := power_optimal_freq t;
  high_freq_sampling_up_factor := high_freq_sampling_up_factor t;
  up_threshold := up_threshold t;
  down_differential := v;
  ignore_nice := ignore_nice t;
  io_is_busy := io_is_busy t;
  sampling_rate := sampling_rate t;
  sampling_down_factor := sampling_down_factor t;
  sampling_down_factor_relax_khz := sampling_down_factor_relax_khz t;
  max_non_oc_freq := max_non_oc_freq t;
  oc_freq_boost_ms := oc_freq_boost_ms t;
  standby_delay_factor := standby_delay_factor t;
  standby_threshold_freq := standby_threshold_freq t;
  standby_sampling_rate := standby_sampling_rate t;
  standby_sampling_up_factor := standby_sampling_up_factor t;
  suspend_sampling_rate := suspend_sampling_rate t;
  suspend_sampling_up_factor := suspend_sampling_up_factor t;
  suspend_max_freq := suspend_max_freq t;
  cpu_up_rate := cpu_up_rate t;
  cpu_down_rate := cpu_down_rate t;
  cpu_up_freq := cpu_up_freq t;
  cpu_down_freq := cpu_down_freq t;
  up_nr_cpus := up_nr_cpus t;
  max_cpu_lock := max_cpu_lock t;
  min_cpu_lock := min_cpu_lock t;
  dvfs_debug := dvfs_debug t;
  max_freq := max_freq t;
  min_freq := min_freq t;
  boost_mincpus := boost_mincpus t;
  _suspend_max_freq_soft := _suspend_max_freq_soft t;
  _suspend_max_freq_hard := _suspend_max_freq_hard t;
  _standby_max_freq_soft := _standby_max_freq_soft t;
  _oc_limit := _oc_limit t;
  _standby_threshold_freq := _standby_threshold_freq t
|}.

(** [min_cpu_lock] as written by cpufreq_dynamic_min_cpu_lock and
    cpufreq_dynamic_min_cpu_unlock, and [standby_delay_factor] as written
    by its bounded setter. *)
Definition set_min_cpu_lock (v : Z) (t : dbs_tuners) : dbs_tuners := {|
  input_boost_freq := input_boost_freq t;
  input_boost_us := input_boost_us t;
  power_optimal_freq := power_optimal_freq t;
  high_freq_sampling_up_factor := high_freq_sampling_up_factor t;
  up_threshold := up_threshold t;
  down_differential := down_differential t;
  ignore_nice := ignore_nice t;
  io_is_busy := io_is_busy t;
  sampling_rate := sampling_rate t;
  sampling_down_factor := sampling_down_factor t;
  sampling_down_factor_relax_khz := sampling_down_factor_relax_khz t;
  max_non_oc_freq := max_non_oc_freq t;
  oc_freq_boost_ms := oc_freq_boost_ms t;
  standby_delay_factor := standby_delay_factor t;
  standby_threshold_freq := standby_threshold_freq t;
  standby_sampling_rate := standby_sampling_rate t;
  standby_sampling_up_factor := standby_sampling_up_factor t;
  suspend_sampling_rate := suspend_sampling_rate t;
  suspend_sampling_up_factor := suspend_sampling_up_factor t;
  suspend_max_freq := suspend_max_freq t;
  cpu_up_rate := cpu_up_rate t;
  cpu_down_rate := cpu_down_rate t;
  cpu_up_freq := cpu_up_freq t;
  cpu_down_freq := cpu_down_freq t;
  up_nr_cpus := up_nr_cpus t;
  max_cpu_lock := max_cpu_lock t;
  min_cpu_lock := v;
  dvfs_debug := dvfs_debug t;
  max_freq := max_freq t;
  min_freq := min_freq t;
  boost_mincpus := boost_mincpus t;
  _suspend_max_freq_soft := _suspend_max_freq_soft t;
  _suspend_max_freq_hard := _suspend_max_freq_hard t;
  _standby_max_freq_soft := _standby_max_freq_soft t;
  _oc_limit := _oc_limit t;
  _standby_threshold_freq := _standby_threshold_freq t
|}.

Definition set_standby_delay_factor (v : Z) (t : dbs_tuners) : dbs_tuners := {|
  input_boost_freq := input_boost_freq t;
  input_boost_us := input_boost_us t;
  power_optimal_freq := power_optimal_freq t;
  high_freq_sampling_up_factor := high_freq_sampling_up_factor t;
  up_threshold := up_threshold t;
  down_differential := down_differential t;
  ignore_nice := ignore_nice t;
  io_is_busy := io_is_busy t;
  sampling_rate := sampling_rate t;
  sampling_down_factor := sampling_down_factor t;
  sampling_down_factor_relax_khz := sampling_down_factor_relax_khz t;
  max_non_oc_freq := max_non_oc_freq t;
  oc_freq_boost_ms := oc_freq_boost_ms t;
  standby_delay_factor := v;
  standby_threshold_freq := standby_threshold_freq t;
  standby_sampling_rate := standby_sampling_rate t;
  standby_sampling_up_factor := standby_sampling_up_factor t;
  suspend_sampling_rate := suspend_sampling_rate t;
  suspend_sampling_up_factor := suspend_sampling_up_factor t;
  suspend_max_freq := suspend_max_freq t;
  cpu_up_rate := cpu_up_rate t;
  cpu_down_rate := cpu_down_rate t;
  cpu_up_freq := cpu_up_freq t;
  cpu_down_freq := cpu_down_freq t;
  up_nr_cpus := up_nr_cpus t;
  max_cpu_lock := max_cpu_lock t;
  min_cpu_lock := min_cpu_lock t;
  dvfs_debug := dvfs_debug t;
  max_freq := max_freq t;
  min_freq := min_freq t;
  boost_mincpus := boost_mincpus t;
  _suspend_max_freq_soft := _suspend_max_freq_soft t;
  _suspend_max_freq_hard := _suspend_max_freq_hard t;
  _standby_max_freq_soft := _standby_max_freq_soft t;
  _oc_limit := _oc_limit t;
  _standby_threshold_freq := _standby_threshold_freq t
|}.

(** The five derived fields written by [recalculate_freq_limits]. *)
Definition set_limits (soft hard sb_soft oc sb_thr : Z) (t : dbs_tuners)
  : dbs_tuners := {|
  input_boost_freq := input_boost_freq t;
  input_boost_us := input_boost_us t;
  power_optimal_freq := power_optimal_freq t;
  high_freq_sampling_up_factor := high_freq_sampling_up_factor t;
  up_threshold := up_threshold t;
  down_differential := down_differential t;
  ignore_nice := ignore_nice t;
  io_is_busy := io_is_busy t;
  sampling_rate := sampling_rate t;
  sampling_down_factor := sampling_down_factor t;
  sampling_down_factor_relax_khz := sampling_down_factor_relax_khz t;
  max_non_oc_freq := max_non_oc_freq t;
  oc_freq_boost_ms := oc_freq_boost_ms t;
  standby_delay_factor := standby_delay_factor t;
  standby_threshold_freq := standby_threshold_freq t;
  standby_sampling_rate := standby_sampling_rate t;
  standby_sampling_up_factor := standby_sampling_up_factor t;
  suspend_sampling_rate := suspend_sampling_rate t;
  suspend_sampling_up_factor := suspend_sampling_up_factor t;
  suspend_max_freq := suspend_max_freq t;
  cpu_up_rate := cpu_up_rate t;
  cpu_down_rate := cpu_down_rate t;
  cpu_up_freq := cpu_up_freq t;
  cpu_down_freq := cpu_down_freq t;
  up_nr_cpus := up_nr_cpus t;
  max_cpu_lock := max_cpu_lock t;
  min_cpu_lock := min_cpu_lock t;
  dvfs_debug := dvfs_debug t;
  max_freq := max_freq t;
  min_freq := min_freq t;
  boost_mincpus := boost_mincpus t;
  _suspend_max_freq_soft := soft;
  _suspend_max_freq_hard := hard;
  _standby_max_freq_soft := sb_soft;
  _oc_limit := oc;
  _standby_threshold_freq := sb_thr
|}.

(** ** The policy and the per-core state *)

(** The fields of [struct cpufreq_policy] the governor reads. *)
Record cpufreq_policy := {
  policy_min : Z;
  policy_max : Z;
  policy_cur : Z;
  policy_cpus : list nat
}.

Inductive relation := CPUFREQ_RELATION_L | CPUFREQ_RELATION_H.

(** [struct cpu_dbs_info_s]; [cur_policy] and [freq_table] point to the
    policy and table held in the governor state, the work items are
    represented by the actions a tick returns. *)
Record cpu_dbs_info_s := {
  prev_cpu_idle : Z;
  prev_cpu_wall : Z;
  prev_cpu_nice : Z;
  prev_cpu_io : Z;
  freq_lo : Z;
  down_skip : Z;
  requested_freq : Z;
  sampling_up_counter : Z;
  standby_counter : Z;
  down_threshold : Z;
  oc_boost_cycles : Z;
  cpu : nat;
  enable : bool
}.

Definition set_prev (idle wall nice io : Z) (d : cpu_dbs_info_s) := {|
  prev_cpu_idle := idle; prev_cpu_wall := wall;
  prev_cpu_nice := nice; prev_cpu_io := io;
  freq_lo := freq_lo d; down_skip := down_skip d;
  requested_freq := requested_freq d;
  sampling_up_counter := sampling_up_counter d;
  standby_counter := standby_counter d;
  down_threshold := down_threshold d;
  oc_boost_cycles := oc_boost_cycles d;
  cpu := cpu d; enable := enable d |}.

Definition set_freq_lo (v : Z) (d : cpu_dbs_info_s) := {|
  prev_cpu_idle := prev_cpu_idle d; prev_cpu_wall := prev_cpu_wall d;
  prev_cpu_nice := prev_cpu_nice d; prev_cpu_io := prev_cpu_io d;
  freq_lo := v; down_skip := down_skip d;
  requested_freq := requested_freq d;
  sampling_up_counter := sampling_up_counter d;
  standby_counter := standby_counter d;
  down_threshold := down_threshold d;
  oc_boost_cycles := oc_boost_cycles d;
  cpu := cpu d; enable := enable d |}.

Definition set_down_skip (v : Z) (d : cpu_dbs_info_s) := {|
  prev_cpu_idle := prev_cpu_idle d; prev_cpu_wall := prev_cpu_wall d;
  prev_cpu_nice := prev_cpu_nice d; prev_cpu_io := prev_cpu_io d;
  freq_lo := freq_lo d; down_skip := v;
  requested_freq := requested_freq d;
  sampling_up_counter := sampling_up_counter d;
  standby_counter := standby_counter d;
  down_threshold := down_threshold d;
  oc_boost_cycles := oc_boost_cycles d;
  cpu := cpu d; enable := enable d |}.

Definition set_requested_freq (v : Z) (d : cpu_dbs_info_s) := {|
  prev_cpu_idle := prev_cpu_idle d; prev_cpu_wall := prev_cpu_wall d;
  prev_cpu_nice := prev_cpu_nice d; prev_cpu_io := prev_cpu_io d;
  freq_lo := freq_lo d; down_skip := down_skip d;
  requested_freq := v;
  sampling_up_counter := sampling_up_counter d;
  standby_counter := standby_counter d;
  down_threshold := down_threshold d;
  oc_boost_cycles := oc_boost_cycles d;
  cpu := cpu d; enable := enable d |}.

Definition set_sampling_up_counter (v : Z) (d : cpu_dbs_info_s) := {|
  prev_cpu_idle := prev_cpu_idle d; prev_cpu_wall := prev_cpu_wall d;
  prev_cpu_nice := prev_cpu_nice d; prev_cpu_io := prev_cpu_io d;
  freq_lo := freq_lo d; down_skip := down_skip d;
  requested_freq := requested_freq d;
  sampling_up_counter := v;
  standby_counter := standby_counter d;
  down_threshold := down_threshold d;
  oc_boost_cycles := oc_boost_cycles d;
  cpu := cpu d; enable := enable d |}.

Definition set_standby_counter (v : Z) (d : cpu_dbs_info_s) := {|
  prev_cpu_idle := prev_cpu_idle d; prev_cpu_wall := prev_cpu_wall d;
  prev_cpu_nice := prev_cpu_nice d; prev_cpu_io := prev_cpu_io d;
  freq_lo := freq_lo d; down_skip := down_skip d;
  requested_freq := requested_freq d;
  sampling_up_counter := sampling_up_counter d;
  standby_counter := v;
  down_threshold := down_threshold d;
  oc_boost_cycles := oc_boost_cycles d;
  cpu := cpu d; enable := enable d |}.

Definition set_down_threshold (v : Z) (d : cpu_dbs_info_s) := {|
  prev_cpu_idle := prev_cpu_idle d; prev_cpu_wall := prev_cpu_wall d;
  prev_cpu_nice := prev_cpu_nice d; prev_cpu_io := prev_cpu_io d;
  freq_lo := freq_lo d; down_skip := down_skip d;
  requested_freq := requested_freq d;
  sampling_up_counter := sampling_up_counter d;
  standby_counter := standby_counter d;
  down_threshold := v;
  oc_boost_cycles := oc_boost_cycles d;
  cpu := cpu d; enable := enable d |}.

Definition set_oc_boost_cycles (v : Z) (d : cpu_dbs_info_s) := {|
  prev_cpu_idle := prev_cpu_idle d; prev_cpu_wall := prev_cpu_wall d;
  prev_cpu_nice := prev_cpu_nice d; prev_cpu_io := prev_cpu_io d;
  freq_lo := freq_lo d; down_skip := down_skip d;
  requested_freq := requested_freq d;
  sampling_up_counter := sampling_up_counter d;
  standby_counter := standby_counter d;
  down_threshold := down_threshold d;
  oc_boost_cycles := v;
  cpu := cpu d; enable := enable d |}.

(** ** History of CPU usage *)

Record cpu_usage := {
  freq : Z;
  load : list Z;        (* unsigned int load[NR_CPUS] *)
  rq_avg : Z
}.

Record cpu_usage_history := {
  usage : list cpu_usage;   (* struct cpu_usage usage[MAX_HOTPLUG_RATE] *)
  num_hist : Z
}.

Definition HOTPLUG_DOWN_INDEX : nat := 0.
Definition HOTPLUG_UP_INDEX : nat := 1.

(** The initialiser of [_hotplug_rq] and [_hotplug_freq] (all three
    configurations with four cores carry the same numbers). *)
Definition _hotplug_rq_init : list (list Z) :=
  [[0; 100]; [100; 200]; [200; 300]; [300; 0]].
Definition _hotplug_freq_init : list (list Z) :=
  [[0; 500000]; [200000; 500000]; [200000; 500000]; [200000; 0]].

(** ** The governor's global state *)

Record gov := {
  rq_data : runqueue_data;
  tuners : dbs_tuners;                 (* dbs_tuners_ins *)
  suspend : bool;
  standby : bool;
  delay : Z;
  last_input_time : Z;
  hotplug_history : cpu_usage_history;
  _hotplug_rq : list (list Z);
  _hotplug_freq : list (list Z);
  cs_cpu_dbs_info : list cpu_dbs_info_s;   (* per-cpu array *)
  policy : cpufreq_policy
}.

Definition set_rq_data (v : runqueue_data) (g : gov) : gov := {|
  rq_data := v; tuners := tuners g; suspend := suspend g;
  standby := standby g; delay := delay g;
  last_input_time := last_input_time g;
  hotplug_history := hotplug_history g;
  _hotplug_rq := _hotplug_rq g; _hotplug_freq := _hotplug_freq g;
  cs_cpu_dbs_info := cs_cpu_dbs_info g; policy := policy g |}.

Definition set_tuners (v : dbs_tuners) (g : gov) : gov := {|
  rq_data := rq_data g; tuners := v; suspend := suspend g;
  standby := standby g; delay := delay g;
  last_input_time := last_input_time g;
  hotplug_history := hotplug_history g;
  _hotplug_rq := _hotplug_rq g; _hotplug_freq := _hotplug_freq g;
  cs_cpu_dbs_info := cs_cpu_dbs_info g; policy := policy g |}.

Definition set_standby (v : bool) (g : gov) : gov := {|
  rq_data := rq_data g; tuners := tuners g; suspend := suspend g;
  standby := v; delay := delay g;
  last_input_time := last_input_time g;
  hotplug_history := hotplug_history g;
  _hotplug_rq := _hotplug_rq g; _hotplug_freq := _hotplug_freq g;
  cs_cpu_dbs_info := cs_cpu_dbs_info g; policy := policy g |}.

Definition set_delay (v : Z) (g : gov) : gov := {|
  rq_data := rq_data g; tuners := tuners g; suspend := suspend g;
  standby := standby g; delay := v;
  last_input_time := last_input_time g;
  hotplug_history := hotplug_history g;
  _hotplug_rq := _hotplug_rq g; _hotplug_freq := _hotplug_freq g;
  cs_cpu_dbs_info := cs_cpu_dbs_info g; policy := policy g |}.

Definition set_hotplug_history (v : cpu_usage_history) (g : gov) : gov := {|
  rq_data := rq_data g; tuners := tuners g; suspend := suspend g;
  standby := standby g; delay := delay g;
  last_input_time := last_input_time g;
  hotplug_history := v;
  _hotplug_rq := _hotplug_rq g; _hotplug_freq := _hotplug_freq g;
  cs_cpu_dbs_info := cs_cpu_dbs_info g; policy := policy g |}.

Definition set_cs_cpu_dbs_info (v : list cpu_dbs_info_s) (g : gov) : gov := {|
  rq_data := rq_data g; tuners := tuners g; suspend := suspend g;
  standby := standby g; delay := delay g;
  last_input_time := last_input_time g;
  hotplug_history := hotplug_history g;
  _hotplug_rq := _hotplug_rq g; _hotplug_freq := _hotplug_freq g;
  cs_cpu_dbs_info := v; policy := policy g |}.

Definition set_num_hist (v : Z) (g : gov) : gov :=
  set_hotplug_history
    {| usage := usage (hotplug_history g); num_hist := v |} g.

(** What a tick hands to the rest of the kernel. *)
Inductive action :=
| queue_up_work (cpu : nat)
| queue_down_work (cpu : nat)
| cpufreq_driver_target (target_freq : Z) (rel : relation).

(** ** Kernel services the file calls but does not define *)

(** [cpufreq_frequency_table_target] lives in drivers/cpufreq/freq_table.c
    and the jiffies conversions in the time code.  The governor ignores
    the return code of the table lookup and only reads
    [freq_table[idx].frequency], so that frequency is what the interface
    gives. *)
Class kernel_services := {
  cpufreq_frequency_table_target :
    cpufreq_policy -> Z -> relation -> Z;
  (* jiffies_to_usecs((unsigned long) cputime64_to_jiffies64(x)) *)
  nice_to_usecs : Z -> Z
}.

(** Modelled from the spec: the table lookup of
    drivers/cpufreq/freq_table.c, which is missing here.  The table is an
    ascending sequence of supported frequencies; only entries inside
    [policy.min, policy.max] are eligible; [CPUFREQ_RELATION_L] rounds up
    to the nearest supported step (the lowest eligible entry at or above
    the target), [CPUFREQ_RELATION_H] rounds down (the highest eligible
    entry at or below the target); when no entry lies on the wanted side
    the nearest one on the other side is taken.  With no eligible entry
    the result is 0. *)
Definition table_lookup (table : list Z) (p : cpufreq_policy)
    (target : Z) (rel : relation) : Z :=
  let eligible :=
    List.filter (fun f => (policy_min p <=? f) && (f <=? policy_max p)) table in
  match rel with
  | CPUFREQ_RELATION_L =>
      match List.filter (fun f => target <=? f) eligible with
      | x :: xs => fold_right Z.min x xs
      | [] => match eligible with
              | x :: xs => fold_right Z.max x xs
              | [] => 0
              end
      end
  | CPUFREQ_RELATION_H =>
      match List.filter (fun f => f <=? target) eligible with
      | x :: xs => fold_right Z.max x xs
      | [] => match eligible with
              | x :: xs => fold_right Z.min x xs
              | [] => 0
              end
      end
  end.

(** The frequency table of the Exynos 4412 boards, in kHz. *)
Definition exynos4412_table : list Z :=
  [200000; 300000; 400000; 500000; 600000; 700000; 800000; 900000;
   1000000; 1100000; 1200000; 1300000; 1400000].

(** A kernel with a given table and jiffies counted in hundredths of a
    second. *)
Definition table_kernel (table : list Z) : kernel_services := {|
  cpufreq_frequency_table_target := table_lookup table;
  nice_to_usecs := fun j => u32 (u32 j * 10000)
|}.

(** ** The run-queue average tracker *)

Definition start_rq_work (rq : runqueue_data) : runqueue_data := {|
  nr_run_avg := 0; update_rate := update_rate rq;
  last_time := 0; total_time := 0 |}.

(** [rq_work_fn], the sampler tick, at time [cur_time] (ns) with
    [nr_running] runnable tasks.  [unsigned long] has 32 bits on this
    platform. *)
Definition rq_work_fn (cur_time nr_running : Z) (rq : runqueue_data)
  : option runqueue_data :=
  let last := if last_time rq =? 0 then cur_time else last_time rq in
  let total := if nr_run_avg rq =? 0 then 0 else total_time rq in
  let nr_run := u32 (nr_running * 100) in
  time_diff ← do_div (s64 (cur_time - last)) (1000 * 1000);
  nr_run ← (if negb (time_diff =? 0) && negb (total =? 0)
            then do_div (s64 (nr_run * time_diff + nr_run_avg rq * total))
                        (total + time_diff)
            else Some nr_run);
  Some {| nr_run_avg := u32 nr_run;
          update_rate := update_rate rq;
          last_time := cur_time;
          total_time := s64 (total + time_diff) |}.

(** [get_nr_run_avg]: the value returned and the tracker afterwards. *)
Definition get_nr_run_avg (rq : runqueue_data) : Z * runqueue_data :=
  (nr_run_avg rq,
   {| nr_run_avg := 0; update_rate := update_rate rq;
      last_time := last_time rq; total_time := total_time rq |}).

(** A sampler tick or a read, for traces of the tracker. *)
Inductive rq_event :=
| rq_tick (cur_time nr_running : Z)
| rq_read.

(** ** Boost and mode predicates *)

Definition is_boosted (now : Z) (g : gov) : bool :=
  (0 <? input_boost_freq (tuners g)) &&
  (now <? u64 (last_input_time g + input_boost_us (tuners g))).

Definition is_active (g : gov) : bool :=
  negb (suspend g || standby g).

(** ** Hotplug checks *)

(** [tbl[online - 1][idx]] *)
Definition hotplug_param (tbl : list (list Z)) (online : Z) (idx : nat)
  : option Z :=
  if online - 1 <? 0 then None
  else row ← tbl !! Z.to_nat (online - 1); row !! idx.

(** [hotplug_history->usage[i]] for an [int] index. *)
Definition usage_at (us : list cpu_usage) (i : Z) : option cpu_usage :=
  if i <? 0 then None else us !! Z.to_nat i.

(** The loop of [check_up]: [n] iterations from index [i] downwards
    ([i = num_hist - 1 .. num_hist - up_rate]), keeping the minimum of the
    frequency and of the run-queue average, both read into [int]s. *)
Fixpoint scan_min (us : list cpu_usage) (i : Z) (n : nat)
    (min_freq min_rq_avg : Z) : option (Z * Z) :=
  match n with
  | O => Some (min_freq, min_rq_avg)
  | S n' =>
      u ← usage_at us i;
      scan_min us (i - 1) n'
        (Z.min min_freq (to_int (freq u)))
        (Z.min min_rq_avg (to_int (rq_avg u)))
  end.

(** The loop of [check_down], with maxima. *)
Fixpoint scan_max (us : list cpu_usage) (i : Z) (n : nat)
    (max_freq max_rq_avg : Z) : option (Z * Z) :=
  match n with
  | O => Some (max_freq, max_rq_avg)
  | S n' =>
      u ← usage_at us i;
      scan_max us (i - 1) n'
        (Z.max max_freq (to_int (freq u)))
        (Z.max max_rq_avg (to_int (rq_avg u)))
  end.

(** [check_up]; [online] is num_online_cpus(), [possible] is
    num_possible_cpus().  The result is the returned flag and the state
    (only [num_hist] can change). *)
Definition check_up (now online possible : Z) (g : gov)
  : option (bool * gov) :=
  let t := tuners g in
  let num_hist := to_int (num_hist (hotplug_history g)) in
  let up_rate := to_int (cpu_up_rate t) in
  up_freq ← hotplug_param (_hotplug_freq g) online HOTPLUG_UP_INDEX;
  up_rq ← hotplug_param (_hotplug_rq g) online HOTPLUG_UP_INDEX;
  if online =? possible then Some (false, g)
  else if negb (max_cpu_lock t =? 0) && (max_cpu_lock t <=? online)
  then Some (false, g)
  else if negb (min_cpu_lock t =? 0) && (online <? min_cpu_lock t)
  then Some (true, g)
  else if is_boosted now g && negb (boost_mincpus t =? 0)
          && (online <? boost_mincpus t)
  then Some (true, g)
  else if num_hist =? 0 then Some (false, g)
  else if up_rate =? 0 then None
  else if negb (Z.rem num_hist up_rate =? 0) then Some (false, g)
  else
    '(min_freq, min_rq_avg) ←
      scan_min (usage (hotplug_history g)) (num_hist - 1)
               (Z.to_nat up_rate) INT_MAX INT_MAX;
    if (up_freq <=? min_freq) && (up_rq <? min_rq_avg)
    then Some (true, set_num_hist 0 g)
    else Some (false, g).

Definition check_down (now online : Z) (g : gov) : option (bool * gov) :=
  let t := tuners g in
  let num_hist := to_int (num_hist (hotplug_history g)) in
  let down_rate := to_int (cpu_down_rate t) in
  down_freq ← hotplug_param (_hotplug_freq g) online HOTPLUG_DOWN_INDEX;
  down_rq ← hotplug_param (_hotplug_rq g) online HOTPLUG_DOWN_INDEX;
  if is_boosted now g && negb (boost_mincpus t =? 0)
     && (online <=? boost_mincpus t)
  then Some (false, g)
  else if online =? 1 then Some (false, g)
  else if negb (max_cpu_lock t =? 0) && (max_cpu_lock t <? online)
  then Some (true, g)
  else if negb (min_cpu_lock t =? 0) && (online <=? min_cpu_lock t)
  then Some (false, g)
  else if num_hist =? 0 then Some (false, g)
  else if down_rate =? 0 then None
  else if negb (Z.rem num_hist down_rate =? 0) then Some (false, g)
  else
    '(max_freq, max_rq_avg) ←
      scan_max (usage (hotplug_history g)) (num_hist - 1)
               (Z.to_nat down_rate) 0 0;
    if (max_freq <=? down_freq) && (max_rq_avg <=? down_rq)
    then Some (true, set_num_hist 0 g)
    else Some (false, g).

(** The words of the design for the window of [check_up]: the last
    [up_rate] samples of the history, and the minimum of a list of
    readings (an empty list has minimum [INT_MAX]). *)
Definition last_samples (h : cpu_usage_history) (rate : Z) : list cpu_usage :=
  take (Z.to_nat rate) (drop (Z.to_nat (num_hist h - rate)) (usage h)).


(** ** The per-core tick *)

(** What the tick reads from the rest of the kernel: the time (us), the
    number of online and of possible cores, and for each core the values
    that [get_cpu_idle_time] and [kcpustat_cpu(j).cpustat[CPUTIME_NICE]]
    return.  The clock does not advance inside one tick. *)
Record cpu_sample := {
  cur_wall_time : Z;
  cur_idle_time : Z;
  cur_io_time : Z;
  cur_nice_stat : Z
}.

Record tick_env := {
  now : Z;
  online : Z;
  possible : Z;
  sample : nat -> cpu_sample
}.

(** The first statements of [dbs_check_cpu]: the overflow guard, the new
    sample and the increment.  Returns the local [num_hist] (the slot
    written, called [slot] in the tick) with the new history and tracker. *)
Definition history_push (g : gov) : Z * gov :=
  let h := hotplug_history g in
  let n := if MAX_HOTPLUG_RATE <=? num_hist h then 0 else num_hist h in
  let '(rq, rqd) := get_nr_run_avg (rq_data g) in
  let us := alter (fun u => {| freq := policy_cur (policy g);
                               load := load u; rq_avg := rq |})
                  (Z.to_nat n) (usage h) in
  (n, set_rq_data rqd
        (set_hotplug_history {| usage := us; num_hist := u32 (n + 1) |} g)).

(** [oc_freq_delta] as computed before the load loop. *)
Definition oc_freq_delta_of (active : bool) (t : dbs_tuners)
    (p : cpufreq_policy) (d : cpu_dbs_info_s) : Z :=
  if active && (max_non_oc_freq t <? policy_cur p)
     && negb (oc_boost_cycles d =? 0)
  then u32 (policy_cur p - max_non_oc_freq t) / 1000
  else 0.

(** The debit of the overclock credit for one core's busy time. *)
Definition oc_debit (oc_freq_delta busy : Z) (d : cpu_dbs_info_s)
  : cpu_dbs_info_s :=
  let oc_workload := u32 (oc_freq_delta * busy) / 1000 in
  if oc_workload <? oc_boost_cycles d
  then set_oc_boost_cycles (oc_boost_cycles d - oc_workload) d
  else set_oc_boost_cycles 0 d.

(** The state carried through the loop over [policy->cpus]: the per-cpu
    array, the history and [max_load]. *)
Abbreviation load_state :=
  (list cpu_dbs_info_s * list cpu_usage * Z)%type (only parsing).

Section Governor.

Context `{K : kernel_services}.

(** [idle_time] of core [j] for this tick after the io-wait and nice
    adjustments, with the new [prev_cpu_io]. *)
Definition adjusted_idle (t : dbs_tuners) (active sb susp boosted : bool)
    (s : cpu_sample) (j_dbs_info : cpu_dbs_info_s) (wall_time : Z) : Z * Z :=
  let idle_time := u32 (cur_idle_time s - prev_cpu_idle j_dbs_info) in
  let '(idle_time, prev_io) :=
    if negb (io_is_busy t =? 1) || negb active then
      let io_time := u32 (cur_io_time s - prev_cpu_io j_dbs_info) in
      if (io_is_busy t =? 0) || negb active
      then (u32 (idle_time + io_time), cur_io_time s)
      else
        let max_busy_io_time := Z.shiftr (u32 (wall_time * io_is_busy t)) 7 in
        if max_busy_io_time <=? io_time
        then (u32 (idle_time + (io_time - max_busy_io_time)), cur_io_time s)
        else (idle_time, cur_io_time s)
    else (idle_time, prev_cpu_io j_dbs_info) in
  let idle_time :=
    if (active && (ignore_nice t =? IGNORE_NICE_ALWAYS))
       || (sb && (IGNORE_NICE_STANDBY <=? ignore_nice t))
       || (susp && negb boosted)
    then u32 (idle_time
              + nice_to_usecs (u64 (cur_nice_stat s
                                    - prev_cpu_nice j_dbs_info)))
    else idle_time in
  (idle_time, prev_io).

(** One iteration of the loop "Get Absolute Load" for core [j]. *)
Definition load_step (t : dbs_tuners) (active sb susp boosted : bool)
    (this : nat) (slot oc_freq_delta : Z) (smp : nat -> cpu_sample)
    (acc : option load_state) (j : nat) : option load_state :=
  '(cpus, us, max_load) ← acc;
  j_dbs_info ← cpus !! j;
  let s := smp j in
  let wall_time := u32 (cur_wall_time s - prev_cpu_wall j_dbs_info) in
  let '(idle_time, prev_io) :=
    adjusted_idle t active sb susp boosted s j_dbs_info wall_time in
  let cpus :=
    <[j := set_prev (cur_idle_time s) (cur_wall_time s)
                    (cur_nice_stat s) prev_io j_dbs_info]> cpus in
  if (wall_time =? 0) || (wall_time <? idle_time)
  then Some (cpus, us, max_load)
  else
    let ld := u32 (100 * (wall_time - idle_time)) / wall_time in
    let us :=
      alter (fun u => {| freq := freq u; load := <[j := ld]> (load u);
                         rq_avg := rq_avg u |})
            (Z.to_nat slot) us in
    let max_load := if max_load <? ld then ld else max_load in
    if negb (oc_freq_delta =? 0) then
      this_dbs_info ← cpus !! this;
      Some (<[this := oc_debit oc_freq_delta (wall_time - idle_time)
                               this_dbs_info]> cpus, us, max_load)
    else Some (cpus, us, max_load).

Definition load_loop (t : dbs_tuners) (active sb susp boosted : bool)
    (this : nat) (slot oc_freq_delta : Z) (smp : nat -> cpu_sample)
    (cpus_of_policy : list nat) (st : load_state) : option load_state :=
  foldl (load_step t active sb susp boosted this slot oc_freq_delta smp)
        (Some st) cpus_of_policy.

(** "Check for CPU hotplug", with the reset of the window at
    [max_hotplug_rate]. *)
Definition hotplug_check (env : tick_env) (cpu_id : nat) (g : gov)
  : option (gov * list action) :=
  '(up, g) ← check_up (now env) (online env) (possible env) g;
  '(g, acts) ←
    (if up : bool then Some (g, [queue_up_work cpu_id])
     else
       '(down, g) ← check_down (now env) (online env) g;
       if down && (standby g || suspend g)
       then Some (g, [queue_down_work cpu_id])
       else Some (g, [])) : option (gov * list action);
  let max_hotplug_rate :=
    Z.max (cpu_up_rate (tuners g)) (cpu_down_rate (tuners g)) in
  if num_hist (hotplug_history g) =? max_hotplug_rate
  then Some (set_num_hist 0 g, acts)
  else Some (g, acts).

(** The input-boost block: the boost target if boosted, and
    [max_freq_hard], [max_freq_soft] as they leave the block. *)
Definition input_boost_limits (t : dbs_tuners) (p : cpufreq_policy)
    (susp boosted : bool) : option Z * Z * Z :=
  if boosted then
    if susp then
      if negb (max_non_oc_freq t =? 0) then
        if negb (oc_freq_boost_ms t =? 0)
        then (Some (policy_max p), policy_max p, policy_max p)
        else (Some (max_non_oc_freq t), max_non_oc_freq t, policy_max p)
      else (Some (policy_max p), policy_max p, policy_max p)
    else (Some (input_boost_freq t), policy_max p, policy_max p)
  else if susp
  then (None, _suspend_max_freq_hard t, _suspend_max_freq_soft t)
  else (None, policy_max p, policy_max p).

(** "calculate turbo boost limits" *)
Definition turbo_boost_limits (t : dbs_tuners) (active : bool)
    (d : cpu_dbs_info_s) (max_freq_hard max_freq_soft : Z) : Z * Z :=
  if active && negb (max_non_oc_freq t =? 0)
     && negb (oc_freq_boost_ms t =? 0) then
    if oc_boost_cycles d =? 0 then (max_non_oc_freq t, max_freq_soft)
    else if oc_boost_cycles d <? _oc_limit t
    then (max_freq_hard, max_non_oc_freq t)
    else (max_freq_hard, max_freq_soft)
  else (max_freq_hard, max_freq_soft).

(** The hard and soft ceilings in force when the hard limit is enforced:
    after the boost block, the turbo limits and the clamp of the hard
    ceiling to [policy->max]. *)
Definition freq_ceilings (t : dbs_tuners) (p : cpufreq_policy)
    (susp boosted active : bool) (d : cpu_dbs_info_s) : Z * Z :=
  let '(_, max_freq_hard, max_freq_soft) :=
    input_boost_limits t p susp boosted in
  let '(max_freq_hard, max_freq_soft) :=
    turbo_boost_limits t active d max_freq_hard max_freq_soft in
  (if policy_max p <? max_freq_hard then policy_max p else max_freq_hard,
   max_freq_soft).

(** "Check for frequency decrease" to the end of the function. *)
Definition check_freq_decrease (t : dbs_tuners) (p : cpufreq_policy)
    (active boosted : bool) (max_load : Z) (d : cpu_dbs_info_s)
  : option (cpu_dbs_info_s * list action) :=
  if (max_load <? down_threshold d)
     && (negb boosted || (input_boost_freq t <? policy_cur p)) then
    q ← udiv (u32 (requested_freq d * max_load))
             (u32 (up_threshold t - down_differential t));
    let min_supporting_freq :=
      cpufreq_frequency_table_target p q CPUFREQ_RELATION_L in
    let commit (d : cpu_dbs_info_s) :=
      let d := if requested_freq d <? policy_min p
               then set_requested_freq (policy_min p) d else d in
      Some (set_down_skip 0 d,
            [cpufreq_driver_target (requested_freq d) CPUFREQ_RELATION_L]) in
    if active then
      let d := set_down_skip (u32 (down_skip d + 1)) d in
      if down_skip d <? sampling_down_factor t then
        if (sampling_down_factor_relax_khz t =? 0)
           || (freq_lo d
               <? u32 (policy_min p + sampling_down_factor_relax_khz t))
        then Some (d, [])
        else if cpufreq_frequency_table_target p
                  (u32 (freq_lo d - sampling_down_factor_relax_khz t))
                  CPUFREQ_RELATION_L
                <? min_supporting_freq
        then Some (d, [])
        else commit (set_requested_freq (freq_lo d) d)
      else commit (set_requested_freq (freq_lo d) d)
    else commit (set_requested_freq min_supporting_freq d)
  else Some (set_down_skip 0 d, []).

(** The result of the frequency logic: the core's state, the [standby]
    flag, [delay] and the driver requests. *)
Abbreviation freq_result :=
  (cpu_dbs_info_s * bool * Z * list action)%type (only parsing).

(** From the reset of the increase-delay counter through the "standby mode
    activation logic" into the decrease check. *)
Definition standby_activation (t : dbs_tuners) (p : cpufreq_policy)
    (active boosted : bool) (max_load : Z) (sb : bool) (dl : Z)
    (d : cpu_dbs_info_s) : option freq_result :=
  let d := set_sampling_up_counter 0 d in
  if policy_cur p <=? _standby_threshold_freq t then
    let '(d, sb, dl) :=
      if active && negb boosted then
        let d := set_standby_counter (u32 (standby_counter d + 1)) d in
        let '(d, sb) :=
          if standby_delay_factor t <=? standby_counter d
          then (set_oc_boost_cycles 0 d, true) else (d, sb) in
        (d, sb, standby_sampling_rate t)
      else (d, sb, dl) in
    if policy_cur p =? policy_min p then Some (d, sb, dl, [])
    else
      '(d, acts) ← check_freq_decrease t p active boosted max_load d;
      Some (d, sb, dl, acts)
  else
    '(d, acts) ← check_freq_decrease t p active boosted max_load d;
    Some (d, sb, dl, acts).

(** The body of "Check for frequency increase". *)
Definition check_freq_increase (t : dbs_tuners) (p : cpufreq_policy)
    (susp sb : bool) (max_freq_hard max_freq_soft : Z) (d : cpu_dbs_info_s)
  : cpu_dbs_info_s * list action :=
  let max_freq_soft :=
    if sb then _standby_max_freq_soft t else max_freq_soft in
  let max_freq_soft :=
    if max_freq_hard <? max_freq_soft then max_freq_hard else max_freq_soft in
  let d := set_down_skip 0 d in
  if max_freq_soft <=? requested_freq d then (d, [])
  else
    let d := set_standby_counter 0 d in
    let count (factor : Z) :=
      let d := set_sampling_up_counter (u32 (sampling_up_counter d + 1)) d in
      (d, sampling_up_counter d <? factor) in
    let '(d, wait) :=
      if susp then count (suspend_sampling_up_factor t)
      else if sb then count (standby_sampling_up_factor t)
      else if negb (power_optimal_freq t =? 0)
              && (power_optimal_freq t <=? policy_cur p)
      then count (high_freq_sampling_up_factor t)
      else (d, false) in
    if wait then (d, [])
    else
      let d := set_sampling_up_counter 0 d in
      let f := cpufreq_frequency_table_target p (u32 (policy_cur p + 1))
                 CPUFREQ_RELATION_L in
      let f := if policy_max p <? f then policy_max p else f in
      (set_requested_freq f d,
       [cpufreq_driver_target f CPUFREQ_RELATION_H]).

(** "frequency changing logic starts here" *)
Definition frequency_logic (t : dbs_tuners) (p : cpufreq_policy)
    (susp sb active boosted : bool) (dl max_load : Z) (d : cpu_dbs_info_s)
  : option freq_result :=
  let '(freq_target, _, _) := input_boost_limits t p susp boosted in
  if match freq_target with
     | Some f => policy_cur p <? f
     | None => false
     end
  then
    let f := default 0 freq_target in
    Some (set_requested_freq f d, sb, dl,
          [cpufreq_driver_target f CPUFREQ_RELATION_H])
  else
    let '(max_freq_hard, max_freq_soft) :=
      freq_ceilings t p susp boosted active d in
    if max_freq_hard <? requested_freq d then
      Some (set_requested_freq max_freq_hard d, sb, dl,
            [cpufreq_driver_target max_freq_hard CPUFREQ_RELATION_H])
    else if (if active then up_threshold t else 99) <? max_load then
      let '(d, acts) :=
        check_freq_increase t p susp sb max_freq_hard max_freq_soft d in
      Some (d, sb, dl, acts)
    else standby_activation t p active boosted max_load sb dl d.

(** [dbs_check_cpu(this_dbs_info)] for [this_dbs_info =
    &per_cpu(cs_cpu_dbs_info, this)]. *)
Definition dbs_check_cpu (this : nat) (env : tick_env) (g : gov)
  : option (gov * list action) :=
  this_dbs_info ← cs_cpu_dbs_info g !! this;
  let p := policy g in
  let t := tuners g in
  let boosted := is_boosted (now env) g in
  let active := is_active g in
  let '(slot, g) := history_push g in
  let oc_freq_delta := oc_freq_delta_of active t p this_dbs_info in
  '(cpus, us, max_load) ←
    load_loop t active (standby g) (suspend g) boosted this slot
      oc_freq_delta (sample env) (policy_cpus p)
      (cs_cpu_dbs_info g, usage (hotplug_history g), 0);
  let g := set_cs_cpu_dbs_info cpus
             (set_hotplug_history
                {| usage := us; num_hist := num_hist (hotplug_history g) |}
                g) in
  '(g, hp_acts) ← hotplug_check env (cpu this_dbs_info) g;
  this_dbs_info ← cs_cpu_dbs_info g !! this;
  '(d, sb, dl, acts) ←
    frequency_logic t p (suspend g) (standby g) active boosted (delay g)
      max_load this_dbs_info;
  Some (set_delay dl (set_standby sb
          (set_cs_cpu_dbs_info (<[this := d]> (cs_cpu_dbs_info g)) g)),
        hp_acts ++ acts).

(** ** The derived threshold and limits *)

(** [recalculate_down_threshold]; the division traps when
    [policy->cur] is 0. *)
Definition recalculate_down_threshold (t : dbs_tuners) (p : cpufreq_policy)
    (this_dbs_info : cpu_dbs_info_s) : option cpu_dbs_info_s :=
  let span := u32 (up_threshold t - down_differential t) in
  temp ← udiv (u32 (span * freq_lo this_dbs_info)) (policy_cur p);
  let temp := if (temp <? 10) || (span <? temp) then span / 2 else temp in
  Some (set_down_threshold temp this_dbs_info).

(** [recalculate_down_threshold_all] over the online cores. *)
Definition recalculate_down_threshold_all (online_cpus : list nat) (g : gov)
  : option gov :=
  cpus ← foldl (fun acc c =>
                  cpus ← acc;
                  d ← cpus !! c;
                  d ← recalculate_down_threshold (tuners g) (policy g) d;
                  Some (<[c := d]> cpus))
               (Some (cs_cpu_dbs_info g)) online_cpus;
  Some (set_cs_cpu_dbs_info cpus g).

Definition NOTIFY_DONE : Z := 0.
Definition NOTIFY_OK : Z := 1.

(** [dbs_cpufreq_notifier] for a transition of core [freq_cpu] to
    [freq_new]. *)
Definition dbs_cpufreq_notifier (freq_cpu : nat) (freq_new : Z) (g : gov)
  : option (Z * gov) :=
  this_dbs_info ← cs_cpu_dbs_info g !! freq_cpu;
  if negb (enable this_dbs_info) then Some (NOTIFY_DONE, g)
  else
    let p := policy g in
    let d :=
      if (policy_max p <? requested_freq this_dbs_info)
         || (requested_freq this_dbs_info <? policy_min p)
      then set_requested_freq freq_new this_dbs_info
      else this_dbs_info in
    d ← (if policy_min p <? freq_new then
           recalculate_down_threshold (tuners g) p
             (set_freq_lo
                (cpufreq_frequency_table_target p (freq_new - 1)
                   CPUFREQ_RELATION_H) d)
         else Some (set_freq_lo (policy_min p) d));
    Some (NOTIFY_OK,
          set_cs_cpu_dbs_info (<[freq_cpu := d]> (cs_cpu_dbs_info g)) g).

(** [recalculate_freq_limits]; [present] is num_present_cpus(). *)
Definition recalculate_freq_limits (present : Z) (p : cpufreq_policy)
    (t : dbs_tuners) : dbs_tuners :=
  let nz x := negb (x =? 0) in
  let hard :=
    if nz (max_non_oc_freq t)
       && ((oc_freq_boost_ms t =? 0)
           || ((power_optimal_freq t =? 0) && (suspend_max_freq t =? 0)))
    then max_non_oc_freq t
    else if nz (power_optimal_freq t) then power_optimal_freq t
    else if nz (suspend_max_freq t) then suspend_max_freq t
    else policy_max p in
  let soft :=
    if nz (suspend_max_freq t) then suspend_max_freq t
    else if nz (power_optimal_freq t) then power_optimal_freq t
    else policy_max p in
  let sb_soft :=
    if nz (max_non_oc_freq t)
       && (((max_non_oc_freq t <? policy_max p) && (oc_freq_boost_ms t =? 0))
           || (power_optimal_freq t =? 0))
    then max_non_oc_freq t
    else if nz (power_optimal_freq t) then power_optimal_freq t
    else policy_max p in
  let clamp x := if policy_max p <? x then policy_max p else x in
  let oc :=
    if (max_non_oc_freq t <? policy_max p) && nz (oc_freq_boost_ms t)
    then u32 (oc_freq_boost_ms t * present
              * (policy_max p - max_non_oc_freq t)) / 1000
    else 0 in
  set_limits (clamp soft) (clamp hard) (clamp sb_soft) oc
    (u32 (policy_min p + standby_threshold_freq t)) t.

(** ** The two validated setters *)

(** [store_up_threshold] and [store_down_differential], instances of
    [__store_int].  [buf] is what [sscanf(buf, "%u", &input)] yields
    ([None] when it does not return 1), [count] the length written; the
    result is the value returned and the state. *)
Definition store_up_threshold (online_cpus : list nat) (buf : option Z)
    (count : Z) (g : gov) : option (Z * gov) :=
  match buf with
  | Some input =>
      if (down_differential (tuners g) <? input) && (input <=? 100) then
        g ← recalculate_down_threshold_all online_cpus
              (set_tuners (set_up_threshold input (tuners g)) g);
        Some (count, g)
      else Some (- EINVAL, g)
  | None => Some (- EINVAL, g)
  end.

Definition store_down_differential (online_cpus : list nat) (buf : option Z)
    (count : Z) (g : gov) : option (Z * gov) :=
  match buf with
  | Some input =>
      if (0 <? input) && (input <? up_threshold (tuners g)) then
        g ← recalculate_down_threshold_all online_cpus
              (set_tuners (set_down_differential input (tuners g)) g);
        Some (count, g)
      else Some (- EINVAL, g)
  | None => Some (- EINVAL, g)
  end.

(** A write to one of the two sysfs files. *)
Inductive store_call :=
| write_up_threshold (buf : option Z) (count : Z)
| write_down_differential (buf : option Z) (count : Z).

Definition store (online_cpus : list nat) (c : store_call) (g : gov)
  : option (Z * gov) :=
  match c with
  | write_up_threshold buf count => store_up_threshold online_cpus buf count g
  | write_down_differential buf count =>
      store_down_differential online_cpus buf count g
  end.

(** A sequence of writes, threading the state. *)
Fixpoint stores (online_cpus : list nat) (cs : list store_call) (g : gov)
  : option gov :=
  match cs with
  | [] => Some g
  | c :: cs =>
      r ← store online_cpus c g;
      stores online_cpus cs r.2
  end.

(** The configuration invariant of the design. *)
Definition threshold_invariant (t : dbs_tuners) : Prop :=
  down_differential t < up_threshold t <= 100.

(** ** Events between ticks *)

(** The cpufreq core records a new current frequency in the policy. *)
Definition with_cur (cur : Z) (g : gov) : gov := {|
  rq_data := rq_data g; tuners := tuners g; suspend := suspend g;
  standby := standby g; delay := delay g;
  last_input_time := last_input_time g;
  hotplug_history := hotplug_history g;
  _hotplug_rq := _hotplug_rq g; _hotplug_freq := _hotplug_freq g;
  cs_cpu_dbs_info := cs_cpu_dbs_info g;
  policy := {| policy_min := policy_min (policy g);
               policy_max := policy_max (policy g);
               policy_cur := cur;
               policy_cpus := policy_cpus (policy g) |} |}.

(** What reaches the governor of core [this] over time: the timer runs a
    tick ([do_dbs_timer] calls [dbs_check_cpu]), the transition notifier
    is called for a frequency [freq_new], or the cpufreq core updates
    [policy->cur]. *)
Inductive gov_event :=
| ev_tick (env : tick_env)
| ev_notify (freq_new : Z)
| ev_cur (cur : Z).

Definition gov_step (this : nat) (ev : gov_event) (g : gov) : option gov :=
  match ev with
  | ev_tick env => r ← dbs_check_cpu this env g; Some r.1
  | ev_notify freq_new => r ← dbs_cpufreq_notifier this freq_new g; Some r.2
  | ev_cur cur => Some (with_cur cur g)
  end.

Fixpoint gov_run (this : nat) (evs : list gov_event) (g : gov) : option gov :=
  match evs with
  | [] => Some g
  | ev :: evs => g ← gov_step this ev g; gov_run this evs g
  end.

(** ** Concrete states used to exercise the model *)

(** The policy of the Exynos 4412: 200 MHz to 1.4 GHz, four cores. *)
Definition exynos_policy (cur : Z) : cpufreq_policy := {|
  policy_min := 200000; policy_max := 1400000; policy_cur := cur;
  policy_cpus := [0; 1; 2; 3]%nat |}.

(** The same limits with core 0 alone in the policy. *)
Definition single_core_policy (cur : Z) : cpufreq_policy := {|
  policy_min := 200000; policy_max := 1400000; policy_cur := cur;
  policy_cpus := [0%nat] |}.

(** The per-cpu structure of a core just started at frequency [cur], its
    time snapshots at 0. *)
Definition started_dbs_info (c : nat) (cur : Z) : cpu_dbs_info_s := {|
  prev_cpu_idle := 0; prev_cpu_wall := 0; prev_cpu_nice := 0;
  prev_cpu_io := 0; freq_lo := 0; down_skip := 0;
  requested_freq := cur; sampling_up_counter := 0; standby_counter := 0;
  down_threshold := 40; oc_boost_cycles := 0; cpu := c; enable := true |}.

Definition empty_history : cpu_usage_history := {|
  usage := replicate 40 {| freq := 0; load := replicate 4 0; rq_avg := 0 |};
  num_hist := 0 |}.

(** A governor state with given tunables, policy, mode flags and state
    of core 0; the other cores are as after start. *)
Definition gov_with (t : dbs_tuners) (p : cpufreq_policy) (susp sb : bool)
    (h : cpu_usage_history) (d0 : cpu_dbs_info_s) : gov := {|
  rq_data := {| nr_run_avg := 0; update_rate := RQ_AVG_TIMER_RATE;
                last_time := 0; total_time := 0 |};
  tuners := t;
  suspend := susp; standby := sb;
  delay := sampling_rate t;
  last_input_time := 0;
  hotplug_history := h;
  _hotplug_rq := _hotplug_rq_init;
  _hotplug_freq := _hotplug_freq_init;
  cs_cpu_dbs_info := [d0; started_dbs_info 1 (policy_cur p);
                      started_dbs_info 2 (policy_cur p);
                      started_dbs_info 3 (policy_cur p)];
  policy := p |}.

(** The default tunables (HZ = 200) with the limits computed for the
    Exynos policy. *)
Definition default_tuners : dbs_tuners :=
  recalculate_freq_limits 4 (exynos_policy 200000) (dbs_tuners_ins 200).

(** The governor just after start with the default tunables, running at
    [cur]. *)
Definition started_gov (cur : Z) : gov :=
  gov_with default_tuners (exynos_policy cur) false false empty_history
    (started_dbs_info 0 cur).

(** ** Words of the design used in the statements *)

(** The validated range of each of the two files. *)
Definition accepted (c : store_call) (t : dbs_tuners) : Prop :=
  match c with
  | write_up_threshold (Some input) _ => down_differential t < input <= 100
  | write_down_differential (Some input) _ => 0 < input < up_threshold t
  | _ => False
  end.


(** Two per-core structures that agree on everything the frequency logic
    decides with, except the overclock credit: the load loop only writes
    the [prev_cpu_*] snapshots and that credit. *)
Definition same_control (d d' : cpu_dbs_info_s) : Prop :=
  freq_lo d' = freq_lo d /\ down_skip d' = down_skip d /\
  requested_freq d' = requested_freq d /\
  sampling_up_counter d' = sampling_up_counter d /\
  standby_counter d' = standby_counter d /\
  down_threshold d' = down_threshold d /\
  cpu d' = cpu d /\ enable d' = enable d.

Definition is_hotplug (a : action) : bool :=
  match a with
  | queue_up_work _ | queue_down_work _ => true
  | cpufreq_driver_target _ _ => false
  end.

(** The rules of [check_up] and [check_down] that return true without
    looking at the history. *)
Definition up_short_circuit (now online : Z) (g : gov) : Prop :=
  (min_cpu_lock (tuners g) <> 0 /\ online < min_cpu_lock (tuners g)) \/
  (is_boosted now g = true /\ boost_mincpus (tuners g) <> 0
   /\ online < boost_mincpus (tuners g)).

Definition down_short_circuit (online : Z) (g : gov) : Prop :=
  max_cpu_lock (tuners g) <> 0 /\ max_cpu_lock (tuners g) < online.

(** What the hotplug checks need in order to run: both tables have a row
    for the current number of online cores ([hotplug_rows]), the rates are
    positive, and the history count is inside the array. *)
Definition hotplug_rows (online : Z) (g : gov) : Prop :=
  forall idx, (idx < 2)%nat ->
    is_Some (hotplug_param (_hotplug_freq g) online idx) /\
    is_Some (hotplug_param (_hotplug_rq g) online idx).

Definition hotplug_ready (online : Z) (g : gov) : Prop :=
  hotplug_rows online g /\
  0 < cpu_up_rate (tuners g) < 2 ^ 31 /\
  0 < cpu_down_rate (tuners g) < 2 ^ 31 /\
  0 <= num_hist (hotplug_history g)
    <= Z.of_nat (length (usage (hotplug_history g))) /\
  num_hist (hotplug_history g) < 2 ^ 31.

(** What a tick needs in order to run to its end: the cores it touches
    exist, the hotplug tables have a row for the current number of online
    cores, the hotplug rates are positive, the history array has its 40
    slots, and the thresholds satisfy the configuration invariant. *)
Definition tick_ready (this : nat) (env : tick_env) (g : gov) : Prop :=
  (this < length (cs_cpu_dbs_info g))%nat /\
  Forall (fun j => (j < length (cs_cpu_dbs_info g))%nat)
         (policy_cpus (policy g)) /\
  hotplug_rows (online env) g /\
  0 < cpu_up_rate (tuners g) < 2 ^ 31 /\
  0 < cpu_down_rate (tuners g) < 2 ^ 31 /\
  length (usage (hotplug_history g)) = 40%nat /\
  0 <= num_hist (hotplug_history g) /\
  threshold_invariant (tuners g) /\
  0 <= down_differential (tuners g).

(** A core that was busy for [busy] of the last [wall] microseconds. *)
Definition busy_sample (wall busy : Z) : cpu_sample := {|
  cur_wall_time := wall; cur_idle_time := wall - busy;
  cur_io_time := 0; cur_nice_stat := 0 |}.

(** A tick at time [t] with [n] cores online out of four, every core
    showing the same sample. *)
Definition uniform_env (t n : Z) (s : cpu_sample) : tick_env := {|
  now := t; online := n; possible := 4; sample := fun _ => s |}.

(** The frequency tunables as their setters leave them: [verify_freq]
    replaces an input by a table frequency inside the policy limits
    (input_boost_freq, suspend_max_freq and power_optimal_freq may also be
    0), and every setter that changes a limit ends with
    [recalculate_freq_limits], so the derived fields are up to date. *)
Definition frequency_tunables_valid (present : Z) (p : cpufreq_policy)
    (t : dbs_tuners) : Prop :=
  let inside f := policy_min p <= f <= policy_max p in
  (input_boost_freq t = 0 \/ inside (input_boost_freq t)) /\
  (max_non_oc_freq t = 0 \/ inside (max_non_oc_freq t)) /\
  (power_optimal_freq t = 0 \/ inside (power_optimal_freq t)) /\
  (suspend_max_freq t = 0 \/ inside (suspend_max_freq t)) /\
  recalculate_freq_limits present p t = t.

(** The bounds a tick is to keep: the requested frequency inside the
    policy limits, and [freq_lo] (a table entry below the current
    frequency, or [policy->min]) not above the policy maximum. *)
Definition within_policy (p : cpufreq_policy) (d : cpu_dbs_info_s) : Prop :=
  policy_min p <= requested_freq d <= policy_max p /\
  freq_lo d <= policy_max p.

(** The table lookup of the kernel answers with a frequency inside the
    policy limits. *)
Definition table_within_policy (p : cpufreq_policy) : Prop :=
  forall target rel,
    policy_min p <= cpufreq_frequency_table_target p target rel
                 <= policy_max p.

(** A tick qualifies for the standby count when it reaches the standby
    logic (no boost request, no hard-limit enforcement, load not above the
    increase threshold) in Active mode, not boosted, with the current
    frequency at or below the standby-entry threshold. *)
Definition standby_qualifying (t : dbs_tuners) (p : cpufreq_policy)
    (susp sb boosted : bool) (max_load : Z) (d : cpu_dbs_info_s) : Prop :=
  negb (susp || sb) = true /\ boosted = false /\
  requested_freq d
    <= (freq_ceilings t p susp boosted (negb (susp || sb)) d).1 /\
  max_load <= up_threshold t /\
  policy_cur p <= _standby_threshold_freq t.

(** The Exynos kernel. *)
Definition exynos_kernel : kernel_services := table_kernel exynos4412_table.

(** Ticks at t = 1 s with all four cores online (so that neither hotplug
    check fires with the default locks): idle, half busy and fully busy
    over a first period of 30 ms. *)
Definition idle_env : tick_env := uniform_env 1000000 4 (busy_sample 30000 0).
Definition half_busy_env : tick_env :=
  uniform_env 1000000 4 (busy_sample 30000 15000).
Definition full_busy_env : tick_env :=
  uniform_env 1000000 4 (busy_sample 30000 30000).

(** The first tick after start with one core online, idle, and the
    governor started on that core alone. *)
Definition one_core_env : tick_env :=
  uniform_env 1000000 1 (busy_sample 30000 0).

Definition one_core_gov : gov :=
  gov_with default_tuners (single_core_policy 200000) false false
    empty_history (started_dbs_info 0 200000).

(** A history whose first [n] slots hold the same reading. *)
Definition filled_history (n : nat) (f rq : Z) : cpu_usage_history := {|
  usage := replicate n {| freq := f; load := replicate 4 0; rq_avg := rq |}
           ++ replicate (40 - n) {| freq := 0; load := replicate 4 0;
                                    rq_avg := 0 |};
  num_hist := Z.of_nat n |}.

(** Two cores online, the core lock released, ten busy samples. *)
Definition unlocked_busy_gov : gov :=
  gov_with (set_min_cpu_lock 0 default_tuners) (exynos_policy 800000)
    false false (filled_history 10 800000 250) (started_dbs_info 0 800000).

(** Suspended, not boosted, the hardware at 1 GHz while the governor's
    own request stands at 500 MHz and the increase delay has one tick to
    go. *)
Definition suspended_gov : gov :=
  gov_with default_tuners (exynos_policy 1000000) true false empty_history
    (set_sampling_up_counter 6 (started_dbs_info 0 500000)).



(** An Active governor at 200 MHz with the core lock released and
    nineteen quiet samples in the history, and a tick that finds three of
    the four cores online and idle: the tick adds the twentieth sample,
    which completes the window of cpu_down_rate = 20. *)
Definition active_quiet_gov : gov :=
  gov_with (set_min_cpu_lock 0 default_tuners) (exynos_policy 200000)
    false false (filled_history 19 200000 100) (started_dbs_info 0 200000).

Definition three_core_idle_env : tick_env :=
  uniform_env 1000000 3 (busy_sample 30000 0).

(** Active with standby_delay_factor = 3. *)
Definition slow_standby_gov (cur counter : Z) : gov :=
  gov_with (set_standby_delay_factor 3 default_tuners) (exynos_policy cur)
    false false empty_history
    (set_standby_counter counter (started_dbs_info 0 cur)).

(** A tick on core 0 followed by the hardware settling at [cur]. *)
Definition tick_then (env : tick_env) (cur : Z) (g : gov) : option gov :=
  r ← dbs_check_cpu 0 env g; Some (with_cur cur r.1).

(** The state of core 0. *)
Definition core0 (g : gov) : option cpu_dbs_info_s := cs_cpu_dbs_info g !! 0%nat.

(** The policy after scaling_min_freq was raised to 1 GHz, and the
    governor with the default tunables (max_non_oc_freq = 900 MHz) under
    it, limits recomputed, running at the new minimum. *)
Definition raised_min_policy : cpufreq_policy := {|
  policy_min := 1000000; policy_max := 1400000; policy_cur := 1000000;
  policy_cpus := [0; 1; 2; 3]%nat |}.

Definition raised_min_gov : gov :=
  gov_with (recalculate_freq_limits 4 raised_min_policy (dbs_tuners_ins 200))
    raised_min_policy false false empty_history
    (started_dbs_info 0 1000000).

(** The state of a governed core between events: a policy with ordered
    limits and a nonzero current frequency, tunables as the setters leave
    them, the arrays in place, and the requested frequency inside the
    policy limits. *)
Definition governed (present : Z) (this : nat) (g : gov) : Prop :=
  policy_min (policy g) <= policy_max (policy g) /\
  policy_cur (policy g) <> 0 /\
  frequency_tunables_valid present (policy g) (tuners g) /\
  (this < length (cs_cpu_dbs_info g))%nat /\
  Forall (fun j => (j < length (cs_cpu_dbs_info g))%nat)
         (policy_cpus (policy g)) /\
  0 < cpu_up_rate (tuners g) < 2 ^ 31 /\
  0 < cpu_down_rate (tuners g) < 2 ^ 31 /\
  length (usage (hotplug_history g)) = 40%nat /\
  0 <= num_hist (hotplug_history g) /\
  threshold_invariant (tuners g) /\
  0 <= down_differential (tuners g) /\
  exists d, cs_cpu_dbs_info g !! this = Some d /\ within_policy (policy g) d.

(** Two states of the same platform: same hotplug tables, same policy
    limits and cores. *)
Definition same_platform (g0 g : gov) : Prop :=
  _hotplug_rq g = _hotplug_rq g0 /\ _hotplug_freq g = _hotplug_freq g0 /\
  policy_min (policy g) = policy_min (policy g0) /\
  policy_max (policy g) = policy_max (policy g0) /\
  policy_cpus (policy g) = policy_cpus (policy g0).

(** An event the kernel can deliver in state [g0] or any later state of
    the same platform: a tick sees a number of online cores the hotplug
    tables have a row for, and the current frequency is never 0. *)
Definition event_admissible (g0 : gov) (ev : gov_event) : Prop :=
  match ev with
  | ev_tick env => hotplug_rows (online env) g0
  | ev_notify _ => True
  | ev_cur cur => cur <> 0
  end.

(** The table lookup answers inside the policy limits whatever the
    current frequency is. *)
Definition table_within_limits (g : gov) : Prop :=
  forall cur, table_within_policy (policy (with_cur cur g)).

End Governor.

(** * The rest of the governor

    The sysfs files, the hotplug work items, the input handler, the
    suspend and resume path, the timer and the governor callback. *)

(** ** More of the kernel *)

(** The return code of [cpufreq_frequency_table_target] (which
    [verify_freq] tests) and the jiffies conversions of the time code. *)
Class kernel_support := {
  cpufreq_frequency_table_target_ret : cpufreq_policy -> Z -> relation -> Z;
  usecs_to_jiffies : Z -> Z;
  jiffies_to_usecs : Z -> Z
}.

(** What a sysfs handler reads from the rest of the kernel: the cores of
    [for_each_online_cpu], num_possible_cpus(), num_present_cpus(), and
    [get_cpu_iowait_time_us(j, NULL)] for each core. *)
Record sysfs_env := {
  online_cpus : list nat;
  num_possible_cpus : Z;
  num_present_cpus : Z;
  get_cpu_iowait_time_us : nat -> Z
}.

Definition num_online_cpus (e : sysfs_env) : Z :=
  Z.of_nat (length (online_cpus e)).

(** ** Writes to the global state *)

Definition set_suspend (v : bool) (g : gov) : gov := {|
  rq_data := rq_data g; tuners := tuners g; suspend := v;
  standby := standby g; delay := delay g;
  last_input_time := last_input_time g;
  hotplug_history := hotplug_history g;
  _hotplug_rq := _hotplug_rq g; _hotplug_freq := _hotplug_freq g;
  cs_cpu_dbs_info := cs_cpu_dbs_info g; policy := policy g |}.

Definition set_last_input_time (v : Z) (g : gov) : gov := {|
  rq_data := rq_data g; tuners := tuners g; suspend := suspend g;
  standby := standby g; delay := delay g;
  last_input_time := v;
  hotplug_history := hotplug_history g;
  _hotplug_rq := _hotplug_rq g; _hotplug_freq := _hotplug_freq g;
  cs_cpu_dbs_info := cs_cpu_dbs_info g; policy := policy g |}.

Definition set__hotplug_rq (v : list (list Z)) (g : gov) : gov := {|
  rq_data := rq_data g; tuners := tuners g; suspend := suspend g;
  standby := standby g; delay := delay g;
  last_input_time := last_input_time g;
  hotplug_history := hotplug_history g;
  _hotplug_rq := v; _hotplug_freq := _hotplug_freq g;
  cs_cpu_dbs_info := cs_cpu_dbs_info g; policy := policy g |}.

Definition set__hotplug_freq (v : list (list Z)) (g : gov) : gov := {|
  rq_data := rq_data g; tuners := tuners g; suspend := suspend g;
  standby := standby g; delay := delay g;
  last_input_time := last_input_time g;
  hotplug_history := hotplug_history g;
  _hotplug_rq := _hotplug_rq g; _hotplug_freq := v;
  cs_cpu_dbs_info := cs_cpu_dbs_info g; policy := policy g |}.

Definition set_policy (v : cpufreq_policy) (g : gov) : gov := {|
  rq_data := rq_data g; tuners := tuners g; suspend := suspend g;
  standby := standby g; delay := delay g;
  last_input_time := last_input_time g;
  hotplug_history := hotplug_history g;
  _hotplug_rq := _hotplug_rq g; _hotplug_freq := _hotplug_freq g;
  cs_cpu_dbs_info := cs_cpu_dbs_info g; policy := v |}.

Definition set_enable (v : bool) (d : cpu_dbs_info_s) : cpu_dbs_info_s := {|
  prev_cpu_idle := prev_cpu_idle d; prev_cpu_wall := prev_cpu_wall d;
  prev_cpu_nice := prev_cpu_nice d; prev_cpu_io := prev_cpu_io d;
  freq_lo := freq_lo d; down_skip := down_skip d;
  requested_freq := requested_freq d;
  sampling_up_counter := sampling_up_counter d;
  standby_counter := standby_counter d;
  down_threshold := down_threshold d;
  oc_boost_cycles := oc_boost_cycles d;
  cpu := cpu d; enable := v |}.

(** The fields of [dbs_tuners_ins] that the sysfs macros name as their
    [object], and the two limits copied from the policy at start. *)
Inductive object :=
| o_input_boost_freq | o_input_boost_us | o_power_optimal_freq
| o_high_freq_sampling_up_factor | o_up_threshold | o_down_differential
| o_ignore_nice | o_io_is_busy | o_sampling_rate | o_sampling_down_factor
| o_sampling_down_factor_relax_khz | o_max_non_oc_freq | o_oc_freq_boost_ms
| o_standby_delay_factor | o_standby_threshold_freq
| o_standby_sampling_rate | o_standby_sampling_up_factor
| o_suspend_sampling_rate | o_suspend_sampling_up_factor
| o_suspend_max_freq | o_cpu_up_rate | o_cpu_down_rate | o_cpu_up_freq
| o_cpu_down_freq | o_up_nr_cpus | o_max_cpu_lock | o_min_cpu_lock
| o_dvfs_debug | o_max_freq | o_min_freq | o_boost_mincpus.

Scheme Equality for object.

(** [dbs_tuners_ins.object] *)
Definition object_value (o : object) (t : dbs_tuners) : Z :=
  match o with
  | o_input_boost_freq => input_boost_freq t
  | o_input_boost_us => input_boost_us t
  | o_power_optimal_freq => power_optimal_freq t
  | o_high_freq_sampling_up_factor => high_freq_sampling_up_factor t
  | o_up_threshold => up_threshold t
  | o_down_differential => down_differential t
  | o_ignore_nice => ignore_nice t
  | o_io_is_busy => io_is_busy t
  | o_sampling_rate => sampling_rate t
  | o_sampling_down_factor => sampling_down_factor t
  | o_sampling_down_factor_relax_khz => sampling_down_factor_relax_khz t
  | o_max_non_oc_freq => max_non_oc_freq t
  | o_oc_freq_boost_ms => oc_freq_boost_ms t
  | o_standby_delay_factor => standby_delay_factor t
  | o_standby_threshold_freq => standby_threshold_freq t
  | o_standby_sampling_rate => standby_sampling_rate t
  | o_standby_sampling_up_factor => standby_sampling_up_factor t
  | o_suspend_sampling_rate => suspend_sampling_rate t
  | o_suspend_sampling_up_factor => suspend_sampling_up_factor t
  | o_suspend_max_freq => suspend_max_freq t
  | o_cpu_up_rate => cpu_up_rate t
  | o_cpu_down_rate => cpu_down_rate t
  | o_cpu_up_freq => cpu_up_freq t
  | o_cpu_down_freq => cpu_down_freq t
  | o_up_nr_cpus => up_nr_cpus t
  | o_max_cpu_lock => max_cpu_lock t
  | o_min_cpu_lock => min_cpu_lock t
  | o_dvfs_debug => dvfs_debug t
  | o_max_freq => max_freq t
  | o_min_freq => min_freq t
  | o_boost_mincpus => boost_mincpus t
  end.

(** [dbs_tuners_ins.object = v] *)
Definition assign (o : object) (v : Z) (t : dbs_tuners) : dbs_tuners :=
  let field (o' : object) :=
    if object_beq o o' then v else object_value o' t in
  {| input_boost_freq := field o_input_boost_freq;
     input_boost_us := field o_input_boost_us;
     power_optimal_freq := field o_power_optimal_freq;
     high_freq_sampling_up_factor := field o_high_freq_sampling_up_factor;
     up_threshold := field o_up_threshold;
     down_differential := field o_down_differential;
     ignore_nice := field o_ignore_nice;
     io_is_busy := field o_io_is_busy;
     sampling_rate := field o_sampling_rate;
     sampling_down_factor := field o_sampling_down_factor;
     sampling_down_factor_relax_khz := field o_sampling_down_factor_relax_khz;
     max_non_oc_freq := field o_max_non_oc_freq;
     oc_freq_boost_ms := field o_oc_freq_boost_ms;
     standby_delay_factor := field o_standby_delay_factor;
     standby_threshold_freq := field o_standby_threshold_freq;
     standby_sampling_rate := field o_standby_sampling_rate;
     standby_sampling_up_factor := field o_standby_sampling_up_factor;
     suspend_sampling_rate := field o_suspend_sampling_rate;
     suspend_sampling_up_factor := field o_suspend_sampling_up_factor;
     suspend_max_freq := field o_suspend_max_freq;
     cpu_up_rate := field o_cpu_up_rate;
     cpu_down_rate := field o_cpu_down_rate;
     cpu_up_freq := field o_cpu_up_freq;
     cpu_down_freq := field o_cpu_down_freq;
     up_nr_cpus := field o_up_nr_cpus;
     max_cpu_lock := field o_max_cpu_lock;
     min_cpu_lock := field o_min_cpu_lock;
     dvfs_debug := field o_dvfs_debug;
     max_freq := field o_max_freq;
     min_freq := field o_min_freq;
     boost_mincpus := field o_boost_mincpus;
     _suspend_max_freq_soft := _suspend_max_freq_soft t;
     _suspend_max_freq_hard := _suspend_max_freq_hard t;
     _standby_max_freq_soft := _standby_max_freq_soft t;
     _oc_limit := _oc_limit t;
     _standby_threshold_freq := _standby_threshold_freq t |}.

(** ** The hotplug work items *)

(** The cores whose bit in a cpumask is [b], in increasing order; the
    mask has one entry per core id below nr_cpu_ids. *)
Fixpoint mask_cpus (b : bool) (i : nat) (mask : list bool) : list nat :=
  match mask with
  | [] => []
  | x :: mask =>
      if Bool.eqb x b then i :: mask_cpus b (S i) mask
      else mask_cpus b (S i) mask
  end.

(** num_online_cpus() for a given [cpu_online_mask]. *)
Definition mask_weight (mask : list bool) : Z :=
  Z.of_nat (length (mask_cpus true 0 mask)).

(** The loop of [cpu_up_work] over the cores that are not online: the
    cores handed to [cpu_up], in order.  Bringing a core up sets a bit
    that the iteration has already passed. *)
Fixpoint up_loop (nr_up : Z) (cpus : list nat) : list nat :=
  match cpus with
  | [] => []
  | c :: cpus =>
      if nr_up =? 0 then []
      else
        let nr_up := to_int (nr_up - 1) in
        if (c =? 0)%nat then up_loop nr_up cpus
        else c :: up_loop nr_up cpus
  end.

(** The number of cores [cpu_up_work] sets out to bring up ([nr_up] when
    the loop starts), given num_online_cpus(). *)
Definition cpu_up_budget (now online : Z) (g : gov) : Z :=
  let t := tuners g in
  let nr_up := to_int (up_nr_cpus t) in
  let min_cpu_lock := to_int (min_cpu_lock t) in
  let boost_mincpus := to_int (boost_mincpus t) in
  if negb (standby g) then to_int (NR_CPUS - online)
  else
    let nr_up :=
      if negb (min_cpu_lock =? 0) then to_int (min_cpu_lock - online)
      else nr_up in
    if is_boosted now g && negb (boost_mincpus =? 0)
    then Z.max nr_up (to_int (boost_mincpus - online))
    else nr_up.

(** [cpu_up_work] at time [now] with the given [cpu_online_mask]: the
    cores it calls [cpu_up] on. *)
Definition cpu_up_work (now : Z) (cpu_online_mask : list bool) (g : gov)
  : list nat :=
  up_loop (cpu_up_budget now (to_int (mask_weight cpu_online_mask)) g)
          (mask_cpus false 0 cpu_online_mask).

(** The loop of [cpu_down_work] over the online cores: the cores handed
    to [cpu_down], in order. *)
Fixpoint down_loop (nr_down : Z) (cpus : list nat) : list nat :=
  match cpus with
  | [] => []
  | c :: cpus =>
      if (c =? 0)%nat then down_loop nr_down cpus
      else
        let nr_down := to_int (nr_down - 1) in
        if nr_down <=? 0 then []
        else c :: down_loop nr_down cpus
  end.

Definition cpu_down_work (now : Z) (cpu_online_mask : list bool) (g : gov)
  : list nat :=
  let t := tuners g in
  let online := to_int (mask_weight cpu_online_mask) in
  let nr_down := to_int (online - 1) in
  if nr_down <=? 0 then []
  else
    let nr_down :=
      if is_boosted now g && negb (boost_mincpus t =? 0)
      then Z.min nr_down (to_int (online - to_int (boost_mincpus t)))
      else nr_down in
    down_loop nr_down (mask_cpus true 0 cpu_online_mask).

(** ** The core lock *)

(** [cpufreq_dynamic_min_cpu_lock(num_core)]; the work is queued on the
    core recorded in the per-cpu structure of CPU0. *)
Definition cpufreq_dynamic_min_cpu_lock (e : sysfs_env) (num_core : Z)
    (g : gov) : option (gov * list action) :=
  let g :=
    set_tuners
      (set_min_cpu_lock (Z.min num_core (num_possible_cpus e)) (tuners g)) g in
  dbs_info ← cs_cpu_dbs_info g !! 0%nat;
  let online := to_int (num_online_cpus e) in
  let flag := to_int (to_int num_core - online) in
  if flag <=? 0 then Some (g, [])
  else Some (g, [queue_up_work (cpu dbs_info)]).

Definition cpufreq_dynamic_min_cpu_unlock (g : gov)
  : option (gov * list action) :=
  let g := set_tuners (set_min_cpu_lock 0 (tuners g)) g in
  dbs_info ← cs_cpu_dbs_info g !! 0%nat;
  if suspend g then Some (g, [])
  else Some (g, [queue_down_work (cpu dbs_info)]).

(** ** The input handler *)

(** [hotplug_input_event] at time [now] (us).  [pending] says whether the
    timer's work was pending and could be cancelled
    ([__cancel_delayed_work(&dbs_info->work) > 0]); the flag returned says
    whether the tick of CPU0 was queued to run at once. *)
Definition hotplug_input_event (now : Z) (pending : bool) (g : gov)
  : option (gov * bool) :=
  dbs_info ← cs_cpu_dbs_info g !! 0%nat;
  let t := tuners g in
  let p := policy g in
  let last := last_input_time g in
  let g := set_delay (sampling_rate t) (set_standby false g) in
  let g :=
    if negb (_oc_limit t =? 0)
    then set_cs_cpu_dbs_info
           (<[0%nat := set_oc_boost_cycles (u32 (_oc_limit t * 2)) dbs_info]>
              (cs_cpu_dbs_info g)) g
    else g in
  if (u64 (now - last) <? input_boost_us t)
     || (input_boost_freq t <=? policy_cur p)
  then Some (set_last_input_time now g, false)
  else Some (set_last_input_time now g, pending).

(** ** Suspend and resume *)

Inductive pm_event :=
| PM_SUSPEND_PREPARE | PM_POST_SUSPEND | PM_POST_RESTORE
| PM_HIBERNATION_PREPARE | PM_POST_HIBERNATION | PM_RESTORE_PREPARE.

Inductive work := suspend_work | resume_work.

(** [dbs_suspend]: the suspend work is scheduled, the flag is set and the
    timer slows to the suspend rate. *)
Definition dbs_suspend (g : gov) : gov * list work :=
  (set_delay (suspend_sampling_rate (tuners g)) (set_suspend true g),
   [suspend_work]).

Definition dbs_resume (g : gov) : gov * list work := (g, [resume_work]).

Definition pm_notifier_call (event : pm_event) (g : gov)
  : Z * (gov * list work) :=
  match event with
  | PM_SUSPEND_PREPARE => (NOTIFY_OK, dbs_suspend g)
  | PM_POST_RESTORE | PM_POST_SUSPEND => (NOTIFY_OK, dbs_resume g)
  | _ => (NOTIFY_DONE, (g, []))
  end.

(** [cpufreq_dynamic_resume], the resume work, at time [now] (us) with the
    cores of [for_each_online_cpu]. *)
Definition cpufreq_dynamic_resume (now : Z) (cores : list nat) (g : gov)
  : option (gov * list action) :=
  let p := policy g in
  let g := set_standby false (set_suspend false g) in
  let g := set_delay (sampling_rate (tuners g)) g in
  let g := set_last_input_time now g in
  cpus ← foldl (fun acc c =>
                  cpus ← acc;
                  d ← cpus !! c;
                  Some (<[c := set_requested_freq (policy_max p) d]> cpus))
               (Some (cs_cpu_dbs_info g)) cores;
  Some (set_rq_data (start_rq_work (rq_data g)) (set_cs_cpu_dbs_info cpus g),
        [cpufreq_driver_target (policy_max p) CPUFREQ_RELATION_H]).

(** [cpufreq_dynamic_suspend], the suspend work: it stops the sampler of
    the run-queue tracker, whose data stays as it is. *)
Definition cpufreq_dynamic_suspend (g : gov) : gov := g.

(** Running a work item that was queued. *)
Definition run_work (now : Z) (cores : list nat) (w : work) (g : gov)
  : option (gov * list action) :=
  match w with
  | suspend_work => Some (cpufreq_dynamic_suspend g, [])
  | resume_work => cpufreq_dynamic_resume now cores g
  end.

(** ** The timer *)

(** Unsigned remainder, trapping on a zero divisor. *)
Definition umod (a b : Z) : option Z :=
  if b =? 0 then None else Some (a mod b).

(** The delay with which the timer work is queued,
    [delay - jiffies % delay]: "We want all CPUs to do sampling nearly on
    same jiffy". *)
Definition timer_delay (jiffies : Z) (g : gov) : option Z :=
  r ← umod jiffies (delay g);
  Some (u32 (delay g - r)).

(** [dbs_timer_init]: the state and the delay of the queued work. *)
Definition dbs_timer_init (jiffies : Z) (this : nat) (g : gov)
  : option (gov * Z) :=
  let g := set_delay (sampling_rate (tuners g)) g in
  dbs_info ← cs_cpu_dbs_info g !! this;
  let g :=
    set_cs_cpu_dbs_info
      (<[this := set_down_skip 0 (set_enable true dbs_info)]>
         (cs_cpu_dbs_info g)) g in
  d ← timer_delay jiffies g;
  Some (g, d).

(** [dbs_timer_exit] *)
Definition dbs_timer_exit (this : nat) (g : gov) : option gov :=
  dbs_info ← cs_cpu_dbs_info g !! this;
  Some (set_cs_cpu_dbs_info
          (<[this := set_enable false dbs_info]> (cs_cpu_dbs_info g)) g).

(** The governor's counters outside [dbs_tuners_ins]. *)
Record dbs_globals := {
  dbs_enable : Z;
  min_sampling_rate : Z
}.

Definition MIN_LATENCY_MULTIPLIER : Z := 100.

Inductive governor_event :=
| CPUFREQ_GOV_START | CPUFREQ_GOV_STOP | CPUFREQ_GOV_LIMITS.

(** What [cpufreq_governor_dbs] reads from the rest of the kernel:
    [cpu_online(policy->cpu)], [policy->cpuinfo.transition_latency], the
    return code of [sysfs_create_group], num_present_cpus(), jiffies, and
    for each core what [get_cpu_idle_time] leaves in its result and its
    two out-parameters together with the nice time of the core. *)
Record governor_env := {
  cpu_online : bool;
  transition_latency : Z;
  sysfs_create_group : Z;
  present_cpus : Z;
  jiffies : Z;
  idle_sample : nat -> cpu_sample
}.

(** What the callback returns: the return code, the state, the driver
    requests, and the delay of the timer work if one was queued. *)
Abbreviation governor_result :=
  (Z * gov * dbs_globals * list action * option Z)%type (only parsing).

Section Interface.

Context `{K : kernel_services} `{KS : kernel_support}.

(** [do_dbs_timer] for the work of core [this]: the tick, then the work
    is queued again with the delay the tick left. *)
Definition do_dbs_timer (this : nat) (env : tick_env) (jiffies : Z) (g : gov)
  : option (gov * list action * Z) :=
  '(g, acts) ← dbs_check_cpu this env g;
  d ← timer_delay jiffies g;
  Some (g, acts, d).

(** ** The sysfs files *)

(** [verify_freq(&freq)]: the flag returned and [*freq] afterwards. *)
Definition verify_freq (g : gov) (freq : Z) : bool * Z :=
  if negb (cpufreq_frequency_table_target_ret (policy g) freq
             CPUFREQ_RELATION_L =? 0)
  then (false, freq)
  else (true,
        cpufreq_frequency_table_target (policy g) freq CPUFREQ_RELATION_L).

(** [__store_int(file_name, object, condition, conversion, pproc)].
    [buf] is what [sscanf(buf, "%u", &input)] yields ([None] when it does
    not return 1).  The condition answers with [input] as it leaves it
    when it holds ([verify_freq] rewrites it), and with [None] when it
    fails. *)
Definition __store_int (o : object) (condition : gov -> Z -> option Z)
    (conversion : Z -> Z) (pproc : gov -> option gov)
    (buf : option Z) (count : Z) (g : gov) : option (Z * gov) :=
  match buf with
  | Some input =>
      match condition g input with
      | Some input =>
          g ← pproc (set_tuners (assign o (conversion input) (tuners g)) g);
          Some (count, g)
      | None => Some (- EINVAL, g)
      end
  | None => Some (- EINVAL, g)
  end.

Definition store_int_cond (o : object) (condition : gov -> Z -> option Z) :=
  __store_int o condition (fun input => input) Some.

Definition store_int (o : object) :=
  __store_int o (fun _ input => Some input) (fun input => input) Some.

Definition store_bounded_int (o : object) (lo_bound hi_bound : Z) :=
  __store_int o
    (fun _ input =>
       if (lo_bound <=? input) && (input <=? hi_bound) then Some input
       else None)
    (fun input => input) Some.

Definition store_int_conv (o : object) (conversion : Z -> Z) :=
  __store_int o (fun _ input => Some input) conversion Some.

(** [input==0 || verify_freq(&input)] *)
Definition zero_or_verified (g : gov) (input : Z) : option Z :=
  if input =? 0 then Some input
  else let '(ok, input) := verify_freq g input in
       if ok then Some input else None.

(** [verify_freq(&input)] *)
Definition verified (g : gov) (input : Z) : option Z :=
  let '(ok, input) := verify_freq g input in
  if ok then Some input else None.

(** The post-processing [recalculate_freq_limits()]. *)
Definition then_recalculate_freq_limits (e : sysfs_env) (g : gov)
  : option gov :=
  Some (set_tuners
          (recalculate_freq_limits (num_present_cpus e) (policy g) (tuners g))
          g).

Definition store_sampling_down_factor_relax_khz :=
  store_int o_sampling_down_factor_relax_khz.
Definition store_sampling_down_factor :=
  store_bounded_int o_sampling_down_factor 1 MAX_SAMPLING_DOWN_FACTOR.
Definition store_ignore_nice_load :=
  store_bounded_int o_ignore_nice 0 IGNORE_NICE_ALWAYS.
Definition store_suspend_max_freq (e : sysfs_env) :=
  __store_int o_suspend_max_freq zero_or_verified (fun input => input)
    (then_recalculate_freq_limits e).
Definition store_input_boost_freq :=
  store_int_cond o_input_boost_freq zero_or_verified.
Definition store_input_boost_ms :=
  store_int_conv o_input_boost_us (fun input => u32 (input * 1000)).
Definition store_standby_delay_factor :=
  store_bounded_int o_standby_delay_factor 1 MAX_SAMPLING_DOWN_FACTOR.
Definition store_standby_sampling_up_factor :=
  store_bounded_int o_standby_sampling_up_factor 1 MAX_SAMPLING_DOWN_FACTOR.
Definition store_suspend_sampling_up_factor :=
  store_bounded_int o_suspend_sampling_up_factor 1 MAX_SAMPLING_DOWN_FACTOR.
Definition store_power_optimal_freq (e : sysfs_env) :=
  __store_int o_power_optimal_freq zero_or_verified (fun input => input)
    (then_recalculate_freq_limits e).
Definition store_high_freq_sampling_up_factor :=
  store_bounded_int o_high_freq_sampling_up_factor 1 MAX_SAMPLING_DOWN_FACTOR.
Definition store_standby_threshold_freq (e : sysfs_env) :=
  __store_int o_standby_threshold_freq
    (fun _ input => if 0 <=? input then Some input else None)
    (fun input => input) (then_recalculate_freq_limits e).
Definition store_max_non_oc_freq (e : sysfs_env) :=
  __store_int o_max_non_oc_freq verified (fun input => input)
    (then_recalculate_freq_limits e).
Definition store_oc_freq_boost_ms (e : sysfs_env) :=
  __store_int o_oc_freq_boost_ms (fun _ input => Some input)
    (fun input => input) (then_recalculate_freq_limits e).

(** The three rate files: the input is in microseconds and must not be
    below [min_sampling_rate]; the rate is stored in jiffies and, in the
    mode the file belongs to, taken over as the running [delay]. *)
Definition store_rate (o : object) (in_mode : gov -> bool)
    (min_sampling_rate : Z) :=
  __store_int o
    (fun _ input => if min_sampling_rate <=? input then Some input else None)
    (fun input => u32 (usecs_to_jiffies (Z.max input min_sampling_rate)))
    (fun g => if in_mode g
              then Some (set_delay (object_value o (tuners g)) g)
              else Some g).

Definition store_suspend_sampling_rate :=
  store_rate o_suspend_sampling_rate suspend.
Definition store_standby_sampling_rate :=
  store_rate o_standby_sampling_rate standby.
Definition store_sampling_rate :=
  store_rate o_sampling_rate (fun g => negb (standby g || suspend g)).

(** [store_io_is_busy]: the input is a percentage, the stored value is
    in 128ths. *)
Definition store_io_is_busy (e : sysfs_env) (buf : option Z) (count : Z)
    (g : gov) : option (Z * gov) :=
  match buf with
  | None => Some (- EINVAL, g)
  | Some input =>
      let prev := io_is_busy (tuners g) in
      let input := if 100 <=? input then 1 else input in
      if input =? io_is_busy (tuners g) then Some (count, g)
      else
        let g :=
          set_tuners (assign o_io_is_busy (u32 (input * 128) / 100) (tuners g))
            g in
        if io_is_busy (tuners g) =? 1 then Some (count, g)
        else if negb (prev =? 1) then Some (count, g)
        else
          cpus ← foldl (fun acc j =>
                          cpus ← acc;
                          dbs_info ← cpus !! j;
                          Some (<[j := set_prev (prev_cpu_idle dbs_info)
                                         (prev_cpu_wall dbs_info)
                                         (prev_cpu_nice dbs_info)
                                         (get_cpu_iowait_time_us e j)
                                         dbs_info]> cpus))
                       (Some (cs_cpu_dbs_info g)) (online_cpus e);
          Some (count, set_cs_cpu_dbs_info cpus g)
  end.

(** A store that takes any number and assigns a function of it. *)
Definition store_clamped (o : object) (clamp : gov -> Z -> Z)
    (buf : option Z) (count : Z) (g : gov) : option (Z * gov) :=
  match buf with
  | None => Some (- EINVAL, g)
  | Some input =>
      Some (count, set_tuners (assign o (clamp g input) (tuners g)) g)
  end.

Definition store_cpu_up_rate :=
  store_clamped o_cpu_up_rate (fun _ input => Z.min input MAX_HOTPLUG_RATE).
Definition store_cpu_down_rate :=
  store_clamped o_cpu_down_rate (fun _ input => Z.min input MAX_HOTPLUG_RATE).
Definition store_cpu_up_freq :=
  store_clamped o_cpu_up_freq (fun g input => Z.min input (max_freq (tuners g))).
Definition store_cpu_down_freq :=
  store_clamped o_cpu_down_freq
    (fun g input => Z.max input (min_freq (tuners g))).
Definition store_up_nr_cpus (e : sysfs_env) :=
  store_clamped o_up_nr_cpus (fun _ input => Z.min input (num_possible_cpus e)).
Definition store_max_cpu_lock (e : sysfs_env) :=
  store_clamped o_max_cpu_lock
    (fun _ input => Z.min input (num_possible_cpus e)).
Definition store_dvfs_debug :=
  store_clamped o_dvfs_debug (fun _ input => if 0 <? input then 1 else 0).
Definition store_boost_mincpus :=
  store_clamped o_boost_mincpus (fun _ input => Z.min input 4).

Definition store_min_cpu_lock (e : sysfs_env) (buf : option Z) (count : Z)
    (g : gov) : option (Z * gov * list action) :=
  match buf with
  | None => Some (- EINVAL, g, [])
  | Some input =>
      '(g, acts) ← (if input =? 0 then cpufreq_dynamic_min_cpu_unlock g
                    else cpufreq_dynamic_min_cpu_lock e input g);
      Some (count, g, acts)
  end.

(** The two hotplug tables. *)
Inductive hotplug_table := tbl_hotplug_freq | tbl_hotplug_rq.

Definition hotplug_table_of (which : hotplug_table) (g : gov)
  : list (list Z) :=
  match which with
  | tbl_hotplug_freq => _hotplug_freq g
  | tbl_hotplug_rq => _hotplug_rq g
  end.

(** [store_hotplug_param(file_name, num_core, up_down)]:
    [file_name[num_core - 1][up_down] = input], the table holding [int]s. *)
Definition store_hotplug_param (which : hotplug_table) (num_core : Z)
    (up_down : nat) (buf : option Z) (count : Z) (g : gov)
  : option (Z * gov) :=
  match buf with
  | None => Some (- EINVAL, g)
  | Some input =>
      let tbl := hotplug_table_of which g in
      _ ← hotplug_param tbl num_core up_down;
      let tbl :=
        alter (fun row => <[up_down := to_int input]> row)
              (Z.to_nat (num_core - 1)) tbl in
      Some (count,
            match which with
            | tbl_hotplug_freq => set__hotplug_freq tbl g
            | tbl_hotplug_rq => set__hotplug_rq tbl g
            end)
  end.

(** [show_hotplug_param]: the number printed with "%u". *)
Definition show_hotplug_param (which : hotplug_table) (num_core : Z)
    (up_down : nat) (g : gov) : option Z :=
  v ← hotplug_param (hotplug_table_of which g) num_core up_down;
  Some (u32 v).

(** The files of the attribute group that can be written. *)
Inductive sysfs_file :=
| f_sampling_rate | f_suspend_sampling_rate | f_standby_sampling_rate
| f_suspend_sampling_up_factor | f_standby_sampling_up_factor
| f_standby_delay_factor | f_standby_threshold_freq
| f_sampling_down_factor | f_sampling_down_factor_relax_khz
| f_up_threshold | f_down_differential | f_ignore_nice_load | f_io_is_busy
| f_suspend_max_freq | f_input_boost_freq | f_input_boost_ms
| f_power_optimal_freq | f_high_freq_sampling_up_factor
| f_max_non_oc_freq | f_oc_freq_boost_ms
| f_cpu_up_rate | f_cpu_down_rate | f_cpu_up_freq | f_cpu_down_freq
| f_up_nr_cpus | f_max_cpu_lock | f_min_cpu_lock | f_dvfs_debug
| f_boost_mincpus
| f_hotplug (which : hotplug_table) (num_core : Z) (up_down : nat).

(** A write to a file: the value returned, the state and the work
    queued. *)
Definition sysfs_store (e : sysfs_env) (min_sampling_rate : Z)
    (f : sysfs_file) (buf : option Z) (count : Z) (g : gov)
  : option (Z * gov * list action) :=
  let plain (r : option (Z * gov)) := r ← r; Some (r, []) in
  match f with
  | f_sampling_rate =>
      plain (store_sampling_rate min_sampling_rate buf count g)
  | f_suspend_sampling_rate =>
      plain (store_suspend_sampling_rate min_sampling_rate buf count g)
  | f_standby_sampling_rate =>
      plain (store_standby_sampling_rate min_sampling_rate buf count g)
  | f_suspend_sampling_up_factor =>
      plain (store_suspend_sampling_up_factor buf count g)
  | f_standby_sampling_up_factor =>
      plain (store_standby_sampling_up_factor buf count g)
  | f_standby_delay_factor => plain (store_standby_delay_factor buf count g)
  | f_standby_threshold_freq =>
      plain (store_standby_threshold_freq e buf count g)
  | f_sampling_down_factor => plain (store_sampling_down_factor buf count g)
  | f_sampling_down_factor_relax_khz =>
      plain (store_sampling_down_factor_relax_khz buf count g)
  | f_up_threshold => plain (store_up_threshold (online_cpus e) buf count g)
  | f_down_differential =>
      plain (store_down_differential (online_cpus e) buf count g)
  | f_ignore_nice_load => plain (store_ignore_nice_load buf count g)
  | f_io_is_busy => plain (store_io_is_busy e buf count g)
  | f_suspend_max_freq => plain (store_suspend_max_freq e buf count g)
  | f_input_boost_freq => plain (store_input_boost_freq buf count g)
  | f_input_boost_ms => plain (store_input_boost_ms buf count g)
  | f_power_optimal_freq => plain (store_power_optimal_freq e buf count g)
  | f_high_freq_sampling_up_factor =>
      plain (store_high_freq_sampling_up_factor buf count g)
  | f_max_non_oc_freq => plain (store_max_non_oc_freq e buf count g)
  | f_oc_freq_boost_ms => plain (store_oc_freq_boost_ms e buf count g)
  | f_cpu_up_rate => plain (store_cpu_up_rate buf count g)
  | f_cpu_down_rate => plain (store_cpu_down_rate buf count g)
  | f_cpu_up_freq => plain (store_cpu_up_freq buf count g)
  | f_cpu_down_freq => plain (store_cpu_down_freq buf count g)
  | f_up_nr_cpus => plain (store_up_nr_cpus e buf count g)
  | f_max_cpu_lock => plain (store_max_cpu_lock e buf count g)
  | f_min_cpu_lock => store_min_cpu_lock e buf count g
  | f_dvfs_debug => plain (store_dvfs_debug buf count g)
  | f_boost_mincpus => plain (store_boost_mincpus buf count g)
  | f_hotplug which num_core up_down =>
      plain (store_hotplug_param which num_core up_down buf count g)
  end.

(** The number a read of a file prints ([show_one], [show_one_conv],
    [show_rate], [show_hotplug_param]). *)
Definition sysfs_show (f : sysfs_file) (g : gov) : option Z :=
  let t := tuners g in
  match f with
  | f_sampling_rate => Some (u32 (jiffies_to_usecs (sampling_rate t)))
  | f_suspend_sampling_rate =>
      Some (u32 (jiffies_to_usecs (suspend_sampling_rate t)))
  | f_standby_sampling_rate =>
      Some (u32 (jiffies_to_usecs (standby_sampling_rate t)))
  | f_suspend_sampling_up_factor => Some (suspend_sampling_up_factor t)
  | f_standby_sampling_up_factor => Some (standby_sampling_up_factor t)
  | f_standby_delay_factor => Some (standby_delay_factor t)
  | f_standby_threshold_freq => Some (standby_threshold_freq t)
  | f_sampling_down_factor => Some (sampling_down_factor t)
  | f_sampling_down_factor_relax_khz =>
      Some (sampling_down_factor_relax_khz t)
  | f_up_threshold => Some (up_threshold t)
  | f_down_differential => Some (down_differential t)
  | f_ignore_nice_load => Some (ignore_nice t)
  | f_io_is_busy => Some (u32 (u32 (io_is_busy t + 1) * 100) / 128)
  | f_suspend_max_freq => Some (suspend_max_freq t)
  | f_input_boost_freq => Some (input_boost_freq t)
  | f_input_boost_ms => Some (input_boost_us t / 1000)
  | f_power_optimal_freq => Some (power_optimal_freq t)
  | f_high_freq_sampling_up_factor => Some (high_freq_sampling_up_factor t)
  | f_max_non_oc_freq => Some (max_non_oc_freq t)
  | f_oc_freq_boost_ms => Some (oc_freq_boost_ms t)
  | f_cpu_up_rate => Some (cpu_up_rate t)
  | f_cpu_down_rate => Some (cpu_down_rate t)
  | f_cpu_up_freq => Some (cpu_up_freq t)
  | f_cpu_down_freq => Some (cpu_down_freq t)
  | f_up_nr_cpus => Some (up_nr_cpus t)
  | f_max_cpu_lock => Some (max_cpu_lock t)
  | f_min_cpu_lock => Some (min_cpu_lock t)
  | f_dvfs_debug => Some (dvfs_debug t)
  | f_boost_mincpus => Some (boost_mincpus t)
  | f_hotplug which num_core up_down =>
      show_hotplug_param which num_core up_down g
  end.

(** A sequence of writes, threading the state and collecting the work. *)
Fixpoint sysfs_stores (e : sysfs_env) (min_sampling_rate : Z)
    (ws : list (sysfs_file * option Z * Z)) (g : gov)
  : option (gov * list action) :=
  match ws with
  | [] => Some (g, [])
  | (f, buf, count) :: ws =>
      '(_, g, acts) ← sysfs_store e min_sampling_rate f buf count g;
      '(g, acts') ← sysfs_stores e min_sampling_rate ws g;
      Some (g, acts ++ acts')
  end.

(** ** The governor callback *)

(** The body of the loop over [policy->cpus] at start: the time
    snapshots of the core are taken and its down threshold computed for
    the policy. *)
Definition start_core (t : dbs_tuners) (p : cpufreq_policy) (s : cpu_sample)
    (j_dbs_info : cpu_dbs_info_s) : option cpu_dbs_info_s :=
  recalculate_down_threshold t p
    (set_prev (cur_idle_time s) (cur_wall_time s)
       (if negb (ignore_nice t =? 0) then cur_nice_stat s
        else prev_cpu_nice j_dbs_info)
       (cur_io_time s) j_dbs_info).

Definition start_cores (t : dbs_tuners) (p : cpufreq_policy)
    (smp : nat -> cpu_sample) (cores : list nat)
    (cpus : list cpu_dbs_info_s) : option (list cpu_dbs_info_s) :=
  foldl (fun acc j =>
           cpus ← acc;
           j_dbs_info ← cpus !! j;
           j_dbs_info ← start_core t p (smp j) j_dbs_info;
           Some (<[j := j_dbs_info]> cpus))
        (Some cpus) cores.

(** What the first start adds ("Bring kernel and HW constraints
    together"): the new [min_sampling_rate] and the tunables with the
    three rates raised and the limits computed. *)
Definition first_start (e : governor_env) (p : cpufreq_policy)
    (min_sampling_rate : Z) (t : dbs_tuners) : dbs_tuners * Z :=
  let latency := u32 (transition_latency e) / 1000 in
  let latency := if latency =? 0 then 1 else latency in
  let min_sampling_rate :=
    Z.max min_sampling_rate (u32 (MIN_LATENCY_MULTIPLIER * latency)) in
  let t :=
    assign o_sampling_rate
      (Z.max (sampling_rate t) (u32 (usecs_to_jiffies min_sampling_rate))) t in
  let t :=
    assign o_standby_sampling_rate
      (Z.max (standby_sampling_rate t) (sampling_rate t)) t in
  let t :=
    assign o_suspend_sampling_rate
      (Z.max (suspend_sampling_rate t) (sampling_rate t)) t in
  (recalculate_freq_limits (present_cpus e) p t, min_sampling_rate).

(** [cpufreq_governor_dbs(policy, event)] for [policy->cpu = this].  All
    cores share one policy object, which the state holds: at start it
    becomes [policy]. *)
Definition cpufreq_governor_dbs (p : cpufreq_policy) (this : nat)
    (event : governor_event) (e : governor_env) (g : gov) (gl : dbs_globals)
  : option governor_result :=
  match event with
  | CPUFREQ_GOV_START =>
      if negb (cpu_online e) || (policy_cur p =? 0)
      then Some (- EINVAL, g, gl, [], None)
      else
        let t := assign o_min_freq (policy_min p)
                   (assign o_max_freq (policy_max p) (tuners g)) in
        let g := set_policy p (set_tuners t g) in
        let g := set_rq_data (start_rq_work (rq_data g)) (set_num_hist 0 g) in
        cpus ← start_cores t p (idle_sample e) (policy_cpus p)
                 (cs_cpu_dbs_info g);
        this_dbs_info ← cpus !! this;
        let this_dbs_info :=
          set_requested_freq (policy_cur p) (set_down_skip 0 this_dbs_info) in
        let g := set_cs_cpu_dbs_info (<[this := this_dbs_info]> cpus) g in
        let enable := u32 (dbs_enable gl + 1) in
        if (enable =? 1) && negb (sysfs_create_group e =? 0)
        then
          Some (sysfs_create_group e, g,
                {| dbs_enable := enable;
                   min_sampling_rate := min_sampling_rate gl |}, [], None)
        else
          let '(t, min_rate) :=
            if enable =? 1
            then first_start e (policy g) (min_sampling_rate gl) (tuners g)
            else (tuners g, min_sampling_rate gl) in
          '(g, d) ← dbs_timer_init (jiffies e) this (set_tuners t g);
          Some (0, g, {| dbs_enable := enable; min_sampling_rate := min_rate |},
                [], Some d)
  | CPUFREQ_GOV_STOP =>
      g ← dbs_timer_exit this g;
      Some (0, g,
            {| dbs_enable := u32 (dbs_enable gl - 1);
               min_sampling_rate := min_sampling_rate gl |}, [], None)
  | CPUFREQ_GOV_LIMITS =>
      this_dbs_info ← cs_cpu_dbs_info g !! this;
      let cur := policy_cur (policy g) in
      let '(this_dbs_info, acts) :=
        if policy_max p <? cur then
          (set_requested_freq (policy_max p) this_dbs_info,
           [cpufreq_driver_target (policy_max p) CPUFREQ_RELATION_H])
        else if cur <? policy_min p then
          (set_requested_freq (policy_min p) this_dbs_info,
           [cpufreq_driver_target (policy_min p) CPUFREQ_RELATION_L])
        else (this_dbs_info, []) in
      let g :=
        set_cs_cpu_dbs_info (<[this := this_dbs_info]> (cs_cpu_dbs_info g)) g in
      Some (0,
            set_tuners
              (recalculate_freq_limits (present_cpus e) (policy g) (tuners g))
              g,
            gl, acts, None)
  end.

End Interface.

(** ** Words used in the statements *)

(** The maximum of a list of readings, as [check_down] computes it: an
    empty list has maximum 0. *)
Definition maximum (l : list Z) : Z := fold_right Z.max 0 l.

(** Two histories with the same frequency and run-queue readings in
    every slot. *)
Definition same_readings (us us' : list cpu_usage) : Prop :=
  Forall2 (fun u u' => freq u' = freq u /\ rq_avg u' = rq_avg u) us us'.

(** Every load recorded in a history is a percentage. *)
Definition loads_are_percentages (us : list cpu_usage) : Prop :=
  Forall (fun u => Forall (fun l => 0 <= l <= 100) (load u)) us.

(** The slot of the history a tick writes its sample to. *)
Definition sample_slot (g : gov) : Z :=
  if MAX_HOTPLUG_RATE <=? num_hist (hotplug_history g) then 0
  else num_hist (hotplug_history g).

(** max(cpu_up_rate, cpu_down_rate), the length of the history window. *)
Definition max_hotplug_rate (t : dbs_tuners) : Z :=
  Z.max (cpu_up_rate t) (cpu_down_rate t).

(** A core id other than 0. *)
Definition secondary (c : nat) : bool := negb (c =? 0)%nat.

(** The ranges the sysfs files keep the tunables in. *)
Definition tunables_in_range (possible : Z) (t : dbs_tuners) : Prop :=
  1 <= sampling_down_factor t <= MAX_SAMPLING_DOWN_FACTOR /\
  0 <= ignore_nice t <= IGNORE_NICE_ALWAYS /\
  1 <= standby_delay_factor t <= MAX_SAMPLING_DOWN_FACTOR /\
  1 <= standby_sampling_up_factor t <= MAX_SAMPLING_DOWN_FACTOR /\
  1 <= suspend_sampling_up_factor t <= MAX_SAMPLING_DOWN_FACTOR /\
  1 <= high_freq_sampling_up_factor t <= MAX_SAMPLING_DOWN_FACTOR /\
  cpu_up_rate t <= MAX_HOTPLUG_RATE /\
  cpu_down_rate t <= MAX_HOTPLUG_RATE /\
  up_nr_cpus t <= possible /\
  max_cpu_lock t <= possible /\
  min_cpu_lock t <= possible /\
  boost_mincpus t <= 4 /\
  0 <= dvfs_debug t <= 1 /\
  0 <= io_is_busy t <= 126 /\
  0 < down_differential t /\
  threshold_invariant t.

(** A write as the sysfs core hands it over: the file, what [sscanf]
    read from the buffer, and the length of the buffer. *)
Abbreviation sysfs_write := (sysfs_file * option Z * Z)%type (only parsing).

(** A write that can be made in state [g]: the number read fits an
    [unsigned int], and a hotplug file names an entry of its table. *)
Definition write_admissible (g : gov) (w : sysfs_write) : Prop :=
  match w.1.2 with
  | Some input => 0 <= input < 2 ^ 32
  | None => True
  end /\
  match w.1.1 with
  | f_hotplug which num_core up_down =>
      is_Some (hotplug_param (hotplug_table_of which g) num_core up_down)
  | _ => True
  end.

(** What a sysfs handler needs in order to run: a nonzero current
    frequency (the thresholds are recomputed by a division), the per-cpu
    structures of the online cores and of CPU0. *)
Definition sysfs_ready (e : sysfs_env) (g : gov) : Prop :=
  0 <= num_possible_cpus e /\
  policy_cur (policy g) <> 0 /\
  Forall (fun c => (c < length (cs_cpu_dbs_info g))%nat) (online_cpus e) /\
  (0 < length (cs_cpu_dbs_info g))%nat.

(** Two states with the same policy, as many per-cpu structures and
    hotplug tables of the same shape. *)
Definition same_shape (g g' : gov) : Prop :=
  policy g' = policy g /\
  length (cs_cpu_dbs_info g') = length (cs_cpu_dbs_info g) /\
  forall which num_core up_down,
    is_Some (hotplug_param (hotplug_table_of which g') num_core up_down)
    <-> is_Some (hotplug_param (hotplug_table_of which g) num_core up_down).

Section Outcome.

Context `{K : kernel_services}.

(** What every write to a sysfs file guarantees: the shape of the state
    is kept; the write returns the length it was given, or -EINVAL with
    nothing changed (always so when no number was read); the tunables
    stay in their ranges; and the frequency tunables stay valid for the
    policy. *)
Definition store_outcome (e : sysfs_env) (buf : option Z) (count : Z)
    (g : gov) (r : Z * gov * list action) : Prop :=
  let '(rc, g', acts) := r in
  same_shape g g' /\
  (rc = count \/ (rc = - EINVAL /\ g' = g /\ acts = [])) /\
  (buf = None -> rc = - EINVAL) /\
  (tunables_in_range (num_possible_cpus e) (tuners g) ->
   tunables_in_range (num_possible_cpus e) (tuners g')) /\
  (policy_min (policy g) <= policy_max (policy g) ->
   table_within_policy (policy g) ->
   frequency_tunables_valid (num_present_cpus e) (policy g) (tuners g) ->
   frequency_tunables_valid (num_present_cpus e) (policy g) (tuners g')).

End Outcome.

(** ** More concrete states *)

(** A kernel for the examples: the table lookup succeeds for every
    frequency, and a jiffy lasts 10 ms. *)
Definition exynos_support : kernel_support := {|
  cpufreq_frequency_table_target_ret := fun _ _ _ => 0;
  usecs_to_jiffies := fun u => (u + 9999) / 10000;
  jiffies_to_usecs := fun j => j * 10000 |}.

(** The sysfs side with four cores, all of them online. *)
Definition exynos_sysfs : sysfs_env := {|
  online_cpus := [0; 1; 2; 3]%nat;
  num_possible_cpus := 4;
  num_present_cpus := 4;
  get_cpu_iowait_time_us := fun _ => 0 |}.

(** The callback on an online core, at jiffy 1234, with a transition
    latency of 100 us. *)
Definition exynos_governor_env : governor_env := {|
  cpu_online := true;
  transition_latency := 100000;
  sysfs_create_group := 0;
  present_cpus := 4;
  jiffies := 1234;
  idle_sample := fun _ => busy_sample 30000 0 |}.

(** Three cores online at 200 MHz in standby, the core lock released,
    twenty quiet samples. *)
Definition unlocked_idle_gov : gov :=
  gov_with (set_min_cpu_lock 0 default_tuners) (exynos_policy 200000)
    false true (filled_history 20 200000 100) (started_dbs_info 0 200000).

(** The default tunables with an input boost to 800 MHz for 500 ms, in
    standby at 200 MHz. *)
Definition boost_tuners : dbs_tuners :=
  assign o_input_boost_us 500000
    (assign o_input_boost_freq 800000 default_tuners).

Definition boost_gov : gov :=
  gov_with boost_tuners (exynos_policy 200000) false true empty_history
    (started_dbs_info 0 200000).

(** Core 0 with a requested frequency of 1.6 GHz, above the policy limit,
    while the hardware runs at 800 MHz. *)
Definition stray_dbs_info : cpu_dbs_info_s :=
  set_requested_freq 1600000 (started_dbs_info 0 800000).

Definition stray_gov : gov :=
  gov_with default_tuners (exynos_policy 800000) false false empty_history
    stray_dbs_info.

(** A series of writes, some of them out of range, one with nothing to
    read in the buffer. *)
Definition example_writes : list (sysfs_file * option Z * Z) :=
  [(f_up_threshold, Some 101, 4); (f_down_differential, Some 90, 3);
   (f_cpu_up_rate, Some 100, 4); (f_max_cpu_lock, Some 9, 2);
   (f_io_is_busy, Some 50, 3); (f_sampling_down_factor, None, 1);
   (f_suspend_max_freq, Some 750000, 7);
   (f_input_boost_freq, Some 4000000, 8);
   (f_max_non_oc_freq, Some 1000000, 8);
   (f_hotplug tbl_hotplug_freq 2 1, Some 450000, 7)].

(** The counters before the governor is started for the first time. *)
Definition fresh_globals : dbs_globals :=
  {| dbs_enable := 0; min_sampling_rate := 0 |}.

(** New limits of 200 MHz to 800 MHz. *)
Definition capped_policy : cpufreq_policy := {|
  policy_min := 200000; policy_max := 800000; policy_cur := 1000000;
  policy_cpus := [0; 1; 2; 3]%nat |}.

(** The sysfs side with two of the four cores online. *)
Definition two_online_sysfs : sysfs_env := {|
  online_cpus := [0; 1]%nat;
  num_possible_cpus := 4;
  num_present_cpus := 4;
  get_cpu_iowait_time_us := fun _ => 0 |}.

(** ** Proof steps used throughout *)

(** Case analysis on the condition of a conditional, one comparison at
    a time, keeping the arithmetic fact of each branch. *)
Ltac break_cond c :=
  lazymatch c with
  | ?a && _ => break_cond a
  | ?a || _ => break_cond a
  | negb ?a => break_cond a
  | ?a <? ?b => destruct (Z.ltb_spec a b)
  | ?a <=? ?b => destruct (Z.leb_spec a b)
  | ?a =? ?b => destruct (Z.eqb_spec a b)
  | _ => destruct c eqn:?
  end; cbn [andb orb negb].

Ltac break_if :=
  match goal with
  | |- context [if ?c then _ else _] => break_cond c
  end.


(** Closed arithmetic facts after evaluation. *)
Ltac compute_prop :=
  vm_compute;
  repeat match goal with
         | |- _ /\ _ => split
         | |- _ = _ => reflexivity
         | |- _ -> False =>
             let H := fresh in intros H; discriminate H
         end.

(** Readiness of a concrete state for a tick. *)
Ltac tick_ready_concrete :=
  split; [cbn; lia|];
  split; [repeat constructor; cbn; lia|];
  split; [intros [|[|idx]] Hidx;
          [split; eexists; reflexivity..|exfalso; lia]|];
  compute_prop.

(** * Properties *)

Section Properties.

Context `{K : kernel_services}.

(** ** Machine integers *)

Lemma u32_range x : 0 <= u32 x < 2 ^ 32.
Proof. unfold u32. apply Z.mod_pos_bound. lia. Qed.

Lemma u32_small x : 0 <= x < 2 ^ 32 -> u32 x = x.
Proof. intros H. unfold u32. apply Z.mod_small. exact H. Qed.

Lemma u32_idem x : u32 (u32 x) = u32 x.
Proof. apply u32_small, u32_range. Qed.

Lemma to_int_small x : 0 <= x < 2 ^ 31 -> to_int x = x.
Proof.
  intros H. unfold to_int. rewrite u32_small by lia.
  destruct (Z.ltb_spec x (2 ^ 31)); lia.
Qed.

(** ** The run-queue tracker *)

Lemma do_div_million n :
  do_div n (1000 * 1000) = Some (s64 (u64 n / 1000000)).
Proof. reflexivity. Qed.

(** The sampler tick that follows a read does not look at what was
    accumulated before the read. *)
Lemma rq_work_fn_after_read cur_time nr_running rq :
  rq_work_fn cur_time nr_running (get_nr_run_avg rq).2 =
  Some {| nr_run_avg := u32 (nr_running * 100);
          update_rate := update_rate rq;
          last_time := cur_time;
          total_time :=
            s64 (0 + s64 (u64 (s64 (cur_time
                   - (if last_time rq =? 0 then cur_time else last_time rq)))
                 / 1000000)) |}.
Proof.
  unfold rq_work_fn, get_nr_run_avg. cbn [snd nr_run_avg last_time
    total_time update_rate]. rewrite do_div_million.
  cbn [mbind option_bind]. rewrite Z.eqb_refl.
  rewrite andb_false_r. cbn [mbind option_bind]. rewrite u32_idem.
  reflexivity.
Qed.

(** C7 (as amended).  A read returns the current average and clears the
    average only: the accumulated [total_time] is left as it was.  A
    second read with no sampler tick in between returns 0.  The sampler
    tick that follows a read clears [total_time] before using it, so the
    average it stores is [nr_running * 100] and the time it accumulates is
    the time of that tick alone, whatever had been accumulated before the
    read. *)
Theorem get_nr_run_avg_drains (rq : runqueue_data) :
  let rq1 := (get_nr_run_avg rq).2 in
  (get_nr_run_avg rq).1 = nr_run_avg rq /\
  nr_run_avg rq1 = 0 /\
  total_time rq1 = total_time rq /\
  last_time rq1 = last_time rq /\
  (get_nr_run_avg rq1).1 = 0 /\
  forall cur_time nr_running,
    exists r, rq_work_fn cur_time nr_running rq1 = Some r /\
      nr_run_avg r = u32 (nr_running * 100) /\
      forall rq', last_time rq' = last_time rq ->
                  update_rate rq' = update_rate rq ->
        rq_work_fn cur_time nr_running (get_nr_run_avg rq').2 = Some r.
Proof.
  cbn zeta. repeat split; try reflexivity.
  intros cur_time nr_running. eexists. split.
  - apply rq_work_fn_after_read.
  - split; [reflexivity|]. intros rq' Hl Hu.
    rewrite rq_work_fn_after_read, Hl, Hu. reflexivity.
Qed.

(** ** The derived down threshold *)

(** [recalculate_down_threshold] stores
    [(up_threshold - down_differential) * freq_lo / policy->cur] when that
    quotient lies in [10, up_threshold - down_differential], and half of
    [up_threshold - down_differential] otherwise; nothing else in the
    per-core state changes.  (The product is assumed to fit 32 bits.) *)
Lemma recalculate_down_threshold_value
    (t : dbs_tuners) (p : cpufreq_policy) (d : cpu_dbs_info_s) :
  threshold_invariant t ->
  0 <= down_differential t ->
  0 < policy_cur p ->
  0 <= freq_lo d ->
  (up_threshold t - down_differential t) * freq_lo d < 2 ^ 32 ->
  let span := up_threshold t - down_differential t in
  let quotient := span * freq_lo d / policy_cur p in
  recalculate_down_threshold t p d =
    Some (set_down_threshold
            (if decide (10 <= quotient <= span) then quotient else span / 2)
            d).
Proof.
  intros [Hlt Hle] Hdd Hcur Hlo Hfit span quotient.
  unfold recalculate_down_threshold, udiv.
  assert (Hspan : u32 (up_threshold t - down_differential t) = span)
    by (apply u32_small; unfold span; lia).
  rewrite Hspan.
  assert (Hprod : u32 (span * freq_lo d) = span * freq_lo d)
    by (apply u32_small; unfold span in *; nia).
  rewrite Hprod.
  destruct (Z.eqb_spec (policy_cur p) 0) as [|_]; [lia|].
  cbn [mbind option_bind]. fold quotient.
  destruct (decide (10 <= quotient <= span)) as [Hin|Hout].
  - destruct (Z.ltb_spec quotient 10); [lia|].
    destruct (Z.ltb_spec span quotient); [lia|]. reflexivity.
  - destruct (Z.ltb_spec quotient 10); [reflexivity|].
    destruct (Z.ltb_spec span quotient); [reflexivity|]. lia.
Qed.

(** The notifier recomputes the threshold exactly when the governor is
    enabled on that core and the new frequency is above [policy->min];
    it then uses the freshly looked-up [freq_lo]. *)
Lemma dbs_cpufreq_notifier_recalculates freq_cpu freq_new g d :
  cs_cpu_dbs_info g !! freq_cpu = Some d ->
  enable d = true ->
  policy_min (policy g) < freq_new ->
  let d1 :=
    if (policy_max (policy g) <? requested_freq d)
       || (requested_freq d <? policy_min (policy g))
    then set_requested_freq freq_new d else d in
  dbs_cpufreq_notifier freq_cpu freq_new g =
    d2 ← recalculate_down_threshold (tuners g) (policy g)
           (set_freq_lo
              (cpufreq_frequency_table_target (policy g) (freq_new - 1)
                 CPUFREQ_RELATION_H) d1);
    Some (NOTIFY_OK,
          set_cs_cpu_dbs_info (<[freq_cpu := d2]> (cs_cpu_dbs_info g)) g).
Proof.
  intros Hd Hen Hnew d1. unfold dbs_cpufreq_notifier.
  rewrite Hd. cbn [mbind option_bind]. rewrite Hen. cbn [negb].
  destruct (Z.ltb_spec (policy_min (policy g)) freq_new); [|lia].
  reflexivity.
Qed.

Lemma dbs_cpufreq_notifier_below_min freq_cpu freq_new g d :
  cs_cpu_dbs_info g !! freq_cpu = Some d ->
  enable d = true ->
  freq_new <= policy_min (policy g) ->
  exists g' d', dbs_cpufreq_notifier freq_cpu freq_new g = Some (NOTIFY_OK, g')
    /\ cs_cpu_dbs_info g' !! freq_cpu = Some d'
    /\ down_threshold d' = down_threshold d
    /\ freq_lo d' = policy_min (policy g).
Proof.
  intros Hd Hen Hnew. unfold dbs_cpufreq_notifier.
  rewrite Hd. cbn [mbind option_bind]. rewrite Hen. cbn [negb].
  destruct (Z.ltb_spec (policy_min (policy g)) freq_new); [lia|].
  cbn [mbind option_bind]. eexists _, _. split; [reflexivity|].
  cbn [cs_cpu_dbs_info set_cs_cpu_dbs_info]. split.
  - apply list_lookup_insert_eq. eapply lookup_lt_Some; eauto.
  - destruct (_ || _); split; reflexivity.
Qed.

(** ** The validated setters *)

Lemma recalculate_down_threshold_total t p d :
  policy_cur p <> 0 ->
  exists d', recalculate_down_threshold t p d = Some d'.
Proof.
  intros Hcur. unfold recalculate_down_threshold, udiv.
  destruct (Z.eqb_spec (policy_cur p) 0); [contradiction|].
  cbn [mbind option_bind]. eauto.
Qed.

Lemma recalculate_fold_total t p online_cpus : forall cpus0,
  policy_cur p <> 0 ->
  Forall (fun c => (c < length cpus0)%nat) online_cpus ->
  exists cpus,
    foldl (fun acc c =>
             cpus ← acc; d ← cpus !! c;
             d ← recalculate_down_threshold t p d;
             Some (<[c := d]> cpus)) (Some cpus0) online_cpus = Some cpus
    /\ length cpus = length cpus0.
Proof.
  induction online_cpus as [|c cs IH]; intros cpus0 Hcur Hall.
  - exists cpus0. split; reflexivity.
  - inversion Hall as [|? ? Hc Hcs]; subst.
    destruct (lookup_lt_is_Some_2 cpus0 c) as [d Hd]; [lia|].
    destruct (recalculate_down_threshold_total t p d Hcur) as [d' Hd'].
    cbn [foldl mbind option_bind]. rewrite Hd. cbn [mbind option_bind].
    rewrite Hd'. cbn [mbind option_bind].
    destruct (IH (<[c := d']> cpus0) Hcur) as (cpus & Hfold & Hlen).
    + rewrite length_insert. exact Hcs.
    + exists cpus. split; [exact Hfold|].
      rewrite Hlen, length_insert. reflexivity.
Qed.

Lemma recalculate_down_threshold_all_total online_cpus g :
  policy_cur (policy g) <> 0 ->
  Forall (fun c => (c < length (cs_cpu_dbs_info g))%nat) online_cpus ->
  exists cpus,
    recalculate_down_threshold_all online_cpus g
      = Some (set_cs_cpu_dbs_info cpus g)
    /\ length cpus = length (cs_cpu_dbs_info g).
Proof.
  intros Hcur Hall. unfold recalculate_down_threshold_all.
  destruct (recalculate_fold_total (tuners g) (policy g) online_cpus
              (cs_cpu_dbs_info g) Hcur Hall) as (cpus & Hfold & Hlen).
  exists cpus. rewrite Hfold. cbn [mbind option_bind]. split; [reflexivity|].
  exact Hlen.
Qed.

(** A rejected write returns [-EINVAL] and changes nothing. *)
Lemma store_rejected online_cpus c g :
  ~ accepted c (tuners g) -> store online_cpus c g = Some (- EINVAL, g).
Proof.
  intros Hrej. destruct c as [[input|] count|[input|] count];
    cbn [store store_up_threshold store_down_differential accepted] in *;
    try reflexivity.
  - destruct (Z.ltb_spec (down_differential (tuners g)) input);
      destruct (Z.leb_spec input 100); cbn [andb]; try reflexivity. lia.
  - destruct (Z.ltb_spec 0 input);
      destruct (Z.ltb_spec input (up_threshold (tuners g))); cbn [andb];
      try reflexivity. lia.
Qed.

(** One write keeps the invariant, the policy and the number of cores. *)
Lemma store_keeps_invariant online_cpus c g :
  threshold_invariant (tuners g) ->
  policy_cur (policy g) <> 0 ->
  Forall (fun c => (c < length (cs_cpu_dbs_info g))%nat) online_cpus ->
  exists r g', store online_cpus c g = Some (r, g') /\
    threshold_invariant (tuners g') /\
    policy g' = policy g /\
    length (cs_cpu_dbs_info g') = length (cs_cpu_dbs_info g).
Proof.
  intros Hinv Hcur Hall. unfold threshold_invariant in *.
  destruct c as [[input|] count|[input|] count];
    cbn [store store_up_threshold store_down_differential];
    try (eexists _, g; split; [reflexivity|]; split; [exact Hinv|];
         split; reflexivity).
  - destruct (Z.ltb_spec (down_differential (tuners g)) input);
      destruct (Z.leb_spec input 100); cbn [andb];
      try (eexists _, g; split; [reflexivity|]; split; [exact Hinv|];
           split; reflexivity).
    destruct (recalculate_down_threshold_all_total online_cpus
                (set_tuners (set_up_threshold input (tuners g)) g))
      as (cpus & Hrec & Hlen); [exact Hcur|exact Hall|].
    rewrite Hrec. cbn [mbind option_bind]. eexists _, _.
    split; [reflexivity|]. cbn. split; [lia|]. split; [reflexivity|exact Hlen].
  - destruct (Z.ltb_spec 0 input);
      destruct (Z.ltb_spec input (up_threshold (tuners g))); cbn [andb];
      try (eexists _, g; split; [reflexivity|]; split; [exact Hinv|];
           split; reflexivity).
    destruct (recalculate_down_threshold_all_total online_cpus
                (set_tuners (set_down_differential input (tuners g)) g))
      as (cpus & Hrec & Hlen); [exact Hcur|exact Hall|].
    rewrite Hrec. cbn [mbind option_bind]. eexists _, _.
    split; [reflexivity|]. cbn. split; [lia|]. split; [reflexivity|exact Hlen].
Qed.

(** C9.  A write to up_threshold or down_differential whose input is
    missing or outside the validated range returns [-EINVAL] and leaves
    the whole state as it was; and from a configuration with
    [down_differential < up_threshold <= 100] every sequence of writes to
    the two files runs to the end and ends in such a configuration. *)
Theorem stores_keep_threshold_invariant
    (online_cpus : list nat) (cs : list store_call) (g : gov) :
  threshold_invariant (tuners g) ->
  policy_cur (policy g) <> 0 ->
  Forall (fun c => (c < length (cs_cpu_dbs_info g))%nat) online_cpus ->
  (forall c g0, ~ accepted c (tuners g0) ->
     store online_cpus c g0 = Some (- EINVAL, g0)) /\
  exists g', stores online_cpus cs g = Some g' /\
    threshold_invariant (tuners g').
Proof.
  intros Hinv Hcur Hall. split.
  { intros c g0. apply store_rejected. }
  revert g Hinv Hcur Hall.
  induction cs as [|c cs IH]; intros g Hinv Hcur Hall.
  - exists g. split; [reflexivity|exact Hinv].
  - destruct (store_keeps_invariant online_cpus c g Hinv Hcur Hall)
      as (r & g1 & Hst & Hinv1 & Hpol & Hlen).
    cbn [stores]. rewrite Hst. cbn [mbind option_bind snd].
    apply IH; [exact Hinv1|rewrite Hpol; exact Hcur|].
    rewrite Hlen. exact Hall.
Qed.

(** ** The hotplug checks *)

Lemma fold_min_snoc a x l :
  fold_right Z.min a (l ++ [x]) = fold_right Z.min (Z.min a x) l.
Proof. rewrite fold_right_app. cbn [fold_right]. rewrite Z.min_comm. done. Qed.

Lemma fold_max_snoc a x l :
  fold_right Z.max a (l ++ [x]) = fold_right Z.max (Z.max a x) l.
Proof. rewrite fold_right_app. cbn [fold_right]. rewrite Z.max_comm. done. Qed.

Lemma window_snoc (us : list cpu_usage) (k n : nat) u :
  (S k <= n)%nat -> us !! (n - 1)%nat = Some u ->
  take (S k) (drop (n - S k) us)
  = take k (drop (n - 1 - k) us) ++ [u].
Proof.
  intros Hk Hu. replace (n - S k)%nat with (n - 1 - k)%nat by lia.
  apply take_S_r. rewrite lookup_drop.
  replace (n - 1 - k + k)%nat with (n - 1)%nat by lia. exact Hu.
Qed.

(** The loop of [check_up] computes the minima over the window that ends
    at index [n - 1] and holds [k] samples. *)
Lemma scan_min_window (us : list cpu_usage) : forall (k n : nat) a b,
  (k <= n <= length us)%nat ->
  scan_min us (Z.of_nat n - 1) k a b =
    Some (fold_right Z.min a
            ((fun u => to_int (freq u)) <$> take k (drop (n - k) us)),
          fold_right Z.min b
            ((fun u => to_int (rq_avg u)) <$> take k (drop (n - k) us))).
Proof.
  induction k as [|k IH]; intros n a b Hn.
  - reflexivity.
  - destruct (lookup_lt_is_Some_2 us (n - 1)%nat) as [u Hu]; [lia|].
    cbn [scan_min]. unfold usage_at.
    destruct (Z.ltb_spec (Z.of_nat n - 1) 0); [lia|].
    replace (Z.to_nat (Z.of_nat n - 1)) with (n - 1)%nat by lia.
    rewrite Hu. cbn [mbind option_bind].
    replace (Z.of_nat n - 1 - 1) with (Z.of_nat (n - 1) - 1) by lia.
    rewrite IH by lia.
    rewrite (window_snoc us k n u) by (lia || exact Hu).
    rewrite !fmap_app. cbn [fmap list_fmap].
    rewrite !fold_min_snoc. reflexivity.
Qed.

Lemma scan_max_window (us : list cpu_usage) : forall (k n : nat) a b,
  (k <= n <= length us)%nat ->
  scan_max us (Z.of_nat n - 1) k a b =
    Some (fold_right Z.max a
            ((fun u => to_int (freq u)) <$> take k (drop (n - k) us)),
          fold_right Z.max b
            ((fun u => to_int (rq_avg u)) <$> take k (drop (n - k) us))).
Proof.
  induction k as [|k IH]; intros n a b Hn.
  - reflexivity.
  - destruct (lookup_lt_is_Some_2 us (n - 1)%nat) as [u Hu]; [lia|].
    cbn [scan_max]. unfold usage_at.
    destruct (Z.ltb_spec (Z.of_nat n - 1) 0); [lia|].
    replace (Z.to_nat (Z.of_nat n - 1)) with (n - 1)%nat by lia.
    rewrite Hu. cbn [mbind option_bind].
    replace (Z.of_nat n - 1 - 1) with (Z.of_nat (n - 1) - 1) by lia.
    rewrite IH by lia.
    rewrite (window_snoc us k n u) by (lia || exact Hu).
    rewrite !fmap_app. cbn [fmap list_fmap].
    rewrite !fold_max_snoc. reflexivity.
Qed.

(** Readings that fit an [int] are read unchanged. *)
Lemma fmap_to_int_fits (f : cpu_usage -> Z) (l : list cpu_usage) :
  Forall (fun u => 0 <= f u < 2 ^ 31) l ->
  (fun u => to_int (f u)) <$> l = f <$> l.
Proof.
  induction 1 as [|u l Hu _ IH]; [reflexivity|].
  cbn [fmap list_fmap] in *. rewrite to_int_small by exact Hu.
  f_equal. exact IH.
Qed.

Lemma Forall_window {A} (P : A -> Prop) (l : list A) k m :
  Forall P l -> Forall P (take k (drop m l)).
Proof. intros H. apply Forall_take, Forall_drop, H. Qed.



(** ** The load loop *)

Lemma same_control_refl d : same_control d d.
Proof. repeat split. Qed.

Lemma same_control_trans d1 d2 d3 :
  same_control d1 d2 -> same_control d2 d3 -> same_control d1 d3.
Proof. unfold same_control. intuition congruence. Qed.

Lemma same_control_set_prev a b c e d : same_control d (set_prev a b c e d).
Proof. repeat split. Qed.

Lemma same_control_oc_debit delta busy d :
  same_control d (oc_debit delta busy d).
Proof. unfold oc_debit. destruct (_ <? _); repeat split. Qed.

Lemma lookup_insert_same_control (cpus : list cpu_dbs_info_s) this j d jd jd' :
  cpus !! this = Some d -> cpus !! j = Some jd -> same_control jd jd' ->
  exists x, <[j := jd']> cpus !! this = Some x /\ same_control d x.
Proof.
  intros Hd Hjd Hsc. destruct (decide (j = this)) as [->|Hne].
  - rewrite list_lookup_insert_eq by (eapply lookup_lt_Some; eauto).
    exists jd'. split; [reflexivity|]. congruence.
  - rewrite list_lookup_insert_ne by exact Hne.
    exists d. split; [exact Hd|apply same_control_refl].
Qed.

(** One iteration runs for every valid core; it keeps the sizes of the
    arrays and, in [this_dbs_info], everything but the snapshots and the
    overclock credit. *)
Lemma load_step_frame t active sb susp boosted this slot delta smp
    (cpus : list cpu_dbs_info_s) (us : list cpu_usage) ml j :
  (j < length cpus)%nat -> (this < length cpus)%nat ->
  exists cpus' us' ml',
    load_step t active sb susp boosted this slot delta smp
      (Some (cpus, us, ml)) j = Some (cpus', us', ml')
    /\ length cpus' = length cpus /\ length us' = length us
    /\ forall d, cpus !! this = Some d ->
         exists d', cpus' !! this = Some d' /\ same_control d d'.
Proof.
  intros Hj Hthis. unfold load_step. cbn [mbind option_bind].
  destruct (lookup_lt_is_Some_2 cpus j Hj) as [jd Hjd].
  destruct (lookup_lt_is_Some_2 cpus this Hthis) as [d0 Hd0].
  rewrite Hjd. cbn [mbind option_bind].
  destruct (adjusted_idle _ _ _ _ _ _ _ _) as [idle_time prev_io].
  set (jd' := set_prev _ _ _ _ jd).
  destruct (lookup_insert_same_control cpus this j d0 jd jd' Hd0 Hjd
              (same_control_set_prev _ _ _ _ _)) as (x & Hx & Hscx).
  destruct (_ || _).
  { eexists _, _, _. split; [reflexivity|].
    rewrite length_insert. repeat split.
    intros d Hd. exists x. split; [exact Hx|congruence]. }
  destruct (negb _).
  - rewrite Hx. cbn [mbind option_bind].
    eexists _, _, _. split; [reflexivity|].
    rewrite !length_insert, length_alter. repeat split.
    intros d Hd. eexists. split.
    + apply list_lookup_insert_eq. rewrite length_insert. exact Hthis.
    + eapply same_control_trans; [|apply same_control_oc_debit].
      congruence.
  - eexists _, _, _. split; [reflexivity|].
    rewrite length_insert, length_alter. repeat split.
    intros d Hd. exists x. split; [exact Hx|congruence].
Qed.

Lemma load_loop_frame t active sb susp boosted this slot delta smp
    (cpus_of_policy : list nat) :
  forall (cpus : list cpu_dbs_info_s) (us : list cpu_usage) ml,
  Forall (fun j => (j < length cpus)%nat) cpus_of_policy ->
  (this < length cpus)%nat ->
  exists cpus' us' ml',
    load_loop t active sb susp boosted this slot delta smp cpus_of_policy
      (cpus, us, ml) = Some (cpus', us', ml')
    /\ length cpus' = length cpus /\ length us' = length us
    /\ forall d, cpus !! this = Some d ->
         exists d', cpus' !! this = Some d' /\ same_control d d'.
Proof.
  unfold load_loop.
  induction cpus_of_policy as [|j js IH]; intros cpus us ml Hall Hthis.
  - exists cpus, us, ml. repeat split. intros d Hd. exists d.
    split; [exact Hd|apply same_control_refl].
  - inversion Hall as [|? ? Hj Hjs]; subst.
    destruct (load_step_frame t active sb susp boosted this slot delta smp
                cpus us ml j Hj Hthis)
      as (cpus1 & us1 & ml1 & Hstep & Hlen & Hlenu & Hframe).
    destruct (IH cpus1 us1 ml1) as (cpus2 & us2 & ml2 & Hloop & Hlen2
                                    & Hlenu2 & Hframe2).
    + rewrite Hlen. exact Hjs.
    + rewrite Hlen. exact Hthis.
    + exists cpus2, us2, ml2.
      split; [cbn [foldl]; rewrite Hstep; exact Hloop|].
      split; [congruence|]. split; [congruence|].
      intros d Hd. destruct (Hframe d Hd) as (d1 & Hd1 & Hsc1).
      destruct (Hframe2 d1 Hd1) as (d2 & Hd2 & Hsc2).
      exists d2. split; [exact Hd2|].
      eapply same_control_trans; eassumption.
Qed.

(** ** Outcomes of the hotplug checks *)

Lemma set_num_hist_id g : set_num_hist (num_hist (hotplug_history g)) g = g.
Proof. destruct g as [? ? ? ? ? ? [? ?] ? ? ? ?]. reflexivity. Qed.

Lemma nz_lt_spec x y : negb (x =? 0) && (y <? x) = true <-> x <> 0 /\ y < x.
Proof.
  destruct (Z.eqb_spec x 0); destruct (Z.ltb_spec y x); cbn;
    intuition (congruence || lia).
Qed.

Lemma nz_le_spec x y : negb (x =? 0) && (x <=? y) = true <-> x <> 0 /\ x <= y.
Proof.
  destruct (Z.eqb_spec x 0); destruct (Z.leb_spec x y); cbn;
    intuition (congruence || lia).
Qed.

Lemma nz_below_spec x y : negb (x =? 0) && (x <? y) = true <-> x <> 0 /\ x < y.
Proof.
  destruct (Z.eqb_spec x 0); destruct (Z.ltb_spec x y); cbn;
    intuition (congruence || lia).
Qed.

Lemma boost_floor_spec (b : bool) x y :
  b && negb (x =? 0) && (y <? x) = true <-> b = true /\ x <> 0 /\ y < x.
Proof.
  destruct b; destruct (Z.eqb_spec x 0); destruct (Z.ltb_spec y x); cbn;
    intuition (congruence || lia).
Qed.

(** [check_up] either leaves the state alone or, returning true from the
    window test, clears the history count. *)
Lemma check_up_outcome now online possible g b g' :
  check_up now online possible g = Some (b, g') ->
  (g' = g \/ (b = true /\ g' = set_num_hist 0 g)) /\
  (b = true ->
     (up_short_circuit now online g -> g' = g) /\
     (~ up_short_circuit now online g -> g' = set_num_hist 0 g)).
Proof.
  unfold check_up, up_short_circuit. intros H.
  destruct (hotplug_param (_hotplug_freq g) _ _) as [up_freq|];
    [|discriminate].
  destruct (hotplug_param (_hotplug_rq g) _ _) as [up_rq|]; [|discriminate].
  cbn [mbind option_bind] in H.
  destruct (online =? possible);
    [injection H as <- <-; split; [left; reflexivity|discriminate]|].
  destruct (negb (max_cpu_lock _ =? 0) && _);
    [injection H as <- <-; split; [left; reflexivity|discriminate]|].
  destruct (negb (min_cpu_lock _ =? 0) && _) eqn:E2.
  { injection H as <- <-. split; [left; reflexivity|]. intros _.
    split; [reflexivity|]. intros Hn. exfalso. apply Hn. left.
    apply nz_lt_spec. exact E2. }
  destruct (is_boosted now g && _ && _) eqn:E3.
  { injection H as <- <-. split; [left; reflexivity|]. intros _.
    split; [reflexivity|]. intros Hn. exfalso. apply Hn. right.
    apply boost_floor_spec. exact E3. }
  assert (Hns : ~ ((min_cpu_lock (tuners g) <> 0
                    /\ online < min_cpu_lock (tuners g))
                   \/ (is_boosted now g = true
                       /\ boost_mincpus (tuners g) <> 0
                       /\ online < boost_mincpus (tuners g)))).
  { intros [Hs|Hs]; [apply nz_lt_spec in Hs|apply boost_floor_spec in Hs];
      congruence. }
  clear E2 E3.
  destruct (to_int (num_hist _) =? 0);
    [injection H as <- <-; split; [left; reflexivity|discriminate]|].
  destruct (to_int (cpu_up_rate _) =? 0); [discriminate|].
  destruct (negb (Z.rem _ _ =? 0));
    [injection H as <- <-; split; [left; reflexivity|discriminate]|].
  destruct (scan_min _ _ _ _ _) as [[min_f min_r]|]; [|discriminate].
  cbn [mbind option_bind] in H.
  destruct (_ && _); injection H as <- <-.
  - split; [right; split; reflexivity|]. intros _.
    split; [intros Hs; contradiction|reflexivity].
  - split; [left; reflexivity|discriminate].
Qed.

Lemma check_down_outcome now online g b g' :
  check_down now online g = Some (b, g') ->
  (g' = g \/ (b = true /\ g' = set_num_hist 0 g)) /\
  (b = true ->
     (down_short_circuit online g -> g' = g) /\
     (~ down_short_circuit online g -> g' = set_num_hist 0 g)).
Proof.
  unfold check_down, down_short_circuit. intros H.
  destruct (hotplug_param (_hotplug_freq g) _ _) as [down_freq|];
    [|discriminate].
  destruct (hotplug_param (_hotplug_rq g) _ _) as [down_rq|];
    [|discriminate].
  cbn [mbind option_bind] in H.
  destruct (is_boosted now g && _ && _);
    [injection H as <- <-; split; [left; reflexivity|discriminate]|].
  destruct (online =? 1);
    [injection H as <- <-; split; [left; reflexivity|discriminate]|].
  destruct (negb (max_cpu_lock _ =? 0) && _) eqn:E2.
  { injection H as <- <-. split; [left; reflexivity|]. intros _.
    split; [reflexivity|]. intros Hn. exfalso. apply Hn.
    apply nz_below_spec. exact E2. }
  assert (Hns : ~ (max_cpu_lock (tuners g) <> 0
                   /\ max_cpu_lock (tuners g) < online)).
  { intros Hs. apply nz_below_spec in Hs. congruence. }
  clear E2.
  destruct (negb (min_cpu_lock _ =? 0) && _);
    [injection H as <- <-; split; [left; reflexivity|discriminate]|].
  destruct (to_int (num_hist _) =? 0);
    [injection H as <- <-; split; [left; reflexivity|discriminate]|].
  destruct (to_int (cpu_down_rate _) =? 0); [discriminate|].
  destruct (negb (Z.rem _ _ =? 0));
    [injection H as <- <-; split; [left; reflexivity|discriminate]|].
  destruct (scan_max _ _ _ _ _) as [[max_f max_r]|]; [|discriminate].
  cbn [mbind option_bind] in H.
  destruct (_ && _); injection H as <- <-.
  - split; [right; split; reflexivity|]. intros _.
    split; [intros Hs; contradiction|reflexivity].
  - split; [left; reflexivity|discriminate].
Qed.

Lemma rem_zero_ge n r :
  0 <= n -> 0 < r -> n <> 0 -> Z.rem n r = 0 -> r <= n.
Proof.
  intros Hn Hr Hnz He. rewrite Z.rem_mod_nonneg in He by lia.
  destruct (Z.lt_ge_cases n r); [rewrite Z.mod_small in He by lia; lia|lia].
Qed.

Lemma check_up_total now online possible g :
  hotplug_ready online g ->
  exists b g', check_up now online possible g = Some (b, g').
Proof.
  intros (Hp & Hup & Hdown & Hn & Hn31).
  destruct (Hp 1%nat) as [[uf Huf] [ur Hur]]; [lia|].
  unfold check_up. change HOTPLUG_UP_INDEX with 1%nat.
  rewrite Huf, Hur. cbn [mbind option_bind].
  rewrite !to_int_small by lia.
  destruct (online =? possible); [eauto|].
  destruct (negb (max_cpu_lock _ =? 0) && _); [eauto|].
  destruct (negb (min_cpu_lock _ =? 0) && _); [eauto|].
  destruct (is_boosted now g && _ && _); [eauto|].
  destruct (Z.eqb_spec (num_hist (hotplug_history g)) 0); [eauto|].
  destruct (Z.eqb_spec (cpu_up_rate (tuners g)) 0); [lia|].
  destruct (Z.eqb_spec (Z.rem (num_hist (hotplug_history g))
                          (cpu_up_rate (tuners g))) 0) as [He|];
    cbn [negb]; [|eauto].
  apply rem_zero_ge in He; [|lia..].
  pose proof (scan_min_window (usage (hotplug_history g))
                (Z.to_nat (cpu_up_rate (tuners g)))
                (Z.to_nat (num_hist (hotplug_history g))) INT_MAX INT_MAX)
    as Hs.
  rewrite Z2Nat.id in Hs by lia. rewrite Hs by lia.
  cbn [mbind option_bind]. destruct (_ && _); eauto.
Qed.

Lemma check_down_total now online g :
  hotplug_ready online g ->
  exists b g', check_down now online g = Some (b, g').
Proof.
  intros (Hp & Hup & Hdown & Hn & Hn31).
  destruct (Hp 0%nat) as [[uf Huf] [ur Hur]]; [lia|].
  unfold check_down. change HOTPLUG_DOWN_INDEX with 0%nat.
  rewrite Huf, Hur. cbn [mbind option_bind].
  rewrite !to_int_small by lia.
  destruct (is_boosted now g && _ && _); [eauto|].
  destruct (online =? 1); [eauto|].
  destruct (negb (max_cpu_lock _ =? 0) && _); [eauto|].
  destruct (negb (min_cpu_lock _ =? 0) && _); [eauto|].
  destruct (Z.eqb_spec (num_hist (hotplug_history g)) 0); [eauto|].
  destruct (Z.eqb_spec (cpu_down_rate (tuners g)) 0); [lia|].
  destruct (Z.eqb_spec (Z.rem (num_hist (hotplug_history g))
                          (cpu_down_rate (tuners g))) 0) as [He|];
    cbn [negb]; [|eauto].
  apply rem_zero_ge in He; [|lia..].
  pose proof (scan_max_window (usage (hotplug_history g))
                (Z.to_nat (cpu_down_rate (tuners g)))
                (Z.to_nat (num_hist (hotplug_history g))) 0 0) as Hs.
  rewrite Z2Nat.id in Hs by lia. rewrite Hs by lia.
  cbn [mbind option_bind]. destruct (_ && _); eauto.
Qed.

Lemma hotplug_ready_set_num_hist online g :
  hotplug_ready online g -> hotplug_ready online (set_num_hist 0 g).
Proof.
  intros (Hp & Hup & Hdown & Hn & Hn31).
  split; [exact Hp|]. cbn. repeat split; lia.
Qed.

Lemma set_num_hist_twice a b g :
  set_num_hist a (set_num_hist b g) = set_num_hist a g.
Proof. reflexivity. Qed.

(** The hotplug step of a tick changes nothing but the history count,
    which it keeps or clears, and queues at most one action; the offline
    action needs standby or suspend. *)
Lemma hotplug_check_outcome env c g g' acts :
  hotplug_check env c g = Some (g', acts) ->
  (g' = g \/ g' = set_num_hist 0 g) /\
  (acts = [] \/ acts = [queue_up_work c] \/
   (acts = [queue_down_work c] /\ (standby g || suspend g) = true)).
Proof.
  unfold hotplug_check. intros H.
  destruct (check_up _ _ _ g) as [[up g1]|] eqn:Hup; [|discriminate].
  cbn [mbind option_bind] in H.
  apply check_up_outcome in Hup as [Hg1 _].
  assert (Hg1' : g1 = g \/ g1 = set_num_hist 0 g) by tauto. clear Hg1.
  destruct up.
  - cbn [mbind option_bind] in H.
    destruct (_ =? _); injection H as <- <-; (split; [|auto]).
    + destruct Hg1' as [->| ->]; right; reflexivity.
    + exact Hg1'.
  - destruct (check_down _ _ _) as [[down g2]|] eqn:Hdown; [|discriminate].
    cbn [mbind option_bind] in H.
    apply check_down_outcome in Hdown as [Hg2 _].
    assert (Hg2' : g2 = g \/ g2 = set_num_hist 0 g).
    { destruct Hg2 as [->|[_ ->]]; [exact Hg1'|].
      destruct Hg1' as [->| ->]; right; reflexivity. }
    clear Hg2.
    assert (Hflags : (standby g1 || suspend g1) = (standby g || suspend g)).
    { destruct Hg1' as [->| ->]; reflexivity. }
    assert (Hflags2 : (standby g2 || suspend g2) = (standby g || suspend g)).
    { destruct Hg2' as [->| ->]; reflexivity. }
    rewrite Hflags2 in H.
    destruct (down && _) eqn:Hd; cbn [mbind option_bind] in H;
      destruct (_ =? _); injection H as <- <-; split.
    all: try (destruct Hg2' as [->| ->]; right; reflexivity).
    all: try exact Hg2'.
    all: auto.
    all: right; right; split; [reflexivity|].
    all: apply andb_true_iff in Hd as [_ Hd]; exact Hd.
Qed.

Lemma hotplug_check_total env c g :
  hotplug_ready (online env) g ->
  exists g' acts, hotplug_check env c g = Some (g', acts).
Proof.
  intros Hready. unfold hotplug_check.
  destruct (check_up_total (now env) (online env) (possible env) g Hready)
    as (up & g1 & Hup).
  rewrite Hup. cbn [mbind option_bind].
  destruct up.
  - cbn [mbind option_bind]. destruct (_ =? _); eauto.
  - assert (Hready1 : hotplug_ready (online env) g1).
    { apply check_up_outcome in Hup as [[->|[_ ->]] _];
        [exact Hready|apply hotplug_ready_set_num_hist, Hready]. }
    destruct (check_down_total (now env) (online env) g1 Hready1)
      as (down & g2 & Hdown).
    rewrite Hdown. cbn [mbind option_bind].
    destruct (down && _); cbn [mbind option_bind]; destruct (_ =? _); eauto.
Qed.

(** ** The frequency logic runs and only talks to the driver *)

Lemma check_freq_decrease_total t p active boosted max_load d :
  threshold_invariant t -> 0 <= down_differential t ->
  exists d' acts,
    check_freq_decrease t p active boosted max_load d = Some (d', acts)
    /\ Forall (fun a => is_hotplug a = false) acts.
Proof.
  intros [Hlt Hle] Hdd. unfold check_freq_decrease, udiv.
  rewrite (u32_small (up_threshold t - down_differential t)) by lia.
  destruct (Z.eqb_spec (up_threshold t - down_differential t) 0); [lia|].
  cbn [mbind option_bind].
  repeat match goal with
         | |- context [if ?c then _ else _] => destruct c
         end;
    eexists _, _; (split; [reflexivity|]); repeat constructor.
Qed.

Lemma standby_activation_total t p active boosted max_load sb dl d :
  threshold_invariant t -> 0 <= down_differential t ->
  exists d' sb' dl' acts,
    standby_activation t p active boosted max_load sb dl d
      = Some (d', sb', dl', acts)
    /\ Forall (fun a => is_hotplug a = false) acts.
Proof.
  intros Hinv Hdd. unfold standby_activation.
  destruct (_ <=? _).
  - destruct (if active && negb boosted then _ else _) as [[d1 sb1] dl1].
    destruct (_ =? _).
    + eexists _, _, _, _. split; [reflexivity|constructor].
    + destruct (check_freq_decrease_total t p active boosted max_load d1
                  Hinv Hdd) as (d' & acts & Hdec & Hacts).
      rewrite Hdec. cbn [mbind option_bind]. eauto 10.
  - destruct (check_freq_decrease_total t p active boosted max_load
                (set_sampling_up_counter 0 d) Hinv Hdd)
      as (d' & acts & Hdec & Hacts).
    rewrite Hdec. cbn [mbind option_bind]. eauto 10.
Qed.

Lemma check_freq_increase_actions t p susp sb hard soft d :
  Forall (fun a => is_hotplug a = false)
         (check_freq_increase t p susp sb hard soft d).2.
Proof.
  unfold check_freq_increase.
  repeat match goal with
         | |- context [if ?c then _ else _] => destruct c
         end; cbn [snd]; repeat constructor.
Qed.

Lemma frequency_logic_total t p susp sb active boosted dl max_load d :
  threshold_invariant t -> 0 <= down_differential t ->
  exists d' sb' dl' acts,
    frequency_logic t p susp sb active boosted dl max_load d
      = Some (d', sb', dl', acts)
    /\ Forall (fun a => is_hotplug a = false) acts.
Proof.
  intros Hinv Hdd. unfold frequency_logic.
  destruct (input_boost_limits t p susp boosted) as [[ft h0] s0].
  destruct (match ft with Some f => _ | None => false end).
  { eexists _, _, _, _. split; [reflexivity|repeat constructor]. }
  destruct (freq_ceilings t p susp boosted active d) as [hard soft].
  destruct (hard <? requested_freq d).
  { eexists _, _, _, _. split; [reflexivity|repeat constructor]. }
  destruct (_ <? max_load).
  - pose proof (check_freq_increase_actions t p susp sb hard soft d) as Ha.
    destruct (check_freq_increase t p susp sb hard soft d) as [d1 acts].
    eexists _, _, _, _. split; [reflexivity|exact Ha].
  - apply standby_activation_total; assumption.
Qed.

(** ** One tick, end to end *)

Lemma history_push_slot g :
  0 <= num_hist (hotplug_history g) ->
  0 <= (history_push g).1 < 40 /\
  num_hist (hotplug_history (history_push g).2) = (history_push g).1 + 1.
Proof.
  intros Hn. unfold history_push, get_nr_run_avg, MAX_HOTPLUG_RATE.
  cbn [fst snd set_rq_data set_hotplug_history hotplug_history num_hist].
  destruct (Z.leb_spec 40 (num_hist (hotplug_history g)));
    (split; [lia|]); apply u32_small; lia.
Qed.

Lemma dbs_check_cpu_run this env g :
  tick_ready this env g ->
  exists d0 d1 max_load hp_acts d' sb' dl' facts g',
    cs_cpu_dbs_info g !! this = Some d0 /\
    same_control d0 d1 /\
    (hp_acts = [] \/ hp_acts = [queue_up_work (cpu d0)] \/
     (hp_acts = [queue_down_work (cpu d0)]
      /\ (standby g || suspend g) = true)) /\
    frequency_logic (tuners g) (policy g) (suspend g) (standby g)
      (is_active g) (is_boosted (now env) g) (delay g) max_load d1
      = Some (d', sb', dl', facts) /\
    Forall (fun a => is_hotplug a = false) facts /\
    dbs_check_cpu this env g = Some (g', hp_acts ++ facts) /\
    cs_cpu_dbs_info g' !! this = Some d' /\
    standby g' = sb' /\ delay g' = dl' /\
    tuners g' = tuners g /\ policy g' = policy g /\
    suspend g' = suspend g /\
    _hotplug_rq g' = _hotplug_rq g /\ _hotplug_freq g' = _hotplug_freq g /\
    length (cs_cpu_dbs_info g') = length (cs_cpu_dbs_info g) /\
    length (usage (hotplug_history g')) = 40%nat /\
    0 <= num_hist (hotplug_history g').
Proof.
  intros (Hthis & Hcpus & Htab & Hup & Hdown & Hlen & Hnum & Hinv & Hdd).
  destruct (lookup_lt_is_Some_2 _ _ Hthis) as [d0 Hd0].
  unfold dbs_check_cpu. rewrite Hd0. cbn [mbind option_bind].
  pose proof (history_push_slot g Hnum) as [Hslot Hnh].
  destruct (history_push g) as [slot g1] eqn:Hpush.
  cbn [fst snd] in Hslot, Hnh.
  assert (Hg1 : cs_cpu_dbs_info g1 = cs_cpu_dbs_info g
                /\ tuners g1 = tuners g /\ policy g1 = policy g
                /\ suspend g1 = suspend g /\ standby g1 = standby g
                /\ delay g1 = delay g
                /\ _hotplug_rq g1 = _hotplug_rq g
                /\ _hotplug_freq g1 = _hotplug_freq g
                /\ length (usage (hotplug_history g1)) = 40%nat).
  { unfold history_push, get_nr_run_avg in Hpush.
    injection Hpush as _ <-. cbn. rewrite length_alter.
    repeat split; assumption. }
  destruct Hg1 as (Ec & Et & Ep & Es & Eb & Ed & Erq & Efr & El1).
  rewrite Ec, Es, Eb.
  destruct (load_loop_frame (tuners g) (is_active g) (standby g) (suspend g)
              (is_boosted (now env) g) this slot
              (oc_freq_delta_of (is_active g) (tuners g) (policy g) d0)
              (sample env) (policy_cpus (policy g))
              (cs_cpu_dbs_info g) (usage (hotplug_history g1)) 0
              Hcpus Hthis)
    as (cpus & us & ml & Hloop & Hlc & Hlu & Hframe).
  rewrite Hloop. cbn [mbind option_bind].
  destruct (Hframe d0 Hd0) as (d1 & Hd1 & Hsc).
  set (g2 := set_cs_cpu_dbs_info cpus _).
  assert (Hready : hotplug_ready (online env) g2).
  { unfold hotplug_ready, hotplug_rows, g2. cbn.
    rewrite Efr, Erq, Et, Hlu, El1, Hnh.
    repeat split; try apply Htab; try lia; assumption. }
  destruct (hotplug_check_total env (cpu d0) g2 Hready)
    as (g3 & hp_acts & Hhp).
  rewrite Hhp. cbn [mbind option_bind].
  apply hotplug_check_outcome in Hhp as [Hg3 Hshape].
  assert (Hg3' : cs_cpu_dbs_info g3 = cpus /\ suspend g3 = suspend g
                 /\ standby g3 = standby g /\ delay g3 = delay g
                 /\ tuners g3 = tuners g /\ policy g3 = policy g
                 /\ _hotplug_rq g3 = _hotplug_rq g
                 /\ _hotplug_freq g3 = _hotplug_freq g
                 /\ length (usage (hotplug_history g3)) = 40%nat
                 /\ 0 <= num_hist (hotplug_history g3)).
  { destruct Hg3 as [->| ->]; unfold g2; cbn;
      rewrite ?Es, ?Eb, ?Ed, ?Et, ?Ep, ?Erq, ?Efr, ?Hlu, ?El1, ?Hnh;
      repeat split; lia. }
  destruct Hg3' as (Gc & Gs & Gb & Gd & Gt & Gp & Grq & Gfr & Gl & Gn).
  rewrite Gc, Gs, Gb, Gd, Hd1. cbn [mbind option_bind].
  destruct (frequency_logic_total (tuners g) (policy g) (suspend g)
              (standby g) (is_active g) (is_boosted (now env) g) (delay g)
              ml d1 Hinv Hdd) as (d' & sb' & dl' & facts & Hfl & Hfacts).
  rewrite Hfl. cbn [mbind option_bind].
  eexists d0, d1, ml, hp_acts, d', sb', dl', facts, _.
  split; [reflexivity|]. split; [exact Hsc|].
  split.
  { cbn [standby suspend g2 set_cs_cpu_dbs_info set_hotplug_history]
      in Hshape. rewrite Es, Eb in Hshape. exact Hshape. }
  split; [exact Hfl|]. split; [exact Hfacts|].
  split; [reflexivity|].
  cbn. rewrite length_insert, Hlc. split.
  { apply list_lookup_insert_eq. rewrite Hlc. exact Hthis. }
  repeat split; assumption.
Qed.

(** ** Hotplug actions of a tick *)

Lemma hotplug_count (hp_acts facts : list action) c :
  (hp_acts = [] \/ hp_acts = [queue_up_work c] \/
   hp_acts = [queue_down_work c]) ->
  Forall (fun a => is_hotplug a = false) facts ->
  (length (List.filter is_hotplug (hp_acts ++ facts)) <= 1)%nat.
Proof.
  intros Hshape Hfacts.
  assert (Hnone : List.filter is_hotplug facts = []).
  { induction Hfacts as [|a l Ha _ IH]; [reflexivity|].
    cbn [List.filter]. rewrite Ha. exact IH. }
  rewrite List.filter_app, Hnone, length_app.
  destruct Hshape as [->|[->| ->]]; cbn; lia.
Qed.

(** C3 (as amended).  A tick queues at most one hotplug action, and the
    offline action only after [check_up] returned false.  When [check_up]
    or [check_down] returns true from its test of the history window the
    history count is 0 afterwards; when it returns true from a lock or
    boost short-circuit the history (count included) is left as it
    was. *)
Theorem hotplug_at_most_one_action :
  (forall this env g, tick_ready this env g ->
     exists g' acts, dbs_check_cpu this env g = Some (g', acts) /\
       (length (List.filter is_hotplug acts) <= 1)%nat) /\
  (forall env c g g' acts,
     hotplug_check env c g = Some (g', acts) ->
     queue_down_work c ∈ acts ->
     exists g1, check_up (now env) (online env) (possible env) g
                = Some (false, g1)) /\
  (forall now online possible g g',
     check_up now online possible g = Some (true, g') ->
     (up_short_circuit now online g -> g' = g) /\
     (~ up_short_circuit now online g ->
        num_hist (hotplug_history g') = 0)) /\
  (forall now online g g',
     check_down now online g = Some (true, g') ->
     (down_short_circuit online g -> g' = g) /\
     (~ down_short_circuit online g ->
        num_hist (hotplug_history g') = 0)).
Proof.
  repeat apply conj.
  - intros this env g Hready.
    destruct (dbs_check_cpu_run this env g Hready)
      as (d0 & d1 & ml & hp & d' & sb' & dl' & facts & g' & _ & _ & Hshape
          & _ & Hfacts & Hrun & _).
    exists g', (hp ++ facts). split; [exact Hrun|].
    apply (hotplug_count hp facts (cpu d0)); [|exact Hfacts].
    destruct Hshape as [?|[?|[? _]]]; auto.
  - intros env c g g' acts H Hin. unfold hotplug_check in H.
    destruct (check_up _ _ _ g) as [[up g1]|]; [|discriminate].
    cbn [mbind option_bind] in H. destruct up; [|eauto].
    cbn [mbind option_bind] in H. exfalso.
    destruct (_ =? _); injection H as <- <-;
      apply list_elem_of_singleton in Hin; discriminate.
  - intros now online possible g g' H.
    apply check_up_outcome in H as [_ H].
    destruct (H eq_refl) as [Hs Hn]. split; [exact Hs|].
    intros Hns. rewrite (Hn Hns). reflexivity.
  - intros now online g g' H.
    apply check_down_outcome in H as [_ H].
    destruct (H eq_refl) as [Hs Hn]. split; [exact Hs|].
    intros Hns. rewrite (Hn Hns). reflexivity.
Qed.

(** C10.  A tick of an Active governor (neither standby nor suspend set)
    never queues the offline work, whatever [check_down] returns. *)
Theorem active_tick_queues_no_down_work this env g :
  tick_ready this env g ->
  standby g = false -> suspend g = false ->
  exists g' acts, dbs_check_cpu this env g = Some (g', acts) /\
    forall c, queue_down_work c ∉ acts.
Proof.
  intros Hready Hsb Hsusp.
  destruct (dbs_check_cpu_run this env g Hready)
    as (d0 & d1 & ml & hp & d' & sb' & dl' & facts & g' & _ & _ & Hshape
        & _ & Hfacts & Hrun & _).
  exists g', (hp ++ facts). split; [exact Hrun|].
  intros c Hin. apply elem_of_app in Hin as [Hin|Hin].
  - destruct Hshape as [->|[->|[_ Hflag]]].
    + apply elem_of_nil in Hin. exact Hin.
    + apply list_elem_of_singleton in Hin. discriminate.
    + rewrite Hsb, Hsusp in Hflag. discriminate.
  - apply list_elem_of_In in Hin. rewrite Forall_forall in Hfacts.
    specialize (Hfacts _ Hin). discriminate.
Qed.

(** ** The requested frequency stays inside the policy limits *)

Lemma suspend_hard_within present p t :
  policy_min p <= policy_max p ->
  frequency_tunables_valid present p t ->
  policy_min p <= _suspend_max_freq_hard t <= policy_max p.
Proof.
  intros Hmm (Hib & Hno & Hpo & Hsm & Hrec).
  apply (f_equal _suspend_max_freq_hard) in Hrec.
  unfold recalculate_freq_limits in Hrec.
  cbn [_suspend_max_freq_hard set_limits] in Hrec. rewrite <- Hrec.
  cbv zeta beta. repeat break_if; lia.
Qed.

Lemma boost_target_within present p t susp f h s :
  policy_min p <= policy_max p ->
  frequency_tunables_valid present p t ->
  0 < input_boost_freq t ->
  input_boost_limits t p susp true = (Some f, h, s) ->
  policy_min p <= f <= policy_max p.
Proof.
  intros Hmm (Hib & Hno & Hpo & Hsm & Hrec) Hpos.
  unfold input_boost_limits. repeat break_if; intros [= <- <- <-]; lia.
Qed.

Lemma hard_ceiling_within present p t susp boosted active d :
  policy_min p <= policy_max p ->
  frequency_tunables_valid present p t ->
  policy_min p <= (freq_ceilings t p susp boosted active d).1
               <= policy_max p.
Proof.
  intros Hmm Hvalid.
  pose proof (suspend_hard_within present p t Hmm Hvalid) as Hsh.
  destruct Hvalid as (Hib & Hno & Hpo & Hsm & Hrec).
  unfold freq_ceilings, input_boost_limits, turbo_boost_limits.
  destruct boosted, susp; repeat break_if; cbn [fst]; repeat break_if; lia.
Qed.

Lemma check_freq_increase_within p t susp sb hard soft d :
  policy_min p <= policy_max p ->
  table_within_policy p ->
  within_policy p d ->
  within_policy p (check_freq_increase t p susp sb hard soft d).1.
Proof.
  intros Hmm Htab [Hreq Hlo]. unfold check_freq_increase, within_policy.
  pose proof (Htab (u32 (policy_cur p + 1)) CPUFREQ_RELATION_L) as Hnext.
  repeat break_if; cbn; lia.
Qed.

Lemma check_freq_decrease_within p t active boosted max_load d d' acts :
  policy_min p <= policy_max p ->
  table_within_policy p ->
  within_policy p d ->
  check_freq_decrease t p active boosted max_load d = Some (d', acts) ->
  within_policy p d'.
Proof.
  intros Hmm Htab [Hreq Hlo]. unfold check_freq_decrease, within_policy.
  destruct (udiv _ _) as [q|]; cbn [mbind option_bind].
  - pose proof (Htab q CPUFREQ_RELATION_L) as Hq.
    repeat break_if; intros [= <- <-]; cbn in *; lia.
  - repeat break_if; intros [= <- <-]; cbn; lia.
Qed.

Lemma standby_activation_within p t active boosted max_load sb dl d
    d' sb' dl' acts :
  policy_min p <= policy_max p ->
  table_within_policy p ->
  within_policy p d ->
  standby_activation t p active boosted max_load sb dl d
    = Some (d', sb', dl', acts) ->
  within_policy p d'.
Proof.
  intros Hmm Htab Hin. unfold standby_activation.
  set (d1 := set_sampling_up_counter 0 d).
  assert (Hin1 : within_policy p d1) by exact Hin.
  destruct (_ <=? _).
  - destruct (if active && negb boosted then _ else _) as [[d2 sb2] dl2]
      eqn:Hstep.
    assert (Hin2 : within_policy p d2).
    { destruct (active && negb boosted).
      - destruct (_ <=? _) in Hstep; injection Hstep as <- _ _;
          exact Hin1.
      - injection Hstep as <- _ _. exact Hin1. }
    destruct (_ =? _); [intros [= <- _ _ _]; exact Hin2|].
    destruct (check_freq_decrease _ _ _ _ _ d2) as [[d3 acts3]|] eqn:Hdec;
      [|discriminate].
    cbn [mbind option_bind]. intros [= <- _ _ _].
    eapply check_freq_decrease_within; eassumption.
  - destruct (check_freq_decrease _ _ _ _ _ d1) as [[d3 acts3]|] eqn:Hdec;
      [|discriminate].
    cbn [mbind option_bind]. intros [= <- _ _ _].
    eapply check_freq_decrease_within; eassumption.
Qed.

(** The frequency logic keeps the requested frequency inside the policy
    limits. *)
Lemma frequency_logic_within present p t susp sb active boosted dl max_load
    d d' sb' dl' acts :
  policy_min p <= policy_max p ->
  frequency_tunables_valid present p t ->
  table_within_policy p ->
  (boosted = true -> 0 < input_boost_freq t) ->
  within_policy p d ->
  frequency_logic t p susp sb active boosted dl max_load d
    = Some (d', sb', dl', acts) ->
  within_policy p d'.
Proof.
  intros Hmm Hvalid Htab Hboost Hin. unfold frequency_logic.
  pose proof (hard_ceiling_within present p t susp boosted active d Hmm Hvalid)
    as Hhard.
  destruct (input_boost_limits t p susp boosted) as [[ft h0] s0] eqn:Hib.
  destruct (match ft with Some f => _ | None => false end) eqn:Hgo.
  { destruct ft as [f|]; [|discriminate]. cbn [default].
    assert (boosted = true) as ->.
    { destruct boosted; [reflexivity|]. unfold input_boost_limits in Hib.
      destruct susp; discriminate. }
    pose proof (boost_target_within present p t susp f h0 s0 Hmm Hvalid
                  (Hboost eq_refl) Hib) as Hf.
    intros [= <- _ _ _]. destruct Hin as [_ Hlo]. split; [exact Hf|exact Hlo]. }
  destruct (freq_ceilings t p susp boosted active d) as [hard soft].
  cbn [fst] in Hhard.
  destruct (hard <? requested_freq d).
  { intros [= <- _ _ _]. destruct Hin as [_ Hlo]. split; [exact Hhard|exact Hlo]. }
  destruct (_ <? max_load).
  - pose proof (check_freq_increase_within p t susp sb hard soft d Hmm Htab Hin)
      as Hinc.
    destruct (check_freq_increase t p susp sb hard soft d) as [d1 acts1].
    intros [= <- _ _ _]. exact Hinc.
  - apply standby_activation_within; assumption.
Qed.

Lemma is_boosted_input_boost_freq now g :
  is_boosted now g = true -> 0 < input_boost_freq (tuners g).
Proof.
  unfold is_boosted. intros H. apply andb_true_iff in H as [H _].
  apply Z.ltb_lt in H. exact H.
Qed.

(** One tick keeps the bounds. *)
Lemma dbs_check_cpu_within
    (this : nat) (env : tick_env) (g : gov) (present : Z)
    (d : cpu_dbs_info_s) :
  tick_ready this env g ->
  policy_min (policy g) <= policy_max (policy g) ->
  frequency_tunables_valid present (policy g) (tuners g) ->
  table_within_policy (policy g) ->
  cs_cpu_dbs_info g !! this = Some d ->
  within_policy (policy g) d ->
  exists g' acts d',
    dbs_check_cpu this env g = Some (g', acts) /\
    cs_cpu_dbs_info g' !! this = Some d' /\
    within_policy (policy g) d' /\
    tuners g' = tuners g /\ policy g' = policy g /\
    _hotplug_rq g' = _hotplug_rq g /\ _hotplug_freq g' = _hotplug_freq g /\
    length (cs_cpu_dbs_info g') = length (cs_cpu_dbs_info g) /\
    length (usage (hotplug_history g')) = 40%nat /\
    0 <= num_hist (hotplug_history g').
Proof.
  intros Hready Hmm Hvalid Htab Hd Hin.
  destruct (dbs_check_cpu_run this env g Hready)
    as (d0 & d1 & ml & hp & d' & sb' & dl' & facts & g' & Hd0 & Hsc & _
        & Hfl & _ & Hrun & Hd' & _ & _ & Htun & Hpol & _ & Hrest).
  rewrite Hd in Hd0. injection Hd0 as <-.
  assert (Hin1 : within_policy (policy g) d1).
  { destruct Hsc as (Hlo & _ & Hreq & _). unfold within_policy.
    rewrite Hlo, Hreq. exact Hin. }
  pose proof (frequency_logic_within present _ _ _ _ _ _ _ _ _ _ _ _ _
                Hmm Hvalid Htab (is_boosted_input_boost_freq _ _) Hin1 Hfl)
    as Hin'.
  exists g', (hp ++ facts), d'.
  split; [exact Hrun|]. split; [exact Hd'|]. split; [exact Hin'|].
  split; [exact Htun|]. split; [exact Hpol|]. exact Hrest.
Qed.

Lemma frequency_tunables_valid_limits present p p' t :
  policy_min p' = policy_min p -> policy_max p' = policy_max p ->
  frequency_tunables_valid present p t ->
  frequency_tunables_valid present p' t.
Proof.
  unfold frequency_tunables_valid, recalculate_freq_limits.
  intros -> ->. tauto.
Qed.

Lemma same_platform_refl g : same_platform g g.
Proof. repeat split. Qed.

Lemma same_platform_trans g0 g1 g2 :
  same_platform g0 g1 -> same_platform g1 g2 -> same_platform g0 g2.
Proof. unfold same_platform. intuition congruence. Qed.

Lemma same_platform_policy g0 g :
  same_platform g0 g ->
  policy g = policy (with_cur (policy_cur (policy g)) g0).
Proof.
  intros (_ & _ & Hmin & Hmax & Hcpus). cbn [policy with_cur].
  destruct (policy g). cbn in *. subst. reflexivity.
Qed.

Lemma same_platform_rows g0 g online :
  same_platform g0 g -> hotplug_rows online g0 -> hotplug_rows online g.
Proof.
  intros (Hrq & Hfr & _) Hrows. unfold hotplug_rows. rewrite Hrq, Hfr.
  exact Hrows.
Qed.

(** A tick keeps the state of a governed core governed. *)
Lemma tick_keeps_governed present this env g :
  governed present this g ->
  table_within_policy (policy g) ->
  hotplug_rows (online env) g ->
  exists g', gov_step this (ev_tick env) g = Some g' /\
    governed present this g' /\ same_platform g g' /\
    policy_cur (policy g') = policy_cur (policy g).
Proof.
  intros (Hmm & Hcur & Hvalid & Hthis & Hcpus & Hup & Hdown & Hlen & Hnum
          & Hinv & Hdd & d & Hd & Hin) Htab Hrows.
  assert (Hready : tick_ready this env g) by (unfold tick_ready; tauto).
  destruct (dbs_check_cpu_within this env g present d Hready Hmm Hvalid Htab
              Hd Hin)
    as (g' & acts & d' & Hrun & Hd' & Hin' & Htun & Hpol & Hrq & Hfr & Hlc
        & Hlu & Hn).
  exists g'. cbn [gov_step]. rewrite Hrun. cbn [mbind option_bind fst].
  split; [reflexivity|]. split.
  - unfold governed. rewrite Hpol, Htun, Hlc.
    assert (exists d, cs_cpu_dbs_info g' !! this = Some d
                      /\ within_policy (policy g) d) by eauto.
    tauto.
  - split; [|rewrite Hpol; reflexivity].
    unfold same_platform. rewrite Hpol. repeat split; assumption.
Qed.

(** So does a call of the transition notifier. *)
Lemma notify_keeps_governed present this freq_new g :
  governed present this g ->
  table_within_policy (policy g) ->
  exists g', gov_step this (ev_notify freq_new) g = Some g' /\
    governed present this g' /\ same_platform g g' /\
    policy_cur (policy g') = policy_cur (policy g).
Proof.
  intros (Hmm & Hcur & Hvalid & Hthis & Hcpus & Hup & Hdown & Hlen & Hnum
          & Hinv & Hdd & d & Hd & Hin) Htab.
  cbn [gov_step]. unfold dbs_cpufreq_notifier. rewrite Hd.
  cbn [mbind option_bind].
  destruct (enable d); cbn [negb].
  2:{ exists g. cbn [mbind option_bind snd]. split; [reflexivity|].
      split; [|split; [apply same_platform_refl|reflexivity]].
      assert (exists d, cs_cpu_dbs_info g !! this = Some d
                        /\ within_policy (policy g) d) by eauto.
      unfold governed. tauto. }
  destruct Hin as [Hreq Hlo].
  destruct (Z.ltb_spec (policy_max (policy g)) (requested_freq d)); [lia|].
  destruct (Z.ltb_spec (requested_freq d) (policy_min (policy g))); [lia|].
  cbn [orb].
  assert (Hstep : exists d2,
    (if policy_min (policy g) <? freq_new
     then recalculate_down_threshold (tuners g) (policy g)
            (set_freq_lo
               (cpufreq_frequency_table_target (policy g) (freq_new - 1)
                  CPUFREQ_RELATION_H) d)
     else Some (set_freq_lo (policy_min (policy g)) d)) = Some d2
    /\ within_policy (policy g) d2).
  { destruct (_ <? freq_new).
    - unfold recalculate_down_threshold, udiv.
      destruct (Z.eqb_spec (policy_cur (policy g)) 0); [contradiction|].
      cbn [mbind option_bind]. eexists. split; [reflexivity|].
      split; [exact Hreq|]. cbn. apply Htab.
    - eexists. split; [reflexivity|]. split; [exact Hreq|]. cbn. lia. }
  destruct Hstep as (d2 & -> & Hin2). cbn [mbind option_bind snd].
  eexists. split; [reflexivity|].
  split; [|split; [repeat split|reflexivity]].
  assert (Hex : exists d0,
            <[this := d2]> (cs_cpu_dbs_info g) !! this = Some d0
            /\ within_policy (policy g) d0).
  { exists d2. split; [apply list_lookup_insert_eq; exact Hthis|exact Hin2]. }
  unfold governed.
  cbn [policy tuners cs_cpu_dbs_info hotplug_history set_cs_cpu_dbs_info].
  rewrite length_insert. tauto.
Qed.

(** And so does an update of [policy->cur] to a nonzero frequency. *)
Lemma cur_keeps_governed present this cur g :
  governed present this g -> cur <> 0 ->
  governed present this (with_cur cur g) /\ same_platform g (with_cur cur g).
Proof.
  intros (Hmm & Hcur & Hvalid & Hthis & Hcpus & Hup & Hdown & Hlen & Hnum
          & Hinv & Hdd & d & Hd & Hin) Hnz.
  split; [|repeat split].
  assert (Hvalid' : frequency_tunables_valid present (policy (with_cur cur g))
                      (tuners g)).
  { eapply frequency_tunables_valid_limits; [| |exact Hvalid]; reflexivity. }
  assert (Hex : exists d0, cs_cpu_dbs_info g !! this = Some d0
                  /\ within_policy (policy (with_cur cur g)) d0)
    by (exists d; split; [exact Hd|exact Hin]).
  unfold governed.
  cbn [tuners cs_cpu_dbs_info hotplug_history with_cur].
  cbn [policy with_cur policy_min policy_max policy_cur policy_cpus] in *.
  tauto.
Qed.

(** X25.  From a state in which the core's requested
    frequency is inside [policy.min, policy.max], every sequence of ticks,
    notifier calls and updates of the current frequency runs to its end
    and leaves the requested frequency inside those limits: after every
    tick, for every load sample, provided the frequency tunables
    (input_boost_freq, max_non_oc_freq, power_optimal_freq,
    suspend_max_freq, each when nonzero) lie inside the limits of the
    current policy and the derived limits are up to date.  The boost
    path, the hard-limit path, the increase path and the decrease path of
    [dbs_check_cpu] are all covered. *)
Theorem requested_freq_within_policy
    (present : Z) (this : nat) (evs : list gov_event) (g : gov) :
  governed present this g ->
  table_within_limits g ->
  Forall (event_admissible g) evs ->
  exists g' d',
    gov_run this evs g = Some g' /\
    cs_cpu_dbs_info g' !! this = Some d' /\
    policy_min (policy g') = policy_min (policy g) /\
    policy_max (policy g') = policy_max (policy g) /\
    policy_min (policy g') <= requested_freq d' <= policy_max (policy g').
Proof.
  intros Hgov Htab Hevs.
  assert (Hgen : forall g1, governed present this g1 -> same_platform g g1 ->
            exists g' d',
              gov_run this evs g1 = Some g' /\
              cs_cpu_dbs_info g' !! this = Some d' /\
              same_platform g g' /\
              policy_min (policy g') <= requested_freq d'
                                     <= policy_max (policy g')).
  { induction Hevs as [|ev evs Hev _ IH]; intros g1 Hg1 Hsp.
    - pose proof Hg1 as (_ & _ & _ & _ & _ & _ & _ & _ & _ & _ & _ & d & Hd
                         & Hin).
      exists g1, d. split; [reflexivity|]. split; [exact Hd|].
      split; [exact Hsp|apply Hin].
    - assert (Htab1 : table_within_policy (policy g1)).
      { rewrite (same_platform_policy g g1 Hsp). apply Htab. }
      assert (Hstep : exists g2, gov_step this ev g1 = Some g2 /\
                governed present this g2 /\ same_platform g1 g2).
      { destruct ev as [env|freq_new|cur].
        - destruct (tick_keeps_governed present this env g1 Hg1 Htab1
                      (same_platform_rows g g1 _ Hsp Hev))
            as (g2 & H1 & H2 & H3 & _). eauto.
        - destruct (notify_keeps_governed present this freq_new g1 Hg1 Htab1)
            as (g2 & H1 & H2 & H3 & _). eauto.
        - destruct (cur_keeps_governed present this cur g1 Hg1 Hev)
            as (H2 & H3). exists (with_cur cur g1). eauto. }
      destruct Hstep as (g2 & Hs & Hg2 & Hsp2).
      destruct (IH g2 Hg2 (same_platform_trans _ _ _ Hsp Hsp2))
        as (g' & d' & Hrun & Hd' & Hsp' & Hin').
      exists g', d'. cbn [gov_run]. rewrite Hs. cbn [mbind option_bind].
      tauto. }
  destruct (Hgen g Hgov (same_platform_refl g))
    as (g' & d' & Hrun & Hd' & (_ & _ & Hmin & Hmax & _) & Hin').
  exists g', d'. tauto.
Qed.

(** ** The overclock credit *)


(** ** Entry into standby *)

Lemma check_freq_decrease_keeps t p active boosted max_load d d' acts :
  check_freq_decrease t p active boosted max_load d = Some (d', acts) ->
  standby_counter d' = standby_counter d /\
  oc_boost_cycles d' = oc_boost_cycles d.
Proof.
  unfold check_freq_decrease.
  destruct (udiv _ _) as [q|]; cbn [mbind option_bind];
    repeat break_if; intros [= <- <-]; split; reflexivity.
Qed.

(** C4 (as amended).  On a qualifying tick the standby counter is
    incremented and [delay] is set to the standby rate; Standby is entered
    on the qualifying tick whose incremented counter reaches
    standby_delay_factor, and on that tick the overclock credit is
    cleared.  A tick that does not qualify never enters Standby and leaves
    [delay] alone; it resets the counter to 0 only when it goes through
    the frequency-increase path, and otherwise leaves the counter as it
    was, so the qualifying ticks that are counted need not be
    consecutive. *)
Theorem standby_entry_rule
    (t : dbs_tuners) (p : cpufreq_policy) (susp sb boosted : bool)
    (dl max_load : Z) (d : cpu_dbs_info_s) :
  threshold_invariant t ->
  0 <= down_differential t ->
  let active := negb (susp || sb) in
  exists d' sb' dl' acts,
    frequency_logic t p susp sb active boosted dl max_load d
      = Some (d', sb', dl', acts) /\
    (standby_qualifying t p susp sb boosted max_load d ->
       standby_counter d' = u32 (standby_counter d + 1) /\
       dl' = standby_sampling_rate t /\
       (standby_delay_factor t <= standby_counter d' ->
          sb' = true /\ oc_boost_cycles d' = 0) /\
       (standby_counter d' < standby_delay_factor t -> sb' = false)) /\
    (~ standby_qualifying t p susp sb boosted max_load d ->
       sb' = sb /\ dl' = dl /\
       (standby_counter d' = standby_counter d \/
        (standby_counter d' = 0 /\
         (if active then up_threshold t else 99) < max_load))).
Proof.
  intros Hinv Hdd active.
  destruct (frequency_logic_total t p susp sb active boosted dl max_load d
              Hinv Hdd) as (d' & sb' & dl' & acts & Hfl & _).
  exists d', sb', dl', acts. split; [exact Hfl|].
  unfold standby_qualifying. fold active.
  unfold frequency_logic in Hfl.
  destruct (input_boost_limits t p susp boosted) as [[ft h0] s0] eqn:Hib.
  destruct (match ft with Some f => _ | None => false end) eqn:Hgo.
  { injection Hfl as <- <- <- _.
    assert (boosted = true) as ->.
    { destruct boosted; [reflexivity|]. unfold input_boost_limits in Hib.
      destruct susp; injection Hib as <- _ _; discriminate. }
    split; [intros (_ & Hb & _); discriminate|].
    intros _. repeat split. left. reflexivity. }
  destruct (freq_ceilings t p susp boosted active d) as [hard soft].
  cbn [fst].
  destruct (Z.ltb_spec hard (requested_freq d)).
  { injection Hfl as <- <- <- _.
    split; [intros (_ & _ & Hr & _); lia|].
    intros _. repeat split. left. reflexivity. }
  destruct (Z.ltb_spec (if active then up_threshold t else 99) max_load)
    as [Hload|Hload].
  { split; [intros (Ha & _ & _ & Hl & _); rewrite Ha in Hload; lia|].
    intros _. revert Hfl. unfold check_freq_increase.
    repeat break_if; intros [= <- <- <- _]; cbn; repeat split; auto. }
  unfold standby_activation in Hfl.
  destruct (Z.leb_spec (policy_cur p) (_standby_threshold_freq t))
    as [Hthr|Hthr].
  - destruct active eqn:Hact; destruct boosted eqn:Hbo; cbn [andb negb] in Hfl.
    2:{ (* qualifying *)
      split.
      - intros _. revert Hfl.
        destruct (Z.leb_spec (standby_delay_factor t)
                    (standby_counter
                       (set_standby_counter
                          (u32 (standby_counter
                                  (set_sampling_up_counter 0 d) + 1))
                          (set_sampling_up_counter 0 d)))) as [Hf|Hf];
          (destruct (policy_cur p =? policy_min p);
           [intros [= <- <- <- _]
           |destruct (check_freq_decrease _ _ _ _ _ _) as [[d3 a3]|] eqn:Hdec;
            [|discriminate]; cbn [mbind option_bind];
            intros [= <- <- <- _];
            apply check_freq_decrease_keeps in Hdec as [-> ->]]);
          cbn in *; repeat split; try reflexivity; intros; try lia.
        all: try (unfold active in Hact; destruct susp, sb; discriminate
                  || reflexivity).
      - intros Hn. exfalso. apply Hn. repeat split; try assumption; lia. }
    all: split; [intros (Ha & Hb & _); congruence|]; intros _; revert Hfl.
    all: destruct (policy_cur p =? policy_min p);
      [intros [= <- <- <- _]
      |destruct (check_freq_decrease _ _ _ _ _ _) as [[d3 a3]|] eqn:Hdec;
       [|discriminate]; cbn [mbind option_bind];
       intros [= <- <- <- _];
       apply check_freq_decrease_keeps in Hdec as [-> _]];
      repeat split; left; reflexivity.
  - split; [intros (_ & _ & _ & _ & Hq); lia|]. intros _. revert Hfl.
    destruct (check_freq_decrease _ _ _ _ _ _) as [[d3 a3]|] eqn:Hdec;
      [|discriminate]; cbn [mbind option_bind].
    intros [= <- <- <- _].
    apply check_freq_decrease_keeps in Hdec as [-> _].
    repeat split. left. reflexivity.
Qed.

End Properties.

(** * The model on concrete inputs *)

(** ** The modelled table lookup *)

Lemma fold_right_min_In x xs : In (fold_right Z.min x xs) (x :: xs).
Proof.
  induction xs as [|a xs IH]; cbn [fold_right]; [left; reflexivity|].
  destruct (Z.min_spec a (fold_right Z.min x xs)) as [[_ ->]|[_ ->]].
  - right. left. reflexivity.
  - destruct IH as [IH|IH]; [left; exact IH|right; right; exact IH].
Qed.

Lemma fold_right_max_In x xs : In (fold_right Z.max x xs) (x :: xs).
Proof.
  induction xs as [|a xs IH]; cbn [fold_right]; [left; reflexivity|].
  destruct (Z.max_spec a (fold_right Z.max x xs)) as [[_ ->]|[_ ->]].
  - destruct IH as [IH|IH]; [left; exact IH|right; right; exact IH].
  - right. left. reflexivity.
Qed.

(** With at least one table entry inside the policy limits, the modelled
    lookup answers inside the limits. *)
Lemma table_lookup_within table p target rel :
  (exists f, In f table /\ policy_min p <= f <= policy_max p) ->
  policy_min p <= table_lookup table p target rel <= policy_max p.
Proof.
  intros (f0 & Hf0 & Hr0). unfold table_lookup.
  set (inside := fun f => (policy_min p <=? f) && (f <=? policy_max p)).
  set (eligible := List.filter inside table).
  assert (Hel : forall f, In f eligible -> policy_min p <= f <= policy_max p).
  { intros f Hf. apply List.filter_In in Hf as [_ Hf]. unfold inside in Hf.
    apply andb_true_iff in Hf as [H1 H2].
    apply Z.leb_le in H1. apply Z.leb_le in H2. lia. }
  assert (Hne : eligible <> []).
  { intros He. assert (Hin : In f0 eligible).
    { apply List.filter_In. split; [exact Hf0|]. unfold inside.
      apply andb_true_iff. split; apply Z.leb_le; lia. }
    rewrite He in Hin. destruct Hin. }
  assert (Hsub : forall (q : Z -> bool) f,
             In f (List.filter q eligible) -> In f eligible).
  { intros q f Hf. apply List.filter_In in Hf as [Hf _]. exact Hf. }
  destruct rel.
  - destruct (List.filter _ eligible) as [|x xs] eqn:Hfl.
    + destruct eligible as [|y ys]; [contradiction|].
      apply Hel, fold_right_max_In.
    + apply Hel, (Hsub (fun f => target <=? f)). rewrite Hfl.
      apply fold_right_min_In.
  - destruct (List.filter _ eligible) as [|x xs] eqn:Hfl.
    + destruct eligible as [|y ys]; [contradiction|].
      apply Hel, fold_right_min_In.
    + apply Hel, (Hsub (fun f => f <=? target)). rewrite Hfl.
      apply fold_right_max_In.
Qed.

Lemma exynos_table_within cur :
  @table_within_policy (table_kernel exynos4412_table) (exynos_policy cur).
Proof.
  intros target rel. apply table_lookup_within.
  exists 200000. split; [left; reflexivity|cbn; lia].
Qed.

(** ** Witnesses: the theorems at concrete inputs *)

Lemma default_tuners_valid cur :
  frequency_tunables_valid 4 (exynos_policy cur) default_tuners.
Proof.
  unfold frequency_tunables_valid.
  repeat split; try (right; compute_prop); reflexivity.
Qed.

(** The governor after start, through a tick, a transition to 300 MHz and
    two more ticks. *)
Lemma requested_freq_within_policy_witness :
  exists g' d',
    @gov_run exynos_kernel 0
      [ev_tick full_busy_env; ev_notify 300000; ev_cur 300000;
       ev_tick (uniform_env 1030000 4 (busy_sample 60000 60000));
       ev_tick (uniform_env 1060000 4 (busy_sample 90000 60000))]
      (started_gov 200000) = Some g' /\
    cs_cpu_dbs_info g' !! 0%nat = Some d' /\
    policy_min (policy g') = policy_min (policy (started_gov 200000)) /\
    policy_max (policy g') = policy_max (policy (started_gov 200000)) /\
    policy_min (policy g') <= requested_freq d' <= policy_max (policy g').
Proof.
  apply (@requested_freq_within_policy exynos_kernel 4 0%nat _
           (started_gov 200000)).
  - unfold governed.
    split; [compute_prop|]. split; [compute_prop|].
    split; [apply default_tuners_valid|].
    split; [cbn; lia|].
    split; [repeat constructor; cbn; lia|].
    split; [compute_prop|]. split; [compute_prop|].
    split; [reflexivity|]. split; [compute_prop|].
    split; [compute_prop|]. split; [compute_prop|].
    exists (started_dbs_info 0 200000). split; [reflexivity|compute_prop].
  - intros cur. apply exynos_table_within.
  - assert (Hrows : hotplug_rows 4 (started_gov 200000)).
    { intros [|[|idx]] Hidx;
        [split; eexists; reflexivity..|exfalso; lia]. }
    constructor; [exact Hrows|].
    constructor; [exact I|].
    constructor; [intros H; discriminate H|].
    constructor; [exact Hrows|].
    constructor; [exact Hrows|constructor].
Defined.

(** C1 on the code.  With the policy minimum raised to 1 GHz, above
    max_non_oc_freq = 900 MHz, and no overclock credit, the hard ceiling
    of an Active tick is max_non_oc_freq.  The tick starts with the
    requested frequency at the policy minimum, takes the hard-limit path,
    which stores the ceiling without clamping it to [policy->min], and
    ends with the requested frequency at 900 MHz, below the policy
    minimum; the driver is asked for that frequency. *)
Lemma requested_freq_leaves_policy_limits :
  (core0 raised_min_gov = Some (started_dbs_info 0 1000000) /\
   policy_min (policy raised_min_gov)
     <= requested_freq (started_dbs_info 0 1000000)
     <= policy_max (policy raised_min_gov)) /\
  exists g' acts d',
    @dbs_check_cpu exynos_kernel 0 half_busy_env raised_min_gov
      = Some (g', acts) /\
    acts = [cpufreq_driver_target 900000 CPUFREQ_RELATION_H] /\
    cs_cpu_dbs_info g' !! 0%nat = Some d' /\
    requested_freq d' = 900000 /\
    requested_freq d' < policy_min (policy g').
Proof.
  split; [split; [reflexivity|compute_prop]|].
  eexists _, _, _. split; [vm_compute; reflexivity|].
  repeat split; reflexivity.
Qed.

(** A read leaves the accumulated time in place. *)
Lemma get_nr_run_avg_keeps_total_time :
  ~ (forall rq, total_time (get_nr_run_avg rq).2 = 0).
Proof.
  intros H.
  specialize (H {| nr_run_avg := 150; update_rate := RQ_AVG_TIMER_RATE;
                   last_time := 1000000; total_time := 30 |}).
  discriminate H.
Qed.

Lemma recalculate_down_threshold_value_witness :
  recalculate_down_threshold default_tuners (exynos_policy 800000)
    (set_freq_lo 700000 (started_dbs_info 0 800000))
  = Some (set_down_threshold 70
            (set_freq_lo 700000 (started_dbs_info 0 800000))).
Proof.
  apply (recalculate_down_threshold_value default_tuners
           (exynos_policy 800000)
           (set_freq_lo 700000 (started_dbs_info 0 800000)));
    compute_prop.
Defined.

Lemma stores_keep_threshold_invariant_witness :
  (forall c g0, ~ accepted c (tuners g0) ->
     store [0; 1; 2; 3]%nat c g0 = Some (- EINVAL, g0)) /\
  exists g',
    stores [0; 1; 2; 3]%nat
      [write_up_threshold (Some 90) 3; write_down_differential (Some 95) 3;
       write_up_threshold None 0; write_down_differential (Some 10) 3]
      (started_gov 800000) = Some g' /\
    threshold_invariant (tuners g').
Proof.
  apply (stores_keep_threshold_invariant [0; 1; 2; 3]%nat _
           (started_gov 800000)).
  - compute_prop.
  - compute_prop.
  - repeat constructor; cbn; lia.
Defined.


Lemma check_up_fires_on_busy_window :
  check_up 1000000 2 4 unlocked_busy_gov
  = Some (true, set_num_hist 0 unlocked_busy_gov).
Proof. reflexivity. Qed.

Lemma hotplug_at_most_one_action_witness :
  (exists g' acts,
     @dbs_check_cpu exynos_kernel 0 one_core_env one_core_gov
       = Some (g', acts) /\
     (length (List.filter is_hotplug acts) <= 1)%nat) /\
  num_hist (hotplug_history (set_num_hist 0 unlocked_busy_gov)) = 0 /\
  started_gov 200000 = started_gov 200000.
Proof.
  pose proof (@hotplug_at_most_one_action exynos_kernel)
    as (Htick & _ & Hup & _).
  split; [|split].
  - apply Htick. tick_ready_concrete.
  - apply (Hup 1000000 2 4 unlocked_busy_gov).
    + reflexivity.
    + intros [[H _]|[H _]]; [apply H; reflexivity|discriminate H].
  - apply (Hup 1000000 1 4 (started_gov 200000) (started_gov 200000)).
    + reflexivity.
    + left. compute_prop.
Defined.

(** With the default min_cpu_lock of 4 and one core online, [check_up]
    returns true from the lock rule: the first tick after start queues the
    online work and the history count stays at 1. *)
Lemma check_up_true_keeps_history :
  check_up 1000000 1 4 (history_push one_core_gov).2
  = Some (true, (history_push one_core_gov).2) /\
  num_hist (hotplug_history (history_push one_core_gov).2) = 1 /\
  exists g' acts,
    @dbs_check_cpu exynos_kernel 0 one_core_env one_core_gov
      = Some (g', acts) /\
    acts = [queue_up_work 0] /\
    num_hist (hotplug_history g') = 1.
Proof.
  split; [reflexivity|]. split; [reflexivity|].
  eexists _, _. split; [vm_compute; reflexivity|].
  split; reflexivity.
Qed.

(** A tick of an Active governor in which [check_up] returns false and
    [check_down] returns true: no offline work is queued.  The same tick
    with the standby flag set queues it. *)
Lemma active_tick_queues_no_down_work_witness :
  let g := active_quiet_gov in
  let env := three_core_idle_env in
  (exists g' acts,
     @dbs_check_cpu exynos_kernel 0 env g = Some (g', acts) /\
     forall c, queue_down_work c ∉ acts) /\
  (exists g1,
     check_up (now env) (online env) (possible env) (history_push g).2
       = Some (false, g1) /\
     check_down (now env) (online env) g1
       = Some (true, set_num_hist 0 g1)) /\
  (exists g' acts,
     @dbs_check_cpu exynos_kernel 0 env (set_standby true g)
       = Some (g', acts) /\
     queue_down_work 0 ∈ acts).
Proof.
  split; [|split].
  - apply (@active_tick_queues_no_down_work exynos_kernel 0%nat
             three_core_idle_env active_quiet_gov).
    + tick_ready_concrete.
    + reflexivity.
    + reflexivity.
  - eexists. split; reflexivity.
  - eexists _, _. split; [vm_compute; reflexivity|].
    apply list_elem_of_In. left. reflexivity.
Defined.

(** ** The hard ceiling and the increase step *)

(** C2 on the code.  Suspended and not boosted, the hard ceiling is
    800 MHz (power_optimal_freq) and the soft one 600 MHz.  The governor's
    own request (500 MHz) is below both, the load is 100 % and the
    increase delay has run out, so the tick takes the increase step: it
    looks up the table entry above [policy->cur] (1 GHz), clamps it to
    [policy->max] only, and leaves 1.1 GHz in [requested_freq], above the
    hard ceiling of that same tick. *)
Lemma hard_ceiling_exceeded_by_increase :
  is_boosted (now full_busy_env) suspended_gov = false /\
  freq_ceilings (tuners suspended_gov) (policy suspended_gov) true false false
    (set_sampling_up_counter 6 (started_dbs_info 0 500000))
  = (800000, 600000) /\
  exists g' acts d',
    @dbs_check_cpu exynos_kernel 0 full_busy_env suspended_gov
      = Some (g', acts) /\
    acts = [cpufreq_driver_target 1100000 CPUFREQ_RELATION_H] /\
    cs_cpu_dbs_info g' !! 0%nat = Some d' /\
    requested_freq d' = 1100000 /\
    800000 < requested_freq d'.
Proof.
  split; [reflexivity|]. split; [reflexivity|].
  eexists _, _, _. split; [vm_compute; reflexivity|].
  split; [reflexivity|]. split; [reflexivity|].
  split; [reflexivity|]. reflexivity.
Qed.

(** ** The overclock credit on the scenario of the design *)


(** ** Standby entry on concrete ticks *)

(** With standby_delay_factor = 3 and one qualifying tick counted, a tick
    at 800 MHz (above the standby threshold of 300 MHz) under half load
    does not qualify, and leaves the counter at 1 instead of resetting
    it.  In a run of four ticks, the first, third and fourth qualify and
    the second does not: Standby is entered on the fourth tick, after
    three qualifying ticks that are not consecutive. *)
Lemma standby_counter_survives_disqualifying_tick :
  (exists g' acts d',
     @dbs_check_cpu exynos_kernel 0 half_busy_env (slow_standby_gov 800000 1)
       = Some (g', acts) /\
     standby g' = false /\
     cs_cpu_dbs_info g' !! 0%nat = Some d' /\
     standby_counter d' = 1) /\
  exists g1 g2 g3 g4,
    @tick_then exynos_kernel idle_env 800000 (slow_standby_gov 200000 0)
      = Some g1 /\
    @tick_then exynos_kernel
      (uniform_env 1000000 4 (busy_sample 60000 15000)) 200000 g1
      = Some g2 /\
    @tick_then exynos_kernel
      (uniform_env 1000000 4 (busy_sample 90000 15000)) 200000 g2
      = Some g3 /\
    @tick_then exynos_kernel
      (uniform_env 1000000 4 (busy_sample 120000 15000)) 200000 g3
      = Some g4 /\
    (standby_counter <$> core0 g1) = Some 1 /\
    (standby_counter <$> core0 g2) = Some 1 /\
    (standby_counter <$> core0 g3) = Some 2 /\
    (standby_counter <$> core0 g4) = Some 3 /\
    standby g3 = false /\ standby g4 = true.
Proof.
  split.
  - eexists _, _, _. split; [vm_compute; reflexivity|].
    repeat split; reflexivity.
  - eexists _, _, _, _.
    split; [vm_compute; reflexivity|].
    split; [vm_compute; reflexivity|].
    split; [vm_compute; reflexivity|].
    split; [vm_compute; reflexivity|].
    repeat split; reflexivity.
Qed.

Lemma standby_entry_rule_witness :
  exists d' sb' dl' acts,
    @frequency_logic exynos_kernel
      (set_standby_delay_factor 3 default_tuners) (exynos_policy 200000)
      false false (negb (false || false)) false 6 0
      (set_standby_counter 2 (started_dbs_info 0 200000))
      = Some (d', sb', dl', acts) /\
    standby_counter d' = 3 /\ sb' = true /\ oc_boost_cycles d' = 0.
Proof.
  destruct (@standby_entry_rule exynos_kernel
              (set_standby_delay_factor 3 default_tuners)
              (exynos_policy 200000) false false false 6 0
              (set_standby_counter 2 (started_dbs_info 0 200000)))
    as (d' & sb' & dl' & acts & Hfl & Hq & _).
  - compute_prop.
  - compute_prop.
  - exists d', sb', dl', acts. split; [exact Hfl|].
    destruct Hq as (Hc & _ & Hin & _).
    + unfold standby_qualifying. compute_prop.
    + split; [rewrite Hc; reflexivity|].
      apply Hin. rewrite Hc. compute_prop.
Defined.

(** * More properties of the governor *)

Section MoreProperties.

Context `{K : kernel_services} `{KS : kernel_support}.

(** ** The window of [check_down] *)

(** The run of [check_down] past the rules it tests first, as an
    equation. *)
Lemma check_down_window_equation
    (now online : Z) (g : gov) (down_freq down_rq : Z) :
  let t := tuners g in
  let h := hotplug_history g in
  ~ (is_boosted now g = true /\ boost_mincpus t <> 0
     /\ online <= boost_mincpus t) ->
  online <> 1 ->
  ~ (max_cpu_lock t <> 0 /\ max_cpu_lock t < online) ->
  ~ (min_cpu_lock t <> 0 /\ online <= min_cpu_lock t) ->
  hotplug_param (_hotplug_freq g) online HOTPLUG_DOWN_INDEX = Some down_freq ->
  hotplug_param (_hotplug_rq g) online HOTPLUG_DOWN_INDEX = Some down_rq ->
  0 < cpu_down_rate t < 2 ^ 31 ->
  0 <= num_hist h <= Z.of_nat (length (usage h)) ->
  num_hist h < 2 ^ 31 ->
  Forall (fun u => 0 <= freq u < 2 ^ 31) (usage h) ->
  Forall (fun u => 0 <= rq_avg u < 2 ^ 31) (usage h) ->
  let window := last_samples h (cpu_down_rate t) in
  let fires :=
    num_hist h <> 0 /\ num_hist h mod cpu_down_rate t = 0 /\
    maximum (freq <$> window) <= down_freq /\
    maximum (rq_avg <$> window) <= down_rq in
  exists b, (b = true <-> fires) /\
    check_down now online g
    = Some (b, if b then set_num_hist 0 g else g).
Proof.
  intros t h Hboost Hone Hmax Hmin Hfreq Hrq Hrate Hnum Hnum31 Hf Hr
    window fires.
  assert (E1 : is_boosted now g && negb (boost_mincpus t =? 0)
               && (online <=? boost_mincpus t) = false).
  { destruct (is_boosted now g); destruct (Z.eqb_spec (boost_mincpus t) 0);
      destruct (Z.leb_spec online (boost_mincpus t)); try reflexivity.
    exfalso. apply Hboost. repeat split; assumption. }
  assert (E2 : negb (max_cpu_lock t =? 0) && (max_cpu_lock t <? online)
               = false).
  { destruct (Z.eqb_spec (max_cpu_lock t) 0);
      destruct (Z.ltb_spec (max_cpu_lock t) online); try reflexivity.
    exfalso. apply Hmax. split; assumption. }
  assert (E3 : negb (min_cpu_lock t =? 0) && (online <=? min_cpu_lock t)
               = false).
  { destruct (Z.eqb_spec (min_cpu_lock t) 0);
      destruct (Z.leb_spec online (min_cpu_lock t)); try reflexivity.
    exfalso. apply Hmin. split; assumption. }
  unfold check_down. fold t h. rewrite Hfreq, Hrq. cbn [mbind option_bind].
  rewrite E1, E2, E3.
  rewrite (to_int_small (num_hist h)) by lia.
  rewrite (to_int_small (cpu_down_rate t)) by lia.
  destruct (Z.eqb_spec online 1) as [|_]; [contradiction|].
  destruct (Z.eqb_spec (num_hist h) 0) as [Hz|Hz];
    [exists false; split; [unfold fires; intuition congruence|reflexivity]|].
  destruct (Z.eqb_spec (cpu_down_rate t) 0) as [|_]; [lia|].
  rewrite Z.rem_mod_nonneg by lia.
  destruct (Z.eqb_spec (num_hist h mod cpu_down_rate t) 0) as [He|He];
    cbn [negb];
    [|exists false; split; [unfold fires; intuition congruence|reflexivity]].
  assert (Hge : cpu_down_rate t <= num_hist h)
    by (destruct (Z.lt_ge_cases (num_hist h) (cpu_down_rate t));
        [rewrite Z.mod_small in He by lia; lia|lia]).
  pose proof (scan_max_window (usage h) (Z.to_nat (cpu_down_rate t))
                (Z.to_nat (num_hist h)) 0 0) as Hs.
  rewrite Z2Nat.id in Hs by lia. rewrite Hs by lia. clear Hs.
  cbn [mbind option_bind].
  replace (Z.to_nat (num_hist h) - Z.to_nat (cpu_down_rate t))%nat
    with (Z.to_nat (num_hist h - cpu_down_rate t)) by lia.
  change (take (Z.to_nat (cpu_down_rate t))
            (drop (Z.to_nat (num_hist h - cpu_down_rate t)) (usage h)))
    with window.
  rewrite (fmap_to_int_fits freq), (fmap_to_int_fits rq_avg)
    by (apply Forall_window; assumption).
  change (fold_right Z.max 0 (freq <$> window))
    with (maximum (freq <$> window)).
  change (fold_right Z.max 0 (rq_avg <$> window))
    with (maximum (rq_avg <$> window)).
  destruct (Z.leb_spec (maximum (freq <$> window)) down_freq);
    destruct (Z.leb_spec (maximum (rq_avg <$> window)) down_rq);
    cbn [andb];
    [exists true; split; [unfold fires; intuition|reflexivity]
    |exists false; split; [unfold fires; intuition (congruence || lia)
                          |reflexivity]..].
Qed.

(** X1.  When none of the rules that [check_down] tests first applies (boost
    floor, a single core online, max_cpu_lock, min_cpu_lock), it returns
    true exactly when the history count is a nonzero multiple of
    cpu_down_rate and, over the last cpu_down_rate samples, the maximum
    frequency is at most down_freq[online] and the maximum run-queue
    average is at most down_rq[online].  When it returns true the history
    count is 0 afterwards, the samples and everything else in the state
    are as before; in every other case it returns false and changes
    nothing. *)
Theorem check_down_window_rule
    (now online : Z) (g : gov) (down_freq down_rq : Z) :
  let t := tuners g in
  let h := hotplug_history g in
  ~ (is_boosted now g = true /\ boost_mincpus t <> 0
     /\ online <= boost_mincpus t) ->
  online <> 1 ->
  ~ (max_cpu_lock t <> 0 /\ max_cpu_lock t < online) ->
  ~ (min_cpu_lock t <> 0 /\ online <= min_cpu_lock t) ->
  hotplug_param (_hotplug_freq g) online HOTPLUG_DOWN_INDEX = Some down_freq ->
  hotplug_param (_hotplug_rq g) online HOTPLUG_DOWN_INDEX = Some down_rq ->
  0 < cpu_down_rate t < 2 ^ 31 ->
  0 <= num_hist h <= Z.of_nat (length (usage h)) ->
  num_hist h < 2 ^ 31 ->
  Forall (fun u => 0 <= freq u < 2 ^ 31) (usage h) ->
  Forall (fun u => 0 <= rq_avg u < 2 ^ 31) (usage h) ->
  let window := last_samples h (cpu_down_rate t) in
  let fires :=
    num_hist h <> 0 /\ num_hist h mod cpu_down_rate t = 0 /\
    maximum (freq <$> window) <= down_freq /\
    maximum (rq_avg <$> window) <= down_rq in
  exists b g',
    check_down now online g = Some (b, g') /\
    (b = true <-> fires) /\
    (b = true ->
     num_hist (hotplug_history g') = 0 /\
     usage (hotplug_history g') = usage h /\
     rq_data g' = rq_data g /\ tuners g' = t /\
     suspend g' = suspend g /\ standby g' = standby g /\
     delay g' = delay g /\ last_input_time g' = last_input_time g /\
     _hotplug_rq g' = _hotplug_rq g /\ _hotplug_freq g' = _hotplug_freq g /\
     cs_cpu_dbs_info g' = cs_cpu_dbs_info g /\ policy g' = policy g) /\
    (b = false -> g' = g).
Proof.
  intros t h Hboost Hone Hmax Hmin Hfreq Hrq Hrate Hnum Hnum31 Hf Hr
    window fires.
  destruct (check_down_window_equation now online g down_freq down_rq
              Hboost Hone Hmax Hmin Hfreq Hrq Hrate Hnum Hnum31 Hf Hr)
    as (b & Hiff & Hrun).
  exists b, (if b then set_num_hist 0 g else g).
  split; [exact Hrun|]. split; [exact Hiff|].
  destruct b.
  - split; [intros _; cbn; repeat split|intros E; discriminate E].
  - split; [intros E; discriminate E|reflexivity].
Qed.

(** ** The steps of a tick *)

(** The intermediate states of a tick that runs to its end: the history
    after the new sample, the result of the load loop, of the hotplug
    check and of the frequency logic. *)
Lemma dbs_check_cpu_trace this env g :
  tick_ready this env g ->
  exists d0 slot g1 cpus us ml g3 hp_acts d1 d' sb' dl' facts,
    cs_cpu_dbs_info g !! this = Some d0 /\
    history_push g = (slot, g1) /\
    load_loop (tuners g) (is_active g) (standby g) (suspend g)
      (is_boosted (now env) g) this slot
      (oc_freq_delta_of (is_active g) (tuners g) (policy g) d0)
      (sample env) (policy_cpus (policy g))
      (cs_cpu_dbs_info g, usage (hotplug_history g1), 0)
      = Some (cpus, us, ml) /\
    hotplug_check env (cpu d0)
      (set_cs_cpu_dbs_info cpus
         (set_hotplug_history
            {| usage := us; num_hist := num_hist (hotplug_history g1) |} g1))
      = Some (g3, hp_acts) /\
    cs_cpu_dbs_info g3 = cpus /\
    cpus !! this = Some d1 /\
    frequency_logic (tuners g) (policy g) (suspend g) (standby g)
      (is_active g) (is_boosted (now env) g) (delay g) ml d1
      = Some (d', sb', dl', facts) /\
    dbs_check_cpu this env g
      = Some (set_delay dl' (set_standby sb'
                (set_cs_cpu_dbs_info (<[this := d']> cpus) g3)),
              hp_acts ++ facts).
Proof.
  intros (Hthis & Hcpus & Htab & Hup & Hdown & Hlen & Hnum & Hinv & Hdd).
  destruct (lookup_lt_is_Some_2 _ _ Hthis) as [d0 Hd0].
  unfold dbs_check_cpu. rewrite Hd0. cbn [mbind option_bind].
  pose proof (history_push_slot g Hnum) as [Hslot Hnh].
  destruct (history_push g) as [slot g1] eqn:Hpush.
  cbn [fst snd] in Hslot, Hnh.
  assert (Hg1 : cs_cpu_dbs_info g1 = cs_cpu_dbs_info g
                /\ tuners g1 = tuners g /\ policy g1 = policy g
                /\ suspend g1 = suspend g /\ standby g1 = standby g
                /\ delay g1 = delay g
                /\ _hotplug_rq g1 = _hotplug_rq g
                /\ _hotplug_freq g1 = _hotplug_freq g
                /\ length (usage (hotplug_history g1)) = 40%nat).
  { unfold history_push, get_nr_run_avg in Hpush.
    injection Hpush as _ <-. cbn. rewrite length_alter.
    repeat split; assumption. }
  destruct Hg1 as (Ec & Et & Ep & Es & Eb & Ed & Erq & Efr & El1).
  rewrite Ec, Es, Eb.
  destruct (load_loop_frame (tuners g) (is_active g) (standby g) (suspend g)
              (is_boosted (now env) g) this slot
              (oc_freq_delta_of (is_active g) (tuners g) (policy g) d0)
              (sample env) (policy_cpus (policy g))
              (cs_cpu_dbs_info g) (usage (hotplug_history g1)) 0
              Hcpus Hthis)
    as (cpus & us & ml & Hloop & Hlc & Hlu & Hframe).
  rewrite Hloop. cbn [mbind option_bind].
  destruct (Hframe d0 Hd0) as (d1 & Hd1 & Hsc).
  set (g2 := set_cs_cpu_dbs_info cpus _).
  assert (Hready : hotplug_ready (online env) g2).
  { unfold hotplug_ready, hotplug_rows, g2. cbn.
    rewrite Efr, Erq, Et, Hlu, El1, Hnh.
    repeat split; try apply Htab; try lia; assumption. }
  destruct (hotplug_check_total env (cpu d0) g2 Hready)
    as (g3 & hp_acts & Hhp).
  rewrite Hhp. cbn [mbind option_bind].
  pose proof Hhp as Hhp'.
  apply hotplug_check_outcome in Hhp' as [Hg3 _].
  assert (Hg3' : cs_cpu_dbs_info g3 = cpus /\ suspend g3 = suspend g
                 /\ standby g3 = standby g /\ delay g3 = delay g).
  { destruct Hg3 as [->| ->]; unfold g2; cbn;
      rewrite ?Es, ?Eb, ?Ed; repeat split. }
  destruct Hg3' as (Gc & Gs & Gb & Gd).
  rewrite Gc, Gs, Gb, Gd, Hd1. cbn [mbind option_bind].
  destruct (frequency_logic_total (tuners g) (policy g) (suspend g)
              (standby g) (is_active g) (is_boosted (now env) g) (delay g)
              ml d1 Hinv Hdd) as (d' & sb' & dl' & facts & Hfl & _).
  rewrite Hfl. cbn [mbind option_bind].
  exists d0, slot, g1, cpus, us, ml, g3, hp_acts, d1, d', sb', dl', facts.
  repeat split; try assumption; try reflexivity.
Qed.

(** ** The load loop keeps percentages *)

Lemma load_step_None t active sb susp boosted this slot delta smp j :
  load_step t active sb susp boosted this slot delta smp None j = None.
Proof. reflexivity. Qed.

Lemma load_fold_None t active sb susp boosted this slot delta smp js :
  foldl (load_step t active sb susp boosted this slot delta smp) None js
  = None.
Proof. induction js as [|j js IH]; [reflexivity|exact IH]. Qed.

(** A property of the loop state that every iteration keeps holds at the
    end of the loop. *)
Lemma load_loop_invariant (I : list cpu_dbs_info_s * list cpu_usage * Z -> Prop)
    t active sb susp boosted this slot delta smp :
  (forall st j st', I st ->
     load_step t active sb susp boosted this slot delta smp (Some st) j
       = Some st' -> I st') ->
  forall js st st', I st ->
    load_loop t active sb susp boosted this slot delta smp js st = Some st' ->
    I st'.
Proof.
  intros Hstep. unfold load_loop.
  induction js as [|j js IH]; intros st st' HI Hrun.
  - injection Hrun as <-. exact HI.
  - cbn [foldl] in Hrun.
    destruct (load_step t active sb susp boosted this slot delta smp
                (Some st) j) as [st1|] eqn:E.
    + exact (IH st1 st' (Hstep st j st1 HI E) Hrun).
    + rewrite load_fold_None in Hrun. discriminate Hrun.
Qed.

Lemma adjusted_idle_nonneg t active sb susp boosted s d wall :
  0 <= (adjusted_idle t active sb susp boosted s d wall).1.
Proof.
  unfold adjusted_idle.
  repeat match goal with
         | |- context [if ?c then _ else _] => destruct c
         end; cbn [fst]; apply u32_range.
Qed.

(** [100 * (wall_time - idle_time) / wall_time] is a percentage also when
    the 32-bit product wraps. *)
Lemma load_is_percentage wall idle :
  0 < wall -> 0 <= idle <= wall ->
  0 <= u32 (100 * (wall - idle)) / wall <= 100.
Proof.
  intros Hw Hi.
  pose proof (u32_range (100 * (wall - idle))) as Hr.
  assert (Hle : u32 (100 * (wall - idle)) <= 100 * (wall - idle)).
  { unfold u32. apply Z.mod_le; lia. }
  split.
  - apply Z.div_pos; lia.
  - apply Z.div_le_upper_bound; lia.
Qed.

Lemma load_step_percentages t active sb susp boosted this slot delta smp
    cpus us ml j cpus' us' ml' :
  0 <= ml <= 100 /\ loads_are_percentages us ->
  load_step t active sb susp boosted this slot delta smp
    (Some (cpus, us, ml)) j = Some (cpus', us', ml') ->
  0 <= ml' <= 100 /\ loads_are_percentages us'.
Proof.
  intros [Hml Hus]. unfold load_step. cbn [mbind option_bind].
  destruct (cpus !! j) as [jd|]; [|discriminate]. cbn [mbind option_bind].
  set (wall := u32 (cur_wall_time (smp j) - prev_cpu_wall jd)).
  pose proof (adjusted_idle_nonneg t active sb susp boosted (smp j) jd wall)
    as Hidle.
  destruct (adjusted_idle t active sb susp boosted (smp j) jd wall)
    as [idle prev_io]. cbn [fst] in Hidle.
  pose proof (u32_range (cur_wall_time (smp j) - prev_cpu_wall jd)) as Hwall.
  fold wall in Hwall.
  destruct (Z.eqb_spec wall 0) as [Hz|Hz]; cbn [orb].
  { intros [= <- <- <-]. split; assumption. }
  destruct (Z.ltb_spec wall idle) as [Hlt|Hge].
  { intros [= <- <- <-]. split; assumption. }
  pose proof (load_is_percentage wall idle ltac:(lia) ltac:(lia)) as Hld.
  set (ld := u32 (100 * (wall - idle)) / wall) in *.
  assert (Hus' : loads_are_percentages
                   (alter (fun u => {| freq := freq u;
                                       load := <[j := ld]> (load u);
                                       rq_avg := rq_avg u |})
                          (Z.to_nat slot) us)).
  { apply Forall_alter; [exact Hus|].
    intros u _ Hu. cbn [load]. apply Forall_insert; assumption. }
  assert (Hml' : 0 <= (if ml <? ld then ld else ml) <= 100)
    by (destruct (ml <? ld); lia).
  destruct (negb (delta =? 0)).
  - destruct (_ !! this); [|discriminate]. cbn [mbind option_bind].
    intros [= <- <- <-]. split; assumption.
  - intros [= <- <- <-]. split; assumption.
Qed.

Lemma load_step_readings t active sb susp boosted this slot delta smp
    us0 cpus us ml j cpus' us' ml' :
  same_readings us0 us ->
  load_step t active sb susp boosted this slot delta smp
    (Some (cpus, us, ml)) j = Some (cpus', us', ml') ->
  same_readings us0 us'.
Proof.
  intros Hus. unfold load_step. cbn [mbind option_bind].
  destruct (cpus !! j) as [jd|]; [|discriminate]. cbn [mbind option_bind].
  destruct (adjusted_idle _ _ _ _ _ _ _ _) as [idle prev_io].
  destruct (_ || _).
  { intros [= <- <- <-]. exact Hus. }
  assert (Hus' : forall ld,
            same_readings us0
              (alter (fun u => {| freq := freq u;
                                  load := <[j := ld]> (load u);
                                  rq_avg := rq_avg u |})
                     (Z.to_nat slot) us)).
  { intros ld. apply Forall2_alter_r; [exact Hus|].
    intros u u' _ _ Hu. exact Hu. }
  destruct (negb (delta =? 0)).
  - destruct (_ !! this); [|discriminate]. cbn [mbind option_bind].
    intros [= <- <- <-]. apply Hus'.
  - intros [= <- <- <-]. apply Hus'.
Qed.

Lemma same_readings_refl us : same_readings us us.
Proof.
  unfold same_readings. induction us; constructor; [split; reflexivity|].
  assumption.
Qed.

Lemma load_loop_readings t active sb susp boosted this slot delta smp js
    cpus us ml cpus' us' ml' us0 :
  load_loop t active sb susp boosted this slot delta smp js (cpus, us, ml)
    = Some (cpus', us', ml') ->
  same_readings us0 us -> same_readings us0 us'.
Proof.
  intros Hrun H0.
  apply (load_loop_invariant (fun st => same_readings us0 st.1.2)
           t active sb susp boosted this slot delta smp) in Hrun;
    [exact Hrun| |exact H0].
  intros [[c u] m] j [[c' u'] m'] HI Hstep.
  exact (load_step_readings _ _ _ _ _ _ _ _ _ _ _ _ _ _ _ _ _ HI Hstep).
Qed.

Lemma load_loop_percentages t active sb susp boosted this slot delta smp js
    cpus us ml cpus' us' ml' :
  load_loop t active sb susp boosted this slot delta smp js (cpus, us, ml)
    = Some (cpus', us', ml') ->
  0 <= ml <= 100 -> loads_are_percentages us ->
  loads_are_percentages us'.
Proof.
  intros Hrun Hml H0.
  apply (load_loop_invariant
           (fun st => 0 <= st.2 <= 100 /\ loads_are_percentages st.1.2)
           t active sb susp boosted this slot delta smp) in Hrun;
    [exact (proj2 Hrun)| |split; assumption].
  intros [[c u] m] j [[c' u'] m'] HI Hstep.
  exact (load_step_percentages _ _ _ _ _ _ _ _ _ _ _ _ _ _ _ _ HI Hstep).
Qed.

(** ** The history of a tick *)

(** The hotplug check touches the history count only: it leaves it as it
    was, unless that is the window length, or sets it to 0. *)
Lemma hotplug_check_count env c g g' acts :
  hotplug_check env c g = Some (g', acts) ->
  0 < max_hotplug_rate (tuners g) ->
  (g' = g \/ g' = set_num_hist 0 g) /\
  num_hist (hotplug_history g') <> max_hotplug_rate (tuners g).
Proof.
  intros H Hpos. split; [exact (proj1 (hotplug_check_outcome _ _ _ _ _ H))|].
  unfold hotplug_check in H.
  destruct (check_up (now env) (online env) (possible env) g)
    as [[up g1]|] eqn:Eup; [|discriminate H].
  cbn [mbind option_bind] in H.
  assert (Hg1 : tuners g1 = tuners g).
  { apply check_up_outcome in Eup as [[->|[_ ->]] _]; reflexivity. }
  assert (Hend : forall g2 acts2,
            tuners g2 = tuners g ->
            (if num_hist (hotplug_history g2)
                =? Z.max (cpu_up_rate (tuners g2)) (cpu_down_rate (tuners g2))
             then Some (set_num_hist 0 g2, acts2)
             else Some (g2, acts2)) = Some (g', acts) ->
            num_hist (hotplug_history g') <> max_hotplug_rate (tuners g)).
  { intros g2 acts2 Ht. rewrite Ht.
    fold (max_hotplug_rate (tuners g)).
    destruct (Z.eqb_spec (num_hist (hotplug_history g2))
                (max_hotplug_rate (tuners g))) as [E|E];
      intros [= <- _]; cbn; lia. }
  destruct up.
  - cbn [mbind option_bind] in H. exact (Hend _ _ Hg1 H).
  - destruct (check_down (now env) (online env) g1)
      as [[down g2]|] eqn:Edown; [|discriminate H].
    cbn [mbind option_bind] in H.
    assert (Hg2 : tuners g2 = tuners g).
    { apply check_down_outcome in Edown as [[->|[_ ->]] _]; exact Hg1. }
    destruct (down && (standby g2 || suspend g2));
      cbn [mbind option_bind] in H; exact (Hend _ _ Hg2 H).
Qed.

Lemma history_push_facts g :
  0 <= num_hist (hotplug_history g) ->
  length (usage (hotplug_history g)) = 40%nat ->
  let g1 := (history_push g).2 in
  (history_push g).1 = sample_slot g /\
  0 <= sample_slot g < 40 /\
  num_hist (hotplug_history g1) = sample_slot g + 1 /\
  length (usage (hotplug_history g1)) = 40%nat /\
  nr_run_avg (rq_data g1) = 0 /\
  tuners g1 = tuners g /\
  (exists u, usage (hotplug_history g1) !! Z.to_nat (sample_slot g) = Some u
             /\ freq u = policy_cur (policy g)
             /\ rq_avg u = nr_run_avg (rq_data g)) /\
  (loads_are_percentages (usage (hotplug_history g)) ->
   loads_are_percentages (usage (hotplug_history g1))).
Proof.
  intros Hn Hlen g1. subst g1.
  unfold history_push, get_nr_run_avg, sample_slot, MAX_HOTPLUG_RATE.
  cbn [fst snd set_rq_data set_hotplug_history hotplug_history num_hist
       usage rq_data nr_run_avg tuners].
  set (n := if 40 <=? num_hist (hotplug_history g) then 0
            else num_hist (hotplug_history g)).
  assert (Hrange : 0 <= n < 40)
    by (subst n; destruct (Z.leb_spec 40 (num_hist (hotplug_history g)));
        lia).
  split; [reflexivity|]. split; [exact Hrange|].
  split; [apply u32_small; lia|].
  split; [rewrite length_alter; exact Hlen|].
  split; [reflexivity|]. split; [reflexivity|].
  split.
  - destruct (lookup_lt_is_Some_2 (usage (hotplug_history g)) (Z.to_nat n))
      as [u Hu]; [lia|].
    eexists. rewrite list_lookup_alter_eq, Hu. cbn.
    split; [reflexivity|]. split; reflexivity.
  - intros Hp. apply Forall_alter; [exact Hp|].
    intros u _ Hu. exact Hu.
Qed.

(** The facts about the history that the three theorems below share. *)
Lemma dbs_check_cpu_history this env g :
  tick_ready this env g ->
  exists g' acts u,
    dbs_check_cpu this env g = Some (g', acts) /\
    length (usage (hotplug_history g')) = 40%nat /\
    (num_hist (hotplug_history g') = 0 \/
     num_hist (hotplug_history g') = sample_slot g + 1) /\
    num_hist (hotplug_history g') <> max_hotplug_rate (tuners g) /\
    usage (hotplug_history g') !! Z.to_nat (sample_slot g) = Some u /\
    freq u = policy_cur (policy g) /\
    rq_avg u = nr_run_avg (rq_data g) /\
    nr_run_avg (rq_data g') = 0 /\
    (loads_are_percentages (usage (hotplug_history g)) ->
     loads_are_percentages (usage (hotplug_history g'))).
Proof.
  intros Hready.
  destruct (dbs_check_cpu_trace this env g Hready)
    as (d0 & slot & g1 & cpus & us & ml & g3 & hp & d1 & d' & sb' & dl'
        & facts & Hd0 & Hpush & Hloop & Hhp & Hcs & Hd1 & Hfl & Hrun).
  destruct Hready as (_ & _ & _ & Hup & Hdown & Hlen & Hnum & _ & _).
  pose proof (history_push_facts g Hnum Hlen) as Hp.
  rewrite Hpush in Hp. cbn [fst snd] in Hp.
  destruct Hp as (-> & Hslot & Hnh & Hl1 & Hrq & Ht1 & (u & Hu & Hfu & Hru)
                  & Hperc).
  pose proof (load_loop_readings _ _ _ _ _ _ _ _ _ _ _ _ _ _ _ _ _ Hloop
                (same_readings_refl _)) as Hread.
  apply hotplug_check_count in Hhp as [Hg3 Hne];
    [|cbn; rewrite Ht1; unfold max_hotplug_rate; lia].
  cbn [tuners set_cs_cpu_dbs_info set_hotplug_history] in Hne.
  rewrite Ht1 in Hne.
  assert (Hlook : exists u', us !! Z.to_nat (sample_slot g) = Some u'
                             /\ freq u' = freq u /\ rq_avg u' = rq_avg u).
  { destruct (Forall2_lookup_l _ _ _ _ _ Hread Hu) as (u' & Hu' & Hsame).
    exists u'. split; [exact Hu'|exact Hsame]. }
  destruct Hlook as (u' & Hu' & Hfu' & Hru').
  assert (Hlen' : length us = 40%nat)
    by (rewrite <- (Forall2_length Hread); exact Hl1).
  exists (set_delay dl' (set_standby sb'
            (set_cs_cpu_dbs_info (<[this := d']> cpus) g3))),
    (hp ++ facts), u'.
  split; [exact Hrun|].
  cbn [hotplug_history set_delay set_standby set_cs_cpu_dbs_info rq_data].
  assert (Hperc' : loads_are_percentages (usage (hotplug_history g)) ->
                   loads_are_percentages us).
  { intros Hp0.
    apply (load_loop_percentages _ _ _ _ _ _ _ _ _ _ _ _ 0 _ _ _ Hloop);
      [lia|exact (Hperc Hp0)]. }
  destruct Hg3 as [->| ->];
    cbn [hotplug_history set_num_hist set_hotplug_history
         set_cs_cpu_dbs_info usage num_hist rq_data] in *;
    (split; [exact Hlen'|]);
    (split; [first [left; reflexivity | right; exact Hnh]|]);
    (split; [first [exact Hne | cbn in Hup, Hdown |- *;
                    unfold max_hotplug_rate; lia]|]);
    (split; [exact Hu'|]);
    (split; [congruence|]); (split; [congruence|]);
    (split; [exact Hrq|exact Hperc']).
Qed.

(** X2.  Every tick records the current frequency and the run-queue average
    in the slot the history count points to (slot 0 when the count has
    reached the 40 slots of the array), and leaves the tracker drained. *)
Theorem tick_records_sample this env g :
  tick_ready this env g ->
  exists g' acts u,
    dbs_check_cpu this env g = Some (g', acts) /\
    0 <= sample_slot g < 40 /\
    usage (hotplug_history g') !! Z.to_nat (sample_slot g) = Some u /\
    freq u = policy_cur (policy g) /\
    rq_avg u = nr_run_avg (rq_data g) /\
    nr_run_avg (rq_data g') = 0.
Proof.
  intros Hready.
  destruct (dbs_check_cpu_history this env g Hready)
    as (g' & acts & u & Hrun & _ & _ & _ & Hu & Hf & Hr & Hrq & _).
  exists g', acts, u. split; [exact Hrun|].
  destruct Hready as (_ & _ & _ & _ & _ & Hlen & Hnum & _).
  split; [exact (proj1 (proj2 (history_push_facts g Hnum Hlen)))|].
  repeat split; assumption.
Qed.

(** X3.  The history count after a tick is inside the array, it is never left
    at the window length max(cpu_up_rate, cpu_down_rate), and a count
    below the window length stays below it. *)
Theorem tick_keeps_history_count this env g :
  tick_ready this env g ->
  exists g' acts,
    dbs_check_cpu this env g = Some (g', acts) /\
    length (usage (hotplug_history g')) = 40%nat /\
    0 <= num_hist (hotplug_history g') <= 40 /\
    num_hist (hotplug_history g') <> max_hotplug_rate (tuners g) /\
    (num_hist (hotplug_history g) < max_hotplug_rate (tuners g) ->
     num_hist (hotplug_history g') < max_hotplug_rate (tuners g)).
Proof.
  intros Hready.
  destruct (dbs_check_cpu_history this env g Hready)
    as (g' & acts & u & Hrun & Hlen' & Hcount & Hne & _).
  exists g', acts. split; [exact Hrun|]. split; [exact Hlen'|].
  destruct Hready as (_ & _ & _ & Hup & Hdown & Hlen & Hnum & _).
  pose proof (proj1 (proj2 (history_push_facts g Hnum Hlen))) as Hslot.
  assert (Hpos : 0 < max_hotplug_rate (tuners g))
    by (unfold max_hotplug_rate; lia).
  split; [lia|]. split; [exact Hne|].
  intros Hlt.
  assert (sample_slot g <= num_hist (hotplug_history g)).
  { unfold sample_slot.
    destruct (MAX_HOTPLUG_RATE <=? num_hist (hotplug_history g)); lia. }
  lia.
Qed.

(** X4.  The loads a tick writes into the history are percentages, also when
    the 32-bit product [100 * (wall_time - idle_time)] wraps. *)
Theorem tick_keeps_loads_percentages this env g :
  tick_ready this env g ->
  loads_are_percentages (usage (hotplug_history g)) ->
  exists g' acts,
    dbs_check_cpu this env g = Some (g', acts) /\
    loads_are_percentages (usage (hotplug_history g')).
Proof.
  intros Hready Hp.
  destruct (dbs_check_cpu_history this env g Hready)
    as (g' & acts & u & Hrun & _ & _ & _ & _ & _ & _ & _ & Hperc).
  exists g', acts. split; [exact Hrun|exact (Hperc Hp)].
Qed.

(** ** Driver requests and the requested frequency *)

Lemma check_freq_decrease_request t p active boosted max_load d d' acts :
  check_freq_decrease t p active boosted max_load d = Some (d', acts) ->
  (acts = [] /\ requested_freq d' = requested_freq d) \/
  acts = [cpufreq_driver_target (requested_freq d') CPUFREQ_RELATION_L].
Proof.
  unfold check_freq_decrease.
  destruct (_ && _); [|intros [= <- <-]; left; split; reflexivity].
  destruct (udiv _ _) as [q|]; [|discriminate]. cbn [mbind option_bind].
  assert (Hcommit : forall d0,
            Some (set_down_skip 0
                    (if requested_freq d0 <? policy_min p
                     then set_requested_freq (policy_min p) d0 else d0),
                  [cpufreq_driver_target
                     (requested_freq
                        (if requested_freq d0 <? policy_min p
                         then set_requested_freq (policy_min p) d0 else d0))
                     CPUFREQ_RELATION_L]) = Some (d', acts) ->
            (acts = [] /\ requested_freq d' = requested_freq d) \/
            acts = [cpufreq_driver_target (requested_freq d')
                      CPUFREQ_RELATION_L]).
  { intros d0 [= <- <-]. right. reflexivity. }
  destruct active.
  - destruct (_ <? sampling_down_factor t).
    + destruct (_ || _); [intros [= <- <-]; left; split; reflexivity|].
      destruct (_ <? _); [intros [= <- <-]; left; split; reflexivity|].
      apply Hcommit.
    + apply Hcommit.
  - apply Hcommit.
Qed.

Lemma frequency_logic_request t p susp sb active boosted dl max_load d
    d' sb' dl' acts :
  frequency_logic t p susp sb active boosted dl max_load d
    = Some (d', sb', dl', acts) ->
  (acts = [] /\ requested_freq d' = requested_freq d) \/
  exists rel, acts = [cpufreq_driver_target (requested_freq d') rel].
Proof.
  unfold frequency_logic.
  destruct (input_boost_limits t p susp boosted) as [[target h0] s0].
  destruct (match target with
            | Some f => policy_cur p <? f
            | None => false
            end).
  { intros [= <- _ _ <-]. right. eexists. reflexivity. }
  destruct (freq_ceilings t p susp boosted active d) as [hard soft].
  destruct (hard <? requested_freq d).
  { intros [= <- _ _ <-]. right. eexists. reflexivity. }
  destruct (_ <? max_load).
  { unfold check_freq_increase.
    destruct (_ <=? _); [intros [= <- _ _ <-]; left; split; reflexivity|].
    repeat match goal with
           | |- context [if ?c then _ else _] =>
               lazymatch c with
               | context [if _ then _ else _] => fail
               | _ => destruct c
               end
           end; cbn;
      intros [= <- _ _ <-];
      first [left; split; reflexivity | right; eexists; reflexivity]. }
  unfold standby_activation.
  assert (Hdec : forall d0 sb0 dl0,
            requested_freq d0 = requested_freq d ->
            ('(d1, acts1) ← check_freq_decrease t p active boosted max_load d0;
             Some (d1, sb0, dl0, acts1)) = Some (d', sb', dl', acts) ->
            (acts = [] /\ requested_freq d' = requested_freq d) \/
            exists rel, acts = [cpufreq_driver_target (requested_freq d') rel]).
  { intros d0 sb0 dl0 E H.
    destruct (check_freq_decrease t p active boosted max_load d0)
      as [[d1 acts1]|] eqn:Edec; [|discriminate H].
    cbn in H. injection H as <- _ _ <-.
    apply check_freq_decrease_request in Edec as [[-> Er]| ->].
    - left. split; [reflexivity|congruence].
    - right. eexists. reflexivity. }
  destruct (policy_cur p <=? _standby_threshold_freq t).
  - destruct (active && negb boosted).
    + destruct (standby_delay_factor t <=? _);
        (destruct (policy_cur p =? policy_min p);
         [intros [= <- _ _ <-]; left; split; reflexivity
         |apply Hdec; reflexivity]).
    + destruct (policy_cur p =? policy_min p);
        [intros [= <- _ _ <-]; left; split; reflexivity
        |apply Hdec; reflexivity].
  - apply Hdec. reflexivity.
Qed.

Lemma filter_requests (hp_acts facts : list action) c :
  (hp_acts = [] \/ hp_acts = [queue_up_work c] \/
   hp_acts = [queue_down_work c]) ->
  Forall (fun a => is_hotplug a = false) facts ->
  List.filter (fun a => negb (is_hotplug a)) (hp_acts ++ facts) = facts.
Proof.
  intros Hhp Hf.
  assert (Hfacts : List.filter (fun a => negb (is_hotplug a)) facts = facts).
  { induction Hf as [|a l Ha _ IH]; [reflexivity|].
    cbn. rewrite Ha. cbn. f_equal. exact IH. }
  destruct Hhp as [->|[->| ->]]; cbn; exact Hfacts.
Qed.

(** X5.  A tick asks the driver for a frequency at most once, and what it asks
    for is the requested frequency it leaves behind; a tick that asks for
    nothing leaves the requested frequency as it was. *)
Theorem tick_request_is_requested_freq this env g d :
  tick_ready this env g ->
  cs_cpu_dbs_info g !! this = Some d ->
  exists g' acts d',
    dbs_check_cpu this env g = Some (g', acts) /\
    cs_cpu_dbs_info g' !! this = Some d' /\
    let requests := List.filter (fun a => negb (is_hotplug a)) acts in
    (requests = [] /\ requested_freq d' = requested_freq d) \/
    exists rel, requests = [cpufreq_driver_target (requested_freq d') rel].
Proof.
  intros Hready Hd.
  destruct (dbs_check_cpu_run this env g Hready)
    as (d0 & d1 & ml & hp & d' & sb' & dl' & facts & g' & Hd0 & Hsc & Hshape
        & Hfl & Hfacts & Hrun & Hd' & _).
  rewrite Hd in Hd0. injection Hd0 as <-.
  exists g', (hp ++ facts), d'.
  split; [exact Hrun|]. split; [exact Hd'|].
  cbn zeta. rewrite (filter_requests hp facts (cpu d)); [|tauto|exact Hfacts].
  apply frequency_logic_request in Hfl as [[-> Er]|[rel ->]].
  - left. split; [reflexivity|].
    rewrite Er. exact (proj1 (proj2 (proj2 Hsc))).
  - right. exists rel. reflexivity.
Qed.

(** ** What a tick leaves alone *)

Lemma frequency_logic_mode t p susp sb active boosted dl max_load d
    d' sb' dl' acts :
  frequency_logic t p susp sb active boosted dl max_load d
    = Some (d', sb', dl', acts) ->
  (sb' = sb \/ sb' = true) /\
  (dl' = dl \/ dl' = standby_sampling_rate t) /\
  (active = false \/ boosted = true -> sb' = sb /\ dl' = dl).
Proof.
  unfold frequency_logic.
  destruct (input_boost_limits t p susp boosted) as [[target h0] s0].
  destruct (match target with
            | Some f => policy_cur p <? f
            | None => false
            end).
  { intros [= _ <- <- _]. tauto. }
  destruct (freq_ceilings t p susp boosted active d) as [hard soft].
  destruct (hard <? requested_freq d).
  { intros [= _ <- <- _]. tauto. }
  destruct (_ <? max_load).
  { destruct (check_freq_increase t p susp sb hard soft d).
    intros [= _ <- <- _]. tauto. }
  unfold standby_activation.
  assert (Hdec : forall d0 sb0 dl0 (P : Prop),
            (sb0 = sb' -> dl0 = dl' -> P) ->
            ('(d1, acts1) ← check_freq_decrease t p active boosted max_load d0;
             Some (d1, sb0, dl0, acts1)) = Some (d', sb', dl', acts) -> P).
  { intros d0 sb0 dl0 P HP H.
    destruct (check_freq_decrease t p active boosted max_load d0)
      as [[d1 acts1]|]; [|discriminate H].
    cbn in H. injection H as _ Hs Hd _. exact (HP Hs Hd). }
  destruct (policy_cur p <=? _standby_threshold_freq t).
  - destruct active, boosted; cbn [andb negb];
      try (destruct (standby_delay_factor t <=? _));
      (destruct (policy_cur p =? policy_min p);
       [intros [= _ <- <- _]
       |apply Hdec; intros <- <-]);
      try tauto;
      (split; [tauto|]); (split; [tauto|]);
      intros [E|E]; discriminate E.
  - apply Hdec. intros <- <-. tauto.
Qed.

Lemma dbs_check_cpu_delay this env g :
  tick_ready this env g ->
  exists g' acts,
    dbs_check_cpu this env g = Some (g', acts) /\
    (delay g' = delay g \/ delay g' = standby_sampling_rate (tuners g)).
Proof.
  intros Hready.
  destruct (dbs_check_cpu_trace this env g Hready)
    as (d0 & slot & g1 & cpus & us & ml & g3 & hp & d1 & d' & sb' & dl'
        & facts & Hd0 & Hpush & Hloop & Hhp & Hcs & Hd1 & Hfl & Hrun).
  eexists _, _. split; [exact Hrun|].
  apply frequency_logic_mode in Hfl as (_ & Hdl & _).
  cbn [delay set_delay set_standby set_cs_cpu_dbs_info].
  exact Hdl.
Qed.

(** X6.  A tick changes neither the tunables, the policy, the hotplug tables,
    the suspend flag nor the time of the last input.  It never leaves
    standby; outside Active mode, or while boosted, it changes neither the
    standby flag nor the sampling delay, and the only delay it ever sets
    is the standby rate. *)
Theorem tick_leaves_configuration this env g :
  tick_ready this env g ->
  exists g' acts,
    dbs_check_cpu this env g = Some (g', acts) /\
    tuners g' = tuners g /\ policy g' = policy g /\
    _hotplug_rq g' = _hotplug_rq g /\ _hotplug_freq g' = _hotplug_freq g /\
    suspend g' = suspend g /\
    last_input_time g' = last_input_time g /\
    (standby g = true -> standby g' = true) /\
    (is_active g = false \/ is_boosted (now env) g = true ->
     standby g' = standby g /\ delay g' = delay g) /\
    (delay g' = delay g \/ delay g' = standby_sampling_rate (tuners g)).
Proof.
  intros Hready.
  destruct (dbs_check_cpu_trace this env g Hready)
    as (d0 & slot & g1 & cpus & us & ml & g3 & hp & d1 & d' & sb' & dl'
        & facts & Hd0 & Hpush & Hloop & Hhp & Hcs & Hd1 & Hfl & Hrun).
  eexists _, _. split; [exact Hrun|].
  apply hotplug_check_outcome in Hhp as [Hg3 _].
  assert (Hg1 : g1 = (history_push g).2) by (rewrite Hpush; reflexivity).
  apply frequency_logic_mode in Hfl as (Hsb & Hdl & Hquiet).
  assert (Hframe : tuners g3 = tuners g /\ policy g3 = policy g
                   /\ _hotplug_rq g3 = _hotplug_rq g
                   /\ _hotplug_freq g3 = _hotplug_freq g
                   /\ suspend g3 = suspend g
                   /\ last_input_time g3 = last_input_time g).
  { destruct Hg3 as [->| ->]; rewrite Hg1;
      unfold history_push, get_nr_run_avg; cbn; repeat split. }
  destruct Hframe as (Et & Ep & Erq & Efr & Es & El).
  cbn [tuners policy _hotplug_rq _hotplug_freq suspend last_input_time
       standby delay set_delay set_standby set_cs_cpu_dbs_info].
  repeat split; try assumption.
  - intros E. destruct Hsb as [->| ->]; [exact E|reflexivity].
  - apply Hquiet. assumption.
  - apply Hquiet. assumption.
Qed.

(** ** Core limits in the hotplug check *)

Lemma check_up_refuses now online possible g b g' :
  check_up now online possible g = Some (b, g') ->
  online = possible \/
  (max_cpu_lock (tuners g) <> 0 /\ max_cpu_lock (tuners g) <= online) ->
  b = false.
Proof.
  unfold check_up.
  destruct (hotplug_param (_hotplug_freq g) online HOTPLUG_UP_INDEX);
    [|discriminate].
  destruct (hotplug_param (_hotplug_rq g) online HOTPLUG_UP_INDEX);
    [|discriminate].
  cbn [mbind option_bind].
  destruct (Z.eqb_spec online possible) as [E|E].
  { intros [= <- _] _. reflexivity. }
  destruct (Z.eqb_spec (max_cpu_lock (tuners g)) 0) as [Ez|Ez];
    destruct (Z.leb_spec (max_cpu_lock (tuners g)) online) as [El|El];
    cbn [negb andb]; try (intros [= <- _] _; reflexivity);
    intros _ [H|[H1 H2]]; exfalso; lia.
Qed.

Lemma check_up_locked now online possible g b g' :
  check_up now online possible g = Some (b, g') ->
  online <> possible ->
  ~ (max_cpu_lock (tuners g) <> 0 /\ max_cpu_lock (tuners g) <= online) ->
  min_cpu_lock (tuners g) <> 0 -> online < min_cpu_lock (tuners g) ->
  b = true /\ g' = g.
Proof.
  unfold check_up.
  destruct (hotplug_param (_hotplug_freq g) online HOTPLUG_UP_INDEX);
    [|discriminate].
  destruct (hotplug_param (_hotplug_rq g) online HOTPLUG_UP_INDEX);
    [|discriminate].
  cbn [mbind option_bind].
  intros H Hne Hmax Hnz Hlt. revert H.
  destruct (Z.eqb_spec online possible) as [E|E]; [contradiction|].
  destruct (Z.eqb_spec (max_cpu_lock (tuners g)) 0) as [Ez|Ez];
    destruct (Z.leb_spec (max_cpu_lock (tuners g)) online) as [El|El];
    cbn [negb andb]; try (exfalso; apply Hmax; split; assumption);
    (destruct (Z.eqb_spec (min_cpu_lock (tuners g)) 0) as [Em|Em];
     [contradiction|]);
    (destruct (Z.ltb_spec online (min_cpu_lock (tuners g))) as [Eo|Eo];
     [|exfalso; lia]);
    cbn [negb andb]; intros [= <- <-]; split; reflexivity.
Qed.

Lemma check_down_refuses now online g b g' :
  check_down now online g = Some (b, g') ->
  online = 1 \/
  (~ (max_cpu_lock (tuners g) <> 0 /\ max_cpu_lock (tuners g) < online)
   /\ min_cpu_lock (tuners g) <> 0 /\ online <= min_cpu_lock (tuners g)) ->
  b = false.
Proof.
  unfold check_down.
  destruct (hotplug_param (_hotplug_freq g) online HOTPLUG_DOWN_INDEX);
    [|discriminate].
  destruct (hotplug_param (_hotplug_rq g) online HOTPLUG_DOWN_INDEX);
    [|discriminate].
  cbn [mbind option_bind].
  destruct (_ && _ && _); [intros [= <- _] _; reflexivity|].
  destruct (Z.eqb_spec online 1) as [E|E];
    [intros [= <- _] _; reflexivity|].
  destruct (Z.eqb_spec (max_cpu_lock (tuners g)) 0) as [Ez|Ez];
    destruct (Z.ltb_spec (max_cpu_lock (tuners g)) online) as [El|El];
    cbn [negb andb];
    try (intros _ [H|[H _]]; [contradiction|exfalso; apply H; split;
                                            assumption]);
    (destruct (Z.eqb_spec (min_cpu_lock (tuners g)) 0) as [Em|Em];
     destruct (Z.leb_spec online (min_cpu_lock (tuners g))) as [Eo|Eo];
     cbn [negb andb]; try (intros [= <- _] _; reflexivity);
     intros _ [H|(_ & H1 & H2)]; exfalso; (contradiction || lia)).
Qed.

Lemma hotplug_check_limits env c g g' acts :
  hotplug_check env c g = Some (g', acts) ->
  let t := tuners g in
  let no_more := max_cpu_lock t <> 0 /\ max_cpu_lock t <= online env in
  let too_many := max_cpu_lock t <> 0 /\ max_cpu_lock t < online env in
  (online env = possible env \/ no_more -> queue_up_work c ∉ acts) /\
  (online env = 1 \/
   (~ too_many /\ min_cpu_lock t <> 0 /\ online env <= min_cpu_lock t) ->
   queue_down_work c ∉ acts) /\
  (online env <> possible env -> ~ no_more ->
   min_cpu_lock t <> 0 -> online env < min_cpu_lock t ->
   acts = [queue_up_work c]).
Proof.
  intros H t no_more too_many. unfold hotplug_check in H.
  destruct (check_up (now env) (online env) (possible env) g)
    as [[up g1]|] eqn:Eup; [|discriminate H].
  cbn [mbind option_bind] in H.
  assert (Hacts : forall g2 acts2,
            (if num_hist (hotplug_history g2)
                =? Z.max (cpu_up_rate (tuners g2)) (cpu_down_rate (tuners g2))
             then Some (set_num_hist 0 g2, acts2)
             else Some (g2, acts2)) = Some (g', acts) -> acts = acts2).
  { intros g2 acts2. destruct (_ =? _); intros [= _ <-]; reflexivity. }
  assert (Hg1 : tuners g1 = tuners g).
  { apply check_up_outcome in Eup as [[->|[_ ->]] _]; reflexivity. }
  destruct up.
  - cbn [mbind option_bind] in H. apply Hacts in H. subst acts.
    split; [|split].
    + intros Hc. apply (check_up_refuses _ _ _ _ _ _ Eup) in Hc.
      discriminate Hc.
    + intros _ Hin. apply list_elem_of_singleton in Hin. discriminate Hin.
    + intros; reflexivity.
  - destruct (check_down (now env) (online env) g1)
      as [[down g2]|] eqn:Edown; [|discriminate H].
    cbn [mbind option_bind] in H.
    split; [|split].
    + intros _ Hin.
      destruct (down && (standby g2 || suspend g2));
        cbn [mbind option_bind] in H; apply Hacts in H; subst acts.
      * apply list_elem_of_singleton in Hin. discriminate Hin.
      * apply elem_of_nil in Hin. exact Hin.
    + intros Hc Hin.
      assert (down = false) as ->.
      { apply (check_down_refuses _ _ _ _ _ Edown). rewrite Hg1. exact Hc. }
      cbn [andb mbind option_bind] in H. apply Hacts in H. subst acts.
      apply elem_of_nil in Hin. exact Hin.
    + intros Hne Hmax Hnz Hlt.
      destruct (check_up_locked _ _ _ _ _ _ Eup Hne Hmax Hnz Hlt) as [E _].
      discriminate E.
Qed.

(** X7.  The core limits as a tick applies them.  With every possible core
    online, or with max_cpu_lock reached, a tick never queues the work
    that brings cores up; with one core online, or with the number of
    online cores at or below min_cpu_lock (and not above max_cpu_lock), it
    never queues the work that takes cores down; and while fewer cores
    than min_cpu_lock are online (max_cpu_lock not reached) every tick
    queues the up work. *)
Theorem tick_respects_core_limits this env g d :
  tick_ready this env g ->
  cs_cpu_dbs_info g !! this = Some d ->
  let t := tuners g in
  let no_more := max_cpu_lock t <> 0 /\ max_cpu_lock t <= online env in
  let too_many := max_cpu_lock t <> 0 /\ max_cpu_lock t < online env in
  exists g' acts,
    dbs_check_cpu this env g = Some (g', acts) /\
    (online env = possible env \/ no_more ->
     forall c, queue_up_work c ∉ acts) /\
    (online env = 1 \/
     (~ too_many /\ min_cpu_lock t <> 0 /\ online env <= min_cpu_lock t) ->
     forall c, queue_down_work c ∉ acts) /\
    (online env <> possible env -> ~ no_more ->
     min_cpu_lock t <> 0 -> online env < min_cpu_lock t ->
     queue_up_work (cpu d) ∈ acts).
Proof.
  intros Hready Hd t no_more too_many.
  destruct (dbs_check_cpu_trace this env g Hready)
    as (d0 & slot & g1 & cpus & us & ml & g3 & hp & d1 & d' & sb' & dl'
        & facts & Hd0 & Hpush & Hloop & Hhp & Hcs & Hd1 & Hfl & Hrun).
  rewrite Hd in Hd0. injection Hd0 as <-.
  exists (set_delay dl' (set_standby sb'
            (set_cs_cpu_dbs_info (<[this := d']> cpus) g3))), (hp ++ facts).
  split; [exact Hrun|].
  destruct (frequency_logic_total (tuners g) (policy g) (suspend g)
              (standby g) (is_active g) (is_boosted (now env) g) (delay g)
              ml d1) as (d2 & sb2 & dl2 & facts2 & Hfl2 & Hfacts);
    [apply Hready|apply Hready|].
  rewrite Hfl in Hfl2. injection Hfl2 as <- <- <- <-.
  pose proof (hotplug_check_outcome _ _ _ _ _ Hhp) as [_ Hshape].
  pose proof (hotplug_check_limits _ _ _ _ _ Hhp) as Hlim.
  assert (Ht : tuners g1 = tuners g).
  { replace g1 with (history_push g).2 by (rewrite Hpush; reflexivity).
    reflexivity. }
  cbn [tuners set_cs_cpu_dbs_info set_hotplug_history] in Hlim.
  rewrite Ht in Hlim. cbn zeta in Hlim.
  destruct Hlim as (Hup & Hdown & Hlock).
  assert (Hnot : forall a, is_hotplug a = true -> a ∈ hp ++ facts -> a ∈ hp).
  { intros a Ha Hin. apply elem_of_app in Hin as [Hin|Hin]; [exact Hin|].
    rewrite Forall_forall in Hfacts.
    apply list_elem_of_In in Hin. rewrite (Hfacts a Hin) in Ha.
    discriminate Ha. }
  split; [|split].
  - intros Hc c Hin. apply (Hnot (queue_up_work c) eq_refl) in Hin.
    destruct Hshape as [->|[->|[-> _]]].
    + apply elem_of_nil in Hin. exact Hin.
    + apply list_elem_of_singleton in Hin. injection Hin as ->.
      apply (Hup Hc). apply list_elem_of_singleton. reflexivity.
    + apply list_elem_of_singleton in Hin. discriminate Hin.
  - intros Hc c Hin. apply (Hnot (queue_down_work c) eq_refl) in Hin.
    destruct Hshape as [->|[->|[-> _]]].
    + apply elem_of_nil in Hin. exact Hin.
    + apply list_elem_of_singleton in Hin. discriminate Hin.
    + apply list_elem_of_singleton in Hin. injection Hin as ->.
      apply (Hdown Hc). apply list_elem_of_singleton. reflexivity.
  - intros Hne Hmax Hnz Hlt. rewrite (Hlock Hne Hmax Hnz Hlt).
    apply elem_of_app. left. apply list_elem_of_singleton. reflexivity.
Qed.

(** ** The weighted run-queue average *)

Lemma u64_small x : 0 <= x < 2 ^ 64 -> u64 x = x.
Proof. intros H. unfold u64. apply Z.mod_small. exact H. Qed.

Lemma s64_small x : 0 <= x < 2 ^ 63 -> s64 x = x.
Proof.
  intros H. unfold s64. rewrite u64_small by lia.
  destruct (Z.ltb_spec x (2 ^ 63)); [reflexivity|lia].
Qed.

Lemma u64_s64 x : u64 (s64 x) = u64 x.
Proof.
  unfold s64. destruct (u64 x <? 2 ^ 63).
  - unfold u64. apply Z.mod_mod. lia.
  - unfold u64.
    replace (x mod 2 ^ 64 - 2 ^ 64) with (x mod 2 ^ 64 + (-1) * 2 ^ 64)
      by lia.
    rewrite Z.mod_add by lia. apply Z.mod_mod. lia.
Qed.

(** The floor of a weighted mean lies between the two values. *)
Lemma weighted_mean_between a b wa wb :
  0 <= wa -> 0 <= wb -> 0 < wa + wb ->
  Z.min a b <= (a * wa + b * wb) / (wa + wb) <= Z.max a b.
Proof.
  intros Ha Hb Hs. split.
  - apply Z.div_le_lower_bound; [exact Hs|]. nia.
  - apply Z.div_le_upper_bound; [exact Hs|]. nia.
Qed.

(** X8.  A sampler tick stores the mean of the new sample (the number of
    runnable tasks times 100) and the old average, weighted by the
    milliseconds elapsed since the last tick and the milliseconds
    accumulated before it; when either weight is 0 it stores the sample.
    The stored average therefore lies between the sample and the old
    average.  The accumulated time grows by the elapsed time, starting
    from 0 after a read. *)
Theorem rq_work_fn_weighted_mean
    (cur_time nr_running : Z) (rq : runqueue_data) :
  0 <= nr_run_avg rq < 2 ^ 32 ->
  0 <= total_time rq ->
  0 <= last_time rq <= cur_time ->
  cur_time < 2 ^ 63 ->
  total_time rq + (cur_time - last_time rq) / 1000000 < 2 ^ 32 ->
  let sample := u32 (nr_running * 100) in
  let elapsed :=
    if last_time rq =? 0 then 0 else (cur_time - last_time rq) / 1000000 in
  let total := if nr_run_avg rq =? 0 then 0 else total_time rq in
  exists r,
    rq_work_fn cur_time nr_running rq = Some r /\
    nr_run_avg r =
      (if (elapsed =? 0) || (total =? 0) then sample
       else (sample * elapsed + nr_run_avg rq * total) / (total + elapsed)) /\
    Z.min sample (nr_run_avg rq) <= nr_run_avg r
      <= Z.max sample (nr_run_avg rq) /\
    total_time r = total + elapsed /\
    last_time r = cur_time /\
    update_rate r = update_rate rq.
Proof.
  intros Havg Htot Hlast Hcur Hfit sample elapsed total.
  pose proof (u32_range (nr_running * 100)) as Hs. fold sample in Hs.
  assert (Hel : 0 <= elapsed <= (cur_time - last_time rq) / 1000000).
  { subst elapsed. destruct (last_time rq =? 0).
    - split; [lia|]. apply Z.div_pos; lia.
    - split; [apply Z.div_pos; lia|lia]. }
  assert (Htl : 0 <= total <= total_time rq)
    by (subst total; destruct (nr_run_avg rq =? 0); lia).
  assert (Hdiff : s64 (u64 (s64 (cur_time
                    - (if last_time rq =? 0 then cur_time
                       else last_time rq))) / 1000000) = elapsed).
  { subst elapsed. destruct (Z.eqb_spec (last_time rq) 0) as [E|E].
    - rewrite Z.sub_diag. reflexivity.
    - rewrite (s64_small (cur_time - last_time rq)) by lia.
      rewrite u64_small by lia.
      apply s64_small. split; [apply Z.div_pos; lia|].
      apply Z.div_lt_upper_bound; lia. }
  unfold rq_work_fn. rewrite do_div_million. cbn [mbind option_bind].
  rewrite Hdiff. fold total sample.
  destruct (Z.eqb_spec elapsed 0) as [Ee|Ee]; cbn [negb andb orb].
  { cbn [mbind option_bind]. eexists. split; [reflexivity|].
    cbn [nr_run_avg total_time last_time update_rate].
    rewrite (u32_small sample), Ee, Z.add_0_r by lia.
    rewrite s64_small by lia.
    repeat split; try reflexivity; lia. }
  destruct (Z.eqb_spec total 0) as [Et|Et]; cbn [negb andb orb].
  { cbn [mbind option_bind]. eexists. split; [reflexivity|].
    cbn [nr_run_avg total_time last_time update_rate].
    rewrite (u32_small sample), Et by lia. rewrite s64_small by lia.
    repeat split; try reflexivity; lia. }
  assert (Hmean := weighted_mean_between sample (nr_run_avg rq) elapsed total
                     ltac:(lia) ltac:(lia) ltac:(lia)).
  rewrite (Z.add_comm elapsed total) in Hmean.
  unfold do_div. rewrite (u32_small (total + elapsed)) by lia.
  destruct (Z.eqb_spec (total + elapsed) 0) as [|_]; [lia|].
  cbn [mbind option_bind]. rewrite u64_s64.
  assert (Hsum : 0 <= sample * elapsed + nr_run_avg rq * total < 2 ^ 64)
    by nia.
  rewrite (u64_small _ Hsum).
  set (q := (sample * elapsed + nr_run_avg rq * total) / (total + elapsed))
    in *.
  eexists. split; [reflexivity|].
  cbn [nr_run_avg total_time last_time update_rate].
  rewrite (s64_small q) by lia. rewrite (u32_small q) by lia.
  rewrite (s64_small (total + elapsed)) by lia.
  repeat split; try reflexivity; lia.
Qed.

(** ** The hotplug work items *)

Lemma to_int_range x : - 2 ^ 31 <= to_int x < 2 ^ 31.
Proof.
  unfold to_int. pose proof (u32_range x).
  destruct (Z.ltb_spec (u32 x) (2 ^ 31)); lia.
Qed.

Lemma to_int_id x : - 2 ^ 31 <= x < 2 ^ 31 -> to_int x = x.
Proof.
  intros H. destruct (Z.lt_ge_cases x 0) as [Hneg|Hpos].
  - unfold to_int, u32.
    replace (x mod 2 ^ 32) with (x + 2 ^ 32).
    + destruct (Z.ltb_spec (x + 2 ^ 32) (2 ^ 31)); lia.
    + symmetry. rewrite <- (Z.mod_add x 1 (2 ^ 32)) by lia.
      apply Z.mod_small. lia.
  - apply to_int_small. lia.
Qed.

Lemma mask_cpus_split b i mask :
  (length (mask_cpus b i mask) + length (mask_cpus (negb b) i mask)
   = length mask)%nat.
Proof.
  revert i. induction mask as [|x mask IH]; intros i; [reflexivity|].
  cbn [mask_cpus]. specialize (IH (S i)).
  destruct x, b; cbn [Bool.eqb negb length] in *; lia.
Qed.

Lemma mask_weight_range mask :
  0 <= mask_weight mask <= Z.of_nat (length mask).
Proof.
  unfold mask_weight. pose proof (mask_cpus_split true 0 mask). lia.
Qed.

Lemma up_loop_sublist cpus : forall nr_up,
  sublist (up_loop nr_up cpus) cpus /\ 0%nat ∉ up_loop nr_up cpus.
Proof.
  induction cpus as [|c cpus IH]; intros nr_up; cbn [up_loop].
  - split; [constructor|apply not_elem_of_nil].
  - destruct (nr_up =? 0).
    + split; [apply sublist_nil_l|apply not_elem_of_nil].
    + destruct (IH (to_int (nr_up - 1))) as [Hs Hz].
      destruct (Nat.eqb_spec c 0) as [->|Hc].
      * split; [apply sublist_cons; exact Hs|exact Hz].
      * split; [apply sublist_skip; exact Hs|].
        intros Hin. apply elem_of_cons in Hin as [E|Hin];
          [congruence|exact (Hz Hin)].
Qed.

Lemma up_loop_length cpus : forall nr_up,
  0 <= nr_up < 2 ^ 31 ->
  Z.of_nat (length (up_loop nr_up cpus)) <= nr_up.
Proof.
  induction cpus as [|c cpus IH]; intros nr_up Hn; cbn [up_loop].
  - cbn. lia.
  - destruct (Z.eqb_spec nr_up 0) as [->|Hz]; [cbn; lia|].
    rewrite to_int_id by lia.
    specialize (IH (nr_up - 1) ltac:(lia)).
    destruct (c =? 0)%nat; cbn [length]; lia.
Qed.

Lemma up_loop_all cpus : forall nr_up,
  Z.of_nat (length cpus) <= nr_up < 2 ^ 31 \/
  (- 2 ^ 31 + Z.of_nat (length cpus) <= nr_up < 0) ->
  up_loop nr_up cpus = List.filter secondary cpus.
Proof.
  induction cpus as [|c cpus IH]; intros nr_up Hn; [reflexivity|].
  cbn [up_loop List.filter length] in *.
  destruct (Z.eqb_spec nr_up 0) as [->|Hz]; [lia|].
  rewrite to_int_id by lia.
  rewrite (IH (nr_up - 1)) by lia.
  change (secondary c) with (negb (c =? 0)%nat).
  destruct (c =? 0)%nat; reflexivity.
Qed.

(** X9.  [cpu_up_work] never touches CPU0 and calls [cpu_up] only on cores
    that are offline, each at most once and in increasing order.  A
    budget [nr_up >= 0] bounds the number of cores brought up; a negative
    budget (in standby with more cores online than min_cpu_lock asks for)
    or one that covers the offline cores brings up every offline core
    other than CPU0.  Outside standby the budget is NR_CPUS minus the
    online cores, so every offline secondary core is brought up. *)
Theorem cpu_up_work_cores (now : Z) (cpu_online_mask : list bool) (g : gov) :
  let offline := mask_cpus false 0 cpu_online_mask in
  let online := mask_weight cpu_online_mask in
  let nr_up := cpu_up_budget now online g in
  let ups := cpu_up_work now cpu_online_mask g in
  Z.of_nat (length cpu_online_mask) < 2 ^ 31 ->
  sublist ups offline /\
  (0%nat ∉ ups) /\
  (0 <= nr_up -> Z.of_nat (length ups) <= nr_up) /\
  (Z.of_nat (length offline) <= nr_up \/
   - 2 ^ 31 + Z.of_nat (length offline) <= nr_up < 0 ->
   ups = List.filter secondary offline) /\
  (standby g = false -> (length cpu_online_mask <= 4)%nat ->
   ups = List.filter secondary offline).
Proof.
  intros offline online nr_up ups Hlen.
  pose proof (mask_weight_range cpu_online_mask) as Hw. fold online in Hw.
  assert (Eo : to_int (mask_weight cpu_online_mask) = online)
    by (apply to_int_small; lia).
  assert (Eups : ups = up_loop nr_up offline).
  { subst ups nr_up. unfold cpu_up_work. rewrite Eo. reflexivity. }
  assert (Hrange : - 2 ^ 31 <= nr_up < 2 ^ 31).
  { subst nr_up. unfold cpu_up_budget.
    repeat match goal with
           | |- context [to_int ?x] =>
               pose proof (to_int_range x);
               generalize dependent (to_int x); intros
           end.
    repeat match goal with
           | |- context [if ?c then _ else _] => destruct c
           end; lia. }
  rewrite Eups.
  destruct (up_loop_sublist offline nr_up) as [Hs Hz].
  split; [exact Hs|]. split; [exact Hz|].
  split; [intros H; apply up_loop_length; lia|].
  split; [intros H; apply up_loop_all; lia|].
  intros Hsb H4. apply up_loop_all. left.
  assert (Hb : nr_up = NR_CPUS - online).
  { subst nr_up. unfold cpu_up_budget. rewrite Hsb. cbn [negb].
    apply to_int_id. unfold NR_CPUS. lia. }
  pose proof (mask_cpus_split true 0 cpu_online_mask) as Hsplit.
  cbn [negb] in Hsplit. fold offline in Hsplit.
  unfold online, mask_weight, NR_CPUS in *. lia.
Qed.

Lemma down_loop_sublist cpus : forall nr_down,
  sublist (down_loop nr_down cpus) cpus /\ 0%nat ∉ down_loop nr_down cpus.
Proof.
  induction cpus as [|c cpus IH]; intros nr_down; cbn [down_loop].
  - split; [constructor|apply not_elem_of_nil].
  - destruct (Nat.eqb_spec c 0) as [->|Hc].
    + destruct (IH nr_down) as [Hs Hz].
      split; [apply sublist_cons; exact Hs|exact Hz].
    + destruct (to_int (nr_down - 1) <=? 0).
      * split; [apply sublist_nil_l|apply not_elem_of_nil].
      * destruct (IH (to_int (nr_down - 1))) as [Hs Hz].
        split; [apply sublist_skip; exact Hs|].
        intros Hin. apply elem_of_cons in Hin as [E|Hin];
          [congruence|exact (Hz Hin)].
Qed.

Lemma down_loop_length cpus : forall nr_down,
  - 2 ^ 31 < nr_down < 2 ^ 31 ->
  Z.of_nat (length (down_loop nr_down cpus)) <= Z.max 0 (nr_down - 1).
Proof.
  induction cpus as [|c cpus IH]; intros nr_down Hn; cbn [down_loop].
  - cbn. lia.
  - destruct (c =? 0)%nat; [apply IH; exact Hn|].
    rewrite to_int_id by lia.
    destruct (Z.leb_spec (nr_down - 1) 0); [cbn; lia|].
    specialize (IH (nr_down - 1) ltac:(lia)). cbn [length]. lia.
Qed.

(** X10.  [cpu_down_work] never touches CPU0 and calls [cpu_down] only on
    online cores, each at most once and in increasing order.  It takes
    down at most two cores fewer than are online, so it does nothing with
    one or two cores online; while boosted with boost_mincpus set, it
    takes down at most [online - boost_mincpus - 1] cores. *)
Theorem cpu_down_work_cores (now : Z) (cpu_online_mask : list bool) (g : gov) :
  let online := mask_weight cpu_online_mask in
  let downs := cpu_down_work now cpu_online_mask g in
  Z.of_nat (length cpu_online_mask) < 2 ^ 31 ->
  0 <= boost_mincpus (tuners g) < 2 ^ 31 ->
  sublist downs (mask_cpus true 0 cpu_online_mask) /\
  (0%nat ∉ downs) /\
  Z.of_nat (length downs) <= Z.max 0 (online - 2) /\
  (is_boosted now g = true -> boost_mincpus (tuners g) <> 0 ->
   Z.of_nat (length downs)
   <= Z.max 0 (online - boost_mincpus (tuners g) - 1)).
Proof.
  intros online downs Hlen Hbm.
  pose proof (mask_weight_range cpu_online_mask) as Hw. fold online in Hw.
  assert (Eo : to_int (mask_weight cpu_online_mask) = online)
    by (apply to_int_small; lia).
  subst downs. unfold cpu_down_work. rewrite Eo.
  rewrite (to_int_id (online - 1)) by lia.
  rewrite (to_int_small (boost_mincpus (tuners g))) by lia.
  rewrite (to_int_id (online - boost_mincpus (tuners g))) by lia.
  destruct (Z.leb_spec (online - 1) 0) as [Hle|Hgt].
  { split; [apply sublist_nil_l|]. split; [apply not_elem_of_nil|].
    cbn. split; [lia|]. intros _ _. lia. }
  set (nr_down := if is_boosted now g && negb (boost_mincpus (tuners g) =? 0)
                  then Z.min (online - 1)
                         (online - boost_mincpus (tuners g))
                  else online - 1).
  destruct (down_loop_sublist (mask_cpus true 0 cpu_online_mask) nr_down)
    as [Hs Hz].
  split; [exact Hs|]. split; [exact Hz|].
  assert (Hr : - 2 ^ 31 < nr_down < 2 ^ 31 /\ nr_down <= online - 1).
  { subst nr_down. destruct (_ && _); lia. }
  pose proof (down_loop_length (mask_cpus true 0 cpu_online_mask) nr_down
                (proj1 Hr)) as Hl.
  split; [lia|].
  intros Hb Hnz. subst nr_down. rewrite Hb in Hl |- *.
  rewrite (proj2 (Z.eqb_neq _ _) Hnz) in Hl |- *.
  cbn [andb negb] in Hl |- *. lia.
Qed.

(** ** The timer *)

Lemma timer_delay_aligned jiffies g :
  0 <= jiffies -> 0 < delay g < 2 ^ 32 ->
  exists d, timer_delay jiffies g = Some d /\
    0 < d <= delay g /\ (jiffies + d) mod delay g = 0.
Proof.
  intros Hj Hd. unfold timer_delay, umod.
  destruct (Z.eqb_spec (delay g) 0) as [|_]; [lia|].
  cbn [mbind option_bind].
  pose proof (Z.mod_pos_bound jiffies (delay g) ltac:(lia)) as Hr.
  rewrite u32_small by lia.
  eexists. split; [reflexivity|]. split; [lia|].
  replace (jiffies + (delay g - jiffies mod delay g))
    with (jiffies - jiffies mod delay g + 1 * delay g) by lia.
  rewrite Z.mod_add by lia.
  rewrite (Z.div_mod jiffies (delay g)) at 1 by lia.
  replace (delay g * (jiffies / delay g) + jiffies mod delay g
           - jiffies mod delay g)
    with ((jiffies / delay g) * delay g) by lia.
  apply Z.mod_mul. lia.
Qed.

(** X11.  [do_dbs_timer] runs the tick and queues the work again so that it
    runs on the next jiffy that is a multiple of the delay the tick has
    left: the delay of the work is positive, at most that delay, and
    jiffies plus it is a multiple of the delay. *)
Theorem do_dbs_timer_rearms_aligned this env jiffies g :
  tick_ready this env g ->
  0 <= jiffies ->
  0 < delay g < 2 ^ 32 ->
  0 < standby_sampling_rate (tuners g) < 2 ^ 32 ->
  exists g' acts d,
    do_dbs_timer this env jiffies g = Some (g', acts, d) /\
    dbs_check_cpu this env g = Some (g', acts) /\
    0 < d <= delay g' /\
    (jiffies + d) mod delay g' = 0.
Proof.
  intros Hready Hj Hd Hs.
  destruct (dbs_check_cpu_delay this env g Hready)
    as (g' & acts & Hrun & Hdl).
  assert (Hd' : 0 < delay g' < 2 ^ 32) by (destruct Hdl as [->| ->]; lia).
  destruct (timer_delay_aligned jiffies g' Hj Hd') as (d & Ed & Hrange & Hmod).
  exists g', acts, d. unfold do_dbs_timer. rewrite Hrun.
  cbn [mbind option_bind]. rewrite Ed. cbn [mbind option_bind].
  split; [reflexivity|]. split; [reflexivity|]. split; [exact Hrange|].
  exact Hmod.
Qed.

(** ** The derived limits *)

(** X12.  [recalculate_freq_limits] writes the five derived fields only; the
    three ceilings it computes never exceed [policy->max]; the overclock
    budget is 0 unless max_non_oc_freq is below [policy->max] and
    oc_freq_boost_ms is set; and computing the limits again changes
    nothing. *)
Theorem recalculate_freq_limits_ceilings
    (present : Z) (p : cpufreq_policy) (t : dbs_tuners) :
  let t' := recalculate_freq_limits present p t in
  (forall o, object_value o t' = object_value o t) /\
  _suspend_max_freq_hard t' <= policy_max p /\
  _suspend_max_freq_soft t' <= policy_max p /\
  _standby_max_freq_soft t' <= policy_max p /\
  (policy_max p <= max_non_oc_freq t \/ oc_freq_boost_ms t = 0 ->
   _oc_limit t' = 0) /\
  _standby_threshold_freq t'
    = u32 (policy_min p + standby_threshold_freq t) /\
  recalculate_freq_limits present p t' = t'.
Proof.
  cbn zeta. unfold recalculate_freq_limits.
  split; [intros o; destruct o; reflexivity|].
  cbn [_suspend_max_freq_hard _suspend_max_freq_soft _standby_max_freq_soft
       _oc_limit _standby_threshold_freq set_limits max_non_oc_freq
       oc_freq_boost_ms power_optimal_freq suspend_max_freq
       standby_threshold_freq].
  split; [destruct (policy_max p <? _) eqn:E;
          [lia|apply Z.ltb_ge in E; exact E]|].
  split; [destruct (policy_max p <? _) eqn:E;
          [lia|apply Z.ltb_ge in E; exact E]|].
  split; [destruct (policy_max p <? _) eqn:E;
          [lia|apply Z.ltb_ge in E; exact E]|].
  split.
  { intros [H|H].
    - destruct (Z.ltb_spec (max_non_oc_freq t) (policy_max p)); [lia|].
      reflexivity.
    - rewrite H. cbn. rewrite andb_false_r. reflexivity. }
  split; reflexivity.
Qed.

(** ** The transition notifier *)

(** X13.  For a core that is enabled, a notification of a frequency inside the
    policy limits leaves the requested frequency inside them: it is kept
    when it was inside, and replaced by the new frequency when it was
    not.  Only the notified core is written.  For a core that is not
    enabled the notifier returns NOTIFY_DONE and changes nothing. *)
Theorem notifier_repairs_requested_freq
    (freq_cpu : nat) (freq_new : Z) (g : gov) (d : cpu_dbs_info_s) :
  cs_cpu_dbs_info g !! freq_cpu = Some d ->
  policy_cur (policy g) <> 0 ->
  policy_min (policy g) <= freq_new <= policy_max (policy g) ->
  (enable d = false ->
   dbs_cpufreq_notifier freq_cpu freq_new g = Some (NOTIFY_DONE, g)) /\
  (enable d = true ->
   exists g' d',
     dbs_cpufreq_notifier freq_cpu freq_new g = Some (NOTIFY_OK, g') /\
     cs_cpu_dbs_info g' !! freq_cpu = Some d' /\
     policy_min (policy g) <= requested_freq d' <= policy_max (policy g) /\
     (policy_min (policy g) <= requested_freq d <= policy_max (policy g) ->
      requested_freq d' = requested_freq d) /\
     (~ policy_min (policy g) <= requested_freq d <= policy_max (policy g) ->
      requested_freq d' = freq_new) /\
     (forall j, j <> freq_cpu ->
        cs_cpu_dbs_info g' !! j = cs_cpu_dbs_info g !! j) /\
     tuners g' = tuners g /\ policy g' = policy g /\
     standby g' = standby g /\ suspend g' = suspend g).
Proof.
  intros Hd Hcur Hnew. unfold dbs_cpufreq_notifier. rewrite Hd.
  cbn [mbind option_bind].
  split; [intros ->; reflexivity|]. intros ->. cbn [negb].
  set (d1 := if (policy_max (policy g) <? requested_freq d)
                || (requested_freq d <? policy_min (policy g))
             then set_requested_freq freq_new d else d).
  assert (Hd1 : policy_min (policy g) <= requested_freq d1
                  <= policy_max (policy g)
                /\ (policy_min (policy g) <= requested_freq d
                      <= policy_max (policy g) ->
                    requested_freq d1 = requested_freq d)
                /\ (~ policy_min (policy g) <= requested_freq d
                        <= policy_max (policy g) ->
                    requested_freq d1 = freq_new)).
  { subst d1.
    destruct (Z.ltb_spec (policy_max (policy g)) (requested_freq d));
      destruct (Z.ltb_spec (requested_freq d) (policy_min (policy g)));
      cbn [orb requested_freq set_requested_freq];
      repeat split; intros; lia. }
  assert (Hstep : exists d2,
    (if policy_min (policy g) <? freq_new
     then recalculate_down_threshold (tuners g) (policy g)
            (set_freq_lo
               (cpufreq_frequency_table_target (policy g) (freq_new - 1)
                  CPUFREQ_RELATION_H) d1)
     else Some (set_freq_lo (policy_min (policy g)) d1)) = Some d2
    /\ requested_freq d2 = requested_freq d1).
  { destruct (_ <? freq_new).
    - unfold recalculate_down_threshold, udiv.
      destruct (Z.eqb_spec (policy_cur (policy g)) 0); [contradiction|].
      cbn [mbind option_bind]. eexists. split; reflexivity.
    - eexists. split; reflexivity. }
  destruct Hstep as (d2 & -> & Er). cbn [mbind option_bind].
  eexists _, d2. split; [reflexivity|].
  cbn [cs_cpu_dbs_info set_cs_cpu_dbs_info tuners policy standby suspend].
  split; [apply list_lookup_insert_eq; eapply lookup_lt_Some; exact Hd|].
  rewrite Er.
  split; [apply Hd1|]. split; [apply Hd1|]. split; [apply Hd1|].
  split; [intros j Hj; apply list_lookup_insert_ne; congruence|].
  repeat split.
Qed.

(** ** The core lock *)

Lemma to_int_high x : 2 ^ 31 <= x < 2 ^ 32 -> to_int x = x - 2 ^ 32.
Proof.
  intros H. unfold to_int. rewrite u32_small by lia.
  destruct (Z.ltb_spec x (2 ^ 31)); lia.
Qed.

(** X14.  A write of [input] to min_cpu_lock stores min(input,
    num_possible_cpus()) and nothing else.  Writing 0 releases the lock
    and queues the down work unless the governor is suspended.  Writing a
    number below 2^31 queues the up work exactly when it is above the
    number of online cores; a number from 2^31 + num_online_cpus() on is
    negative after the cast to [int] and queues nothing.  From then on
    [check_up] answers true while fewer cores than the lock are online
    (and not all possible cores, max_cpu_lock permitting), and
    [check_down] answers false while no more cores than the lock are
    online. *)
Theorem store_min_cpu_lock_takes_effect
    (e : sysfs_env) (input count : Z) (g : gov) (d0 : cpu_dbs_info_s) :
  cs_cpu_dbs_info g !! 0%nat = Some d0 ->
  0 <= input < 2 ^ 32 ->
  0 < num_possible_cpus e ->
  num_online_cpus e < 2 ^ 31 ->
  let lock := Z.min input (num_possible_cpus e) in
  exists g1 acts,
    store_min_cpu_lock e (Some input) count g = Some (count, g1, acts) /\
    min_cpu_lock (tuners g1) = lock /\
    (forall o, o <> o_min_cpu_lock ->
       object_value o (tuners g1) = object_value o (tuners g)) /\
    (input = 0 ->
     acts = if suspend g then [] else [queue_down_work (cpu d0)]) /\
    (0 < input < 2 ^ 31 ->
     acts = if num_online_cpus e <? input then [queue_up_work (cpu d0)]
            else []) /\
    (2 ^ 31 + num_online_cpus e <= input -> acts = []) /\
    (forall now online possible b g',
       check_up now online possible g1 = Some (b, g') ->
       online <> possible ->
       ~ (max_cpu_lock (tuners g) <> 0 /\ max_cpu_lock (tuners g) <= online) ->
       lock <> 0 -> online < lock -> b = true) /\
    (forall now online b g',
       check_down now online g1 = Some (b, g') ->
       ~ (max_cpu_lock (tuners g) <> 0 /\ max_cpu_lock (tuners g) < online) ->
       lock <> 0 -> online <= lock -> b = false).
Proof.
  intros Hd0 Hin Hposs Hon lock.
  assert (Hframe : forall v o, o <> o_min_cpu_lock ->
            object_value o (set_min_cpu_lock v (tuners g))
            = object_value o (tuners g)).
  { intros v o Ho. destruct o; try reflexivity. contradiction. }
  assert (Hchecks : forall g1,
            tuners g1 = set_min_cpu_lock lock (tuners g) ->
            (forall now online possible b g',
               check_up now online possible g1 = Some (b, g') ->
               online <> possible ->
               ~ (max_cpu_lock (tuners g) <> 0
                  /\ max_cpu_lock (tuners g) <= online) ->
               lock <> 0 -> online < lock -> b = true) /\
            (forall now online b g',
               check_down now online g1 = Some (b, g') ->
               ~ (max_cpu_lock (tuners g) <> 0
                  /\ max_cpu_lock (tuners g) < online) ->
               lock <> 0 -> online <= lock -> b = false)).
  { intros g1 Ht. split.
    - intros now online possible b g' Hup Hne Hmax Hnz Hlt.
      refine (proj1 (check_up_locked _ _ _ _ _ _ Hup Hne _ _ _));
        rewrite Ht; cbn; assumption.
    - intros now online b g' Hdown Hmax Hnz Hle.
      apply (check_down_refuses _ _ _ _ _ Hdown). right.
      rewrite Ht. cbn. repeat split; assumption. }
  assert (Hon0 : 0 <= num_online_cpus e) by (unfold num_online_cpus; lia).
  unfold store_min_cpu_lock.
  destruct (Z.eqb_spec input 0) as [->|Hnz].
  - unfold cpufreq_dynamic_min_cpu_unlock.
    cbn [cs_cpu_dbs_info set_tuners]. rewrite Hd0.
    cbn [mbind option_bind suspend set_tuners].
    assert (El : lock = 0) by (subst lock; lia).
    destruct (suspend g); cbn [mbind option_bind];
      (eexists _, _; split; [reflexivity|]);
      cbn [tuners set_tuners min_cpu_lock set_min_cpu_lock];
      (split; [lia|]); (split; [apply Hframe|]);
      (split; [reflexivity|]); (split; [lia|]); (split; [lia|]);
      apply Hchecks; rewrite El; reflexivity.
  - unfold cpufreq_dynamic_min_cpu_lock.
    cbn [cs_cpu_dbs_info set_tuners]. rewrite Hd0.
    cbn [mbind option_bind].
    rewrite (to_int_small (num_online_cpus e)) by lia.
    assert (Hflag : (input < 2 ^ 31 ->
                     to_int (to_int input - num_online_cpus e)
                     = input - num_online_cpus e) /\
                    (2 ^ 31 + num_online_cpus e <= input ->
                     to_int (to_int input - num_online_cpus e) < 0)).
    { split; intros H.
      - rewrite (to_int_small input) by lia. apply to_int_id. lia.
      - rewrite (to_int_high input) by lia. rewrite to_int_id by lia. lia. }
    destruct Hflag as [Hlow Hhigh].
    destruct (Z.leb_spec (to_int (to_int input - num_online_cpus e)) 0)
      as [Hle|Hgt];
      cbn [mbind option_bind];
      (eexists _, _; split; [reflexivity|]);
      cbn [tuners set_tuners min_cpu_lock set_min_cpu_lock];
      (split; [reflexivity|]); (split; [apply Hframe|]);
      (split; [intros; lia|]);
      (split; [intros [_ Hlt]; specialize (Hlow Hlt);
               destruct (Z.ltb_spec (num_online_cpus e) input);
               [first [reflexivity | lia]|first [reflexivity | lia]]|]);
      (split; [intros Hbig; first [reflexivity | specialize (Hhigh Hbig); lia]
              |]);
      apply Hchecks; reflexivity.
Qed.

(** ** Input events *)

(** X15.  An input event ends standby and restores the Active sampling delay
    (the suspend flag, the tunables and the policy are left alone),
    refills the overclock credit of CPU0 to twice the overclock budget
    when there is one, and opens the boost window: from then on
    [is_boosted] holds exactly at the times before [now + input_boost_us],
    provided input_boost_freq is set.  The tick of CPU0 is queued to run
    at once only when its work was pending, the last input is at least
    input_boost_us old and the current frequency is below
    input_boost_freq. *)
Theorem input_event_opens_boost_window
    (now : Z) (pending : bool) (g : gov) (d0 : cpu_dbs_info_s) :
  cs_cpu_dbs_info g !! 0%nat = Some d0 ->
  0 <= now ->
  0 <= input_boost_us (tuners g) ->
  now + input_boost_us (tuners g) < 2 ^ 64 ->
  exists g1 run d1,
    hotplug_input_event now pending g = Some (g1, run) /\
    standby g1 = false /\
    delay g1 = sampling_rate (tuners g) /\
    suspend g1 = suspend g /\ tuners g1 = tuners g /\ policy g1 = policy g /\
    last_input_time g1 = now /\
    (forall t, is_boosted t g1 = true <->
               0 < input_boost_freq (tuners g) /\
               t < now + input_boost_us (tuners g)) /\
    cs_cpu_dbs_info g1 !! 0%nat = Some d1 /\
    same_control d0 d1 /\
    oc_boost_cycles d1
      = (if _oc_limit (tuners g) =? 0 then oc_boost_cycles d0
         else u32 (_oc_limit (tuners g) * 2)) /\
    (run = true <->
     pending = true /\
     input_boost_us (tuners g) <= u64 (now - last_input_time g) /\
     policy_cur (policy g) < input_boost_freq (tuners g)).
Proof.
  intros Hd0 Hnow Hus Hfit. unfold hotplug_input_event. rewrite Hd0.
  cbn [mbind option_bind].
  set (g0 := set_delay (sampling_rate (tuners g)) (set_standby false g)).
  set (g1 := if negb (_oc_limit (tuners g) =? 0)
             then set_cs_cpu_dbs_info
                    (<[0%nat := set_oc_boost_cycles
                                  (u32 (_oc_limit (tuners g) * 2)) d0]>
                       (cs_cpu_dbs_info g0)) g0
             else g0).
  assert (Hg1 : standby g1 = false /\ delay g1 = sampling_rate (tuners g)
                /\ suspend g1 = suspend g /\ tuners g1 = tuners g
                /\ policy g1 = policy g
                /\ exists d1, cs_cpu_dbs_info g1 !! 0%nat = Some d1
                     /\ same_control d0 d1
                     /\ oc_boost_cycles d1
                        = (if _oc_limit (tuners g) =? 0
                           then oc_boost_cycles d0
                           else u32 (_oc_limit (tuners g) * 2))).
  { subst g1 g0. destruct (_oc_limit (tuners g) =? 0); cbn [negb].
    - repeat split. exists d0. split; [exact Hd0|].
      split; [apply same_control_refl|reflexivity].
    - repeat split. eexists. split.
      + cbn. apply list_lookup_insert_eq. eapply lookup_lt_Some. exact Hd0.
      + split; [repeat split|reflexivity]. }
  destruct Hg1 as (Hsb & Hdl & Hsu & Ht & Hp & d1 & Hd1 & Hsc & Hoc).
  assert (Hboost : forall g2, tuners g2 = tuners g ->
            last_input_time g2 = now ->
            forall t, is_boosted t g2 = true <->
                      0 < input_boost_freq (tuners g) /\
                      t < now + input_boost_us (tuners g)).
  { intros g2 Et El t. unfold is_boosted. rewrite Et, El.
    rewrite u64_small by lia.
    rewrite andb_true_iff, Z.ltb_lt, Z.ltb_lt. reflexivity. }
  assert (Hrun : exists run,
            (if (u64 (now - last_input_time g) <? input_boost_us (tuners g))
                || (input_boost_freq (tuners g) <=? policy_cur (policy g))
             then Some (set_last_input_time now g1, false)
             else Some (set_last_input_time now g1, pending))
            = Some (set_last_input_time now g1, run)
            /\ (run = true <->
                pending = true /\
                input_boost_us (tuners g) <= u64 (now - last_input_time g) /\
                policy_cur (policy g) < input_boost_freq (tuners g))).
  { destruct (Z.ltb_spec (u64 (now - last_input_time g))
                (input_boost_us (tuners g))) as [Hin|Hout]; cbn [orb].
    - exists false. split; [reflexivity|].
      split; [discriminate|intros (_ & Hx & _); lia].
    - destruct (Z.leb_spec (input_boost_freq (tuners g))
                  (policy_cur (policy g))) as [Hhi|Hlo].
      + exists false. split; [reflexivity|].
        split; [discriminate|intros (_ & _ & Hx); lia].
      + exists pending. split; [reflexivity|tauto]. }
  destruct Hrun as (run & -> & Hrun).
  exists (set_last_input_time now g1), run, d1.
  split; [reflexivity|].
  cbn [standby delay suspend tuners policy last_input_time
       cs_cpu_dbs_info set_last_input_time].
  split; [exact Hsb|]. split; [exact Hdl|]. split; [exact Hsu|].
  split; [exact Ht|]. split; [exact Hp|]. split; [reflexivity|].
  split; [apply Hboost; [exact Ht|reflexivity]|].
  split; [exact Hd1|]. split; [exact Hsc|]. split; [exact Hoc|exact Hrun].
Qed.

Lemma tick_ready_frame this env g g1 :
  tick_ready this env g ->
  tuners g1 = tuners g -> policy g1 = policy g ->
  _hotplug_rq g1 = _hotplug_rq g -> _hotplug_freq g1 = _hotplug_freq g ->
  hotplug_history g1 = hotplug_history g ->
  length (cs_cpu_dbs_info g1) = length (cs_cpu_dbs_info g) ->
  tick_ready this env g1.
Proof.
  unfold tick_ready, hotplug_rows.
  intros H Et Ep Erq Efr Eh El. rewrite Et, Ep, Erq, Efr, Eh, El. exact H.
Qed.

Lemma hotplug_input_event_frame now pending g g1 run :
  hotplug_input_event now pending g = Some (g1, run) ->
  tuners g1 = tuners g /\ policy g1 = policy g /\
  _hotplug_rq g1 = _hotplug_rq g /\ _hotplug_freq g1 = _hotplug_freq g /\
  hotplug_history g1 = hotplug_history g /\
  length (cs_cpu_dbs_info g1) = length (cs_cpu_dbs_info g) /\
  suspend g1 = suspend g /\ standby g1 = false /\
  last_input_time g1 = now.
Proof.
  unfold hotplug_input_event.
  destruct (cs_cpu_dbs_info g !! 0%nat) as [d0|]; [|discriminate].
  cbn [mbind option_bind].
  destruct (negb (_oc_limit (tuners g) =? 0));
    (destruct (_ || _); intros [= <- _]; cbn;
     rewrite ?length_insert; repeat split).
Qed.

(** X16.  After an input event, a tick of CPU0 inside the boost window, with
    the governor not suspended and the current frequency below
    input_boost_freq, asks the driver for input_boost_freq and makes it
    the requested frequency. *)
Theorem input_boost_raises_frequency
    (at_time : Z) (pending : bool) (env : tick_env) (g g1 : gov)
    (run : bool) :
  tick_ready 0 env g ->
  hotplug_input_event at_time pending g = Some (g1, run) ->
  suspend g = false ->
  policy_cur (policy g) < input_boost_freq (tuners g) ->
  0 < input_boost_freq (tuners g) ->
  0 <= at_time ->
  0 <= input_boost_us (tuners g) ->
  now env < at_time + input_boost_us (tuners g) < 2 ^ 64 ->
  exists g' acts d',
    dbs_check_cpu 0 env g1 = Some (g', acts) /\
    cs_cpu_dbs_info g' !! 0%nat = Some d' /\
    requested_freq d' = input_boost_freq (tuners g) /\
    cpufreq_driver_target (input_boost_freq (tuners g)) CPUFREQ_RELATION_H
      ∈ acts.
Proof.
  intros Hready Hev Hsusp Hlow Hset Hnow Hus [Hwin Hfit].
  destruct (hotplug_input_event_frame _ _ _ _ _ Hev)
    as (Et & Ep & Erq & Efr & Eh & El & Es & Eb & Elast).
  assert (Hready1 : tick_ready 0 env g1)
    by (apply (tick_ready_frame 0 env g g1); assumption).
  assert (Hboost : is_boosted (now env) g1 = true).
  { unfold is_boosted. rewrite Et, Elast.
    rewrite u64_small by lia.
    apply andb_true_iff. split; [apply Z.ltb_lt|apply Z.ltb_lt]; lia. }
  destruct (dbs_check_cpu_run 0 env g1 Hready1)
    as (d0 & d1 & ml & hp & d' & sb' & dl' & facts & g' & Hd0 & Hsc & Hshape
        & Hfl & Hfacts & Hrun & Hd' & _).
  exists g', (hp ++ facts), d'.
  split; [exact Hrun|]. split; [exact Hd'|].
  rewrite Et, Ep, Es, Hsusp, Hboost in Hfl.
  unfold frequency_logic, input_boost_limits in Hfl.
  destruct (Z.ltb_spec (policy_cur (policy g)) (input_boost_freq (tuners g)))
    as [_|]; [|lia].
  injection Hfl as <- _ _ <-.
  split; [reflexivity|].
  apply elem_of_app. right. apply list_elem_of_singleton. reflexivity.
Qed.

(** ** Suspend and resume *)

Lemma resume_fold_spec (v : Z) (cores : list nat) :
  forall cpus0 : list cpu_dbs_info_s,
  Forall (fun c => (c < length cpus0)%nat) cores ->
  exists cpus,
    foldl (fun acc c =>
             cpus ← acc;
             d ← cpus !! c;
             Some (<[c := set_requested_freq v d]> cpus))
          (Some cpus0) cores = Some cpus /\
    length cpus = length cpus0 /\
    (forall c d, c ∈ cores -> cpus !! c = Some d -> requested_freq d = v) /\
    (forall c, c ∉ cores -> cpus !! c = cpus0 !! c) /\
    (forall c d d0, cpus !! c = Some d -> cpus0 !! c = Some d0 ->
       d = d0 \/ d = set_requested_freq v d0).
Proof.
  induction cores as [|c cores IH]; intros cpus0 Hall.
  - exists cpus0. cbn. split; [reflexivity|]. split; [reflexivity|].
    split; [intros c d Hin; apply elem_of_nil in Hin; contradiction|].
    split; [reflexivity|].
    intros c d d0 H1 H2. left. congruence.
  - apply Forall_cons_1 in Hall as [Hc Hall].
    destruct (lookup_lt_is_Some_2 _ _ Hc) as [dc Hdc].
    cbn [foldl mbind option_bind]. rewrite Hdc. cbn [mbind option_bind].
    destruct (IH (<[c := set_requested_freq v dc]> cpus0))
      as (cpus & Hrun & Hlen & Hin & Hout & Hshape).
    { rewrite length_insert. exact Hall. }
    exists cpus. split; [exact Hrun|].
    rewrite length_insert in Hlen. split; [exact Hlen|].
    assert (Hone : forall j d d0, cpus !! j = Some d -> cpus0 !! j = Some d0 ->
              (j = c -> requested_freq d = v) /\
              (d = d0 \/ d = set_requested_freq v d0)).
    { intros j d d0 Hd Hd0. destruct (decide (j = c)) as [->|Hne].
      - rewrite Hdc in Hd0. injection Hd0 as <-.
        assert (Hl : <[c := set_requested_freq v dc]> cpus0 !! c
                     = Some (set_requested_freq v dc))
          by (apply list_lookup_insert_eq; exact Hc).
        destruct (Hshape c d _ Hd Hl) as [->| ->];
          (split; [intros _; reflexivity|right; reflexivity]).
      - assert (Hl : <[c := set_requested_freq v dc]> cpus0 !! j = Some d0)
          by (rewrite list_lookup_insert_ne by congruence; exact Hd0).
        split; [intros E; contradiction|exact (Hshape j d d0 Hd Hl)]. }
    split; [|split].
    + intros j d Hj Hd.
      destruct (decide (j ∈ cores)) as [Hjc|Hjc]; [exact (Hin j d Hjc Hd)|].
      apply elem_of_cons in Hj as [->|Hj]; [|contradiction].
      apply (Hone c d dc Hd Hdc). reflexivity.
    + intros j Hj. apply not_elem_of_cons in Hj as [Hne Hj].
      rewrite (Hout j Hj). apply list_lookup_insert_ne. congruence.
    + intros j d d0 Hd Hd0. apply (Hone j d d0 Hd Hd0).
Qed.

(** X17.  PM_SUSPEND_PREPARE sets the suspend flag and the suspend sampling
    delay at once and schedules the suspend work.  PM_POST_SUSPEND and
    PM_POST_RESTORE only queue the resume work, so the governor stays
    suspended until that work runs; the other events do nothing.  When
    the resume work runs the governor is Active again with the Active
    sampling delay, the boost window opens at that time, the driver is
    asked for [policy->max], the requested frequency of every online core
    is [policy->max] and the run-queue tracker starts afresh. *)
Theorem suspend_resume_cycle
    (event : pm_event) (now : Z) (cores : list nat) (g : gov) :
  Forall (fun c => (c < length (cs_cpu_dbs_info g))%nat) cores ->
  let '(rc, (g1, works)) := pm_notifier_call event g in
  match event with
  | PM_SUSPEND_PREPARE =>
      rc = NOTIFY_OK /\ works = [suspend_work] /\
      suspend g1 = true /\ is_active g1 = false /\
      delay g1 = suspend_sampling_rate (tuners g) /\
      standby g1 = standby g /\ tuners g1 = tuners g /\
      cs_cpu_dbs_info g1 = cs_cpu_dbs_info g /\
      run_work now cores suspend_work g1 = Some (g1, [])
  | PM_POST_SUSPEND | PM_POST_RESTORE =>
      rc = NOTIFY_OK /\ works = [resume_work] /\ g1 = g /\
      exists g2,
        run_work now cores resume_work g1
        = Some (g2, [cpufreq_driver_target (policy_max (policy g))
                       CPUFREQ_RELATION_H]) /\
        is_active g2 = true /\
        delay g2 = sampling_rate (tuners g) /\
        last_input_time g2 = now /\
        rq_data g2 = start_rq_work (rq_data g) /\
        tuners g2 = tuners g /\ policy g2 = policy g /\
        length (cs_cpu_dbs_info g2) = length (cs_cpu_dbs_info g) /\
        (forall c d, c ∈ cores -> cs_cpu_dbs_info g2 !! c = Some d ->
           requested_freq d = policy_max (policy g)) /\
        (forall c, c ∉ cores ->
           cs_cpu_dbs_info g2 !! c = cs_cpu_dbs_info g !! c)
  | _ => rc = NOTIFY_DONE /\ works = [] /\ g1 = g
  end.
Proof.
  intros Hall.
  destruct event; cbn [pm_notifier_call dbs_suspend dbs_resume];
    try (repeat split; reflexivity).
  - split; [reflexivity|]. split; [reflexivity|]. split; [reflexivity|].
    cbn [run_work]. unfold cpufreq_dynamic_resume.
    destruct (resume_fold_spec (policy_max (policy g)) cores
                (cs_cpu_dbs_info g) Hall)
      as (cpus & Hrun & Hlen & Hin & Hout & _).
    cbn [cs_cpu_dbs_info set_last_input_time set_delay set_standby
         set_suspend policy tuners].
    rewrite Hrun. cbn [mbind option_bind].
    eexists. split; [reflexivity|].
    cbn. repeat split; assumption.
  - split; [reflexivity|]. split; [reflexivity|]. split; [reflexivity|].
    cbn [run_work]. unfold cpufreq_dynamic_resume.
    destruct (resume_fold_spec (policy_max (policy g)) cores
                (cs_cpu_dbs_info g) Hall)
      as (cpus & Hrun & Hlen & Hin & Hout & _).
    cbn [cs_cpu_dbs_info set_last_input_time set_delay set_standby
         set_suspend policy tuners].
    rewrite Hrun. cbn [mbind option_bind].
    eexists. split; [reflexivity|].
    cbn. repeat split; assumption.
Qed.

(** ** The sysfs files *)

Lemma recalculate_freq_limits_idem present p t :
  recalculate_freq_limits present p (recalculate_freq_limits present p t)
  = recalculate_freq_limits present p t.
Proof. reflexivity. Qed.

(** Assigning a tunable that [recalculate_freq_limits] does not read
    commutes with it. *)
Lemma recalculate_freq_limits_assign present p o v t :
  o <> o_max_non_oc_freq -> o <> o_oc_freq_boost_ms ->
  o <> o_power_optimal_freq -> o <> o_suspend_max_freq ->
  o <> o_standby_threshold_freq ->
  recalculate_freq_limits present p (assign o v t)
  = assign o v (recalculate_freq_limits present p t).
Proof.
  intros. destruct o; try contradiction; reflexivity.
Qed.

Lemma hotplug_param_alter tbl n ud v m ud' :
  is_Some (hotplug_param tbl n ud) ->
  (is_Some (hotplug_param
             (alter (fun row => <[ud := v]> row) (Z.to_nat (n - 1)) tbl)
             m ud')
   <-> is_Some (hotplug_param tbl m ud')).
Proof.
  intros _. unfold hotplug_param.
  destruct (m - 1 <? 0); [reflexivity|].
  destruct (decide (Z.to_nat (n - 1) = Z.to_nat (m - 1))) as [E|E].
  - rewrite E, list_lookup_alter_eq.
    destruct (tbl !! Z.to_nat (m - 1)) as [row|]; cbn; [|reflexivity].
    rewrite !lookup_lt_is_Some, length_insert. reflexivity.
  - rewrite list_lookup_alter_ne by exact E. reflexivity.
Qed.

Lemma same_shape_refl g : same_shape g g.
Proof. repeat split; tauto. Qed.

Lemma io_fold_total (f : nat -> cpu_dbs_info_s -> cpu_dbs_info_s)
    (cores : list nat) : forall cpus0 : list cpu_dbs_info_s,
  Forall (fun c => (c < length cpus0)%nat) cores ->
  exists cpus,
    foldl (fun acc j =>
             cpus ← acc;
             dbs_info ← cpus !! j;
             Some (<[j := f j dbs_info]> cpus))
          (Some cpus0) cores = Some cpus /\
    length cpus = length cpus0.
Proof.
  induction cores as [|c cores IH]; intros cpus0 Hall.
  - exists cpus0. split; reflexivity.
  - apply Forall_cons_1 in Hall as [Hc Hall].
    destruct (lookup_lt_is_Some_2 _ _ Hc) as [dc Hdc].
    cbn [foldl mbind option_bind]. rewrite Hdc. cbn [mbind option_bind].
    destruct (IH (<[c := f c dc]> cpus0)) as (cpus & Hrun & Hlen).
    { rewrite length_insert. exact Hall. }
    exists cpus. split; [exact Hrun|].
    rewrite Hlen. apply length_insert.
Qed.

Ltac crack :=
  repeat match goal with
         | |- context [if ?c then _ else _] =>
             lazymatch c with
             | context [if _ then _ else _] => fail
             | _ => break_cond c
             end
         end.

Lemma store_outcome_rejected e buf count g :
  store_outcome e buf count g (- EINVAL, g, []).
Proof.
  split; [apply same_shape_refl|].
  split; [right; repeat split|]. split; [reflexivity|]. tauto.
Qed.

Lemma store_outcome_accepted e input count g g' acts :
  same_shape g g' ->
  (tunables_in_range (num_possible_cpus e) (tuners g) ->
   tunables_in_range (num_possible_cpus e) (tuners g')) ->
  (policy_min (policy g) <= policy_max (policy g) ->
   table_within_policy (policy g) ->
   frequency_tunables_valid (num_present_cpus e) (policy g) (tuners g) ->
   frequency_tunables_valid (num_present_cpus e) (policy g) (tuners g')) ->
  store_outcome e (Some input) count g (count, g', acts).
Proof.
  intros Hs Hr Hf. split; [exact Hs|]. split; [left; reflexivity|].
  split; [discriminate|]. split; assumption.
Qed.

(** A tunable outside those the frequency limits are made of. *)
Lemma frequency_tunables_valid_assign present p o v t :
  o <> o_max_non_oc_freq -> o <> o_oc_freq_boost_ms ->
  o <> o_power_optimal_freq -> o <> o_suspend_max_freq ->
  o <> o_standby_threshold_freq -> o <> o_input_boost_freq ->
  frequency_tunables_valid present p t ->
  frequency_tunables_valid present p (assign o v t).
Proof.
  intros H1 H2 H3 H4 H5 H6 (Hib & Hno & Hpo & Hsm & Hrec).
  unfold frequency_tunables_valid.
  rewrite recalculate_freq_limits_assign by assumption. rewrite Hrec.
  destruct o; try contradiction; cbn; tauto.
Qed.

(** A frequency tunable set to 0 or to a frequency inside the policy
    limits, the limits being recomputed. *)
Lemma frequency_tunables_valid_recalculated present p o v t :
  frequency_tunables_valid present p t ->
  match o with
  | o_power_optimal_freq | o_suspend_max_freq | o_max_non_oc_freq =>
      v = 0 \/ policy_min p <= v <= policy_max p
  | o_oc_freq_boost_ms | o_standby_threshold_freq => True
  | _ => False
  end ->
  frequency_tunables_valid present p
    (recalculate_freq_limits present p (assign o v t)).
Proof.
  intros (Hib & Hno & Hpo & Hsm & Hrec) Hv.
  unfold frequency_tunables_valid.
  rewrite recalculate_freq_limits_idem.
  destruct o; try contradiction; cbn; tauto.
Qed.

Lemma frequency_tunables_valid_input_boost present p v t :
  frequency_tunables_valid present p t ->
  v = 0 \/ policy_min p <= v <= policy_max p ->
  frequency_tunables_valid present p (assign o_input_boost_freq v t).
Proof.
  intros (Hib & Hno & Hpo & Hsm & Hrec) Hv.
  unfold frequency_tunables_valid.
  rewrite recalculate_freq_limits_assign by discriminate. rewrite Hrec.
  cbn. tauto.
Qed.

Lemma frequency_tunables_valid_set_up_threshold present p v t :
  frequency_tunables_valid present p t ->
  frequency_tunables_valid present p (set_up_threshold v t).
Proof.
  intros (Hib & Hno & Hpo & Hsm & Hrec).
  unfold frequency_tunables_valid.
  change (recalculate_freq_limits present p (set_up_threshold v t))
    with (set_up_threshold v (recalculate_freq_limits present p t)).
  rewrite Hrec. cbn. tauto.
Qed.

Lemma frequency_tunables_valid_set_down_differential present p v t :
  frequency_tunables_valid present p t ->
  frequency_tunables_valid present p (set_down_differential v t).
Proof.
  intros (Hib & Hno & Hpo & Hsm & Hrec).
  unfold frequency_tunables_valid.
  change (recalculate_freq_limits present p (set_down_differential v t))
    with (set_down_differential v (recalculate_freq_limits present p t)).
  rewrite Hrec. cbn. tauto.
Qed.

Lemma frequency_tunables_valid_set_min_cpu_lock present p v t :
  frequency_tunables_valid present p t ->
  frequency_tunables_valid present p (set_min_cpu_lock v t).
Proof.
  intros (Hib & Hno & Hpo & Hsm & Hrec).
  unfold frequency_tunables_valid.
  change (recalculate_freq_limits present p (set_min_cpu_lock v t))
    with (set_min_cpu_lock v (recalculate_freq_limits present p t)).
  rewrite Hrec. cbn. tauto.
Qed.

Ltac in_range :=
  unfold tunables_in_range, threshold_invariant, MAX_SAMPLING_DOWN_FACTOR,
    IGNORE_NICE_ALWAYS, MAX_HOTPLUG_RATE in *;
  cbn; intros; lia.

Ltac stays_valid :=
  let Hmm := fresh "Hmm" in
  let Htab := fresh "Htab" in
  let Hvalid := fresh "Hvalid" in
  intros Hmm Htab Hvalid;
  first [apply frequency_tunables_valid_assign;
         [discriminate..|exact Hvalid]
        |apply frequency_tunables_valid_recalculated;
         [exact Hvalid
         |cbn; first [exact I | left; lia | right; apply Htab]]
        |apply frequency_tunables_valid_input_boost;
         [exact Hvalid|first [left; lia | right; apply Htab]]
        |apply frequency_tunables_valid_set_up_threshold; exact Hvalid
        |apply frequency_tunables_valid_set_down_differential; exact Hvalid
        |apply frequency_tunables_valid_set_min_cpu_lock; exact Hvalid
        |exact Hvalid].

Ltac accepted :=
  apply store_outcome_accepted;
  [repeat split; cbn; tauto|in_range|stays_valid].

Lemma sysfs_store_step e msr f buf count g :
  sysfs_ready e g ->
  write_admissible g (f, buf, count) ->
  exists r,
    sysfs_store e msr f buf count g = Some r /\ store_outcome e buf count g r.
Proof.
  intros (Hposs & Hcur & Hon & Hcs) [Hin Hfile]. cbn [fst snd] in Hin, Hfile.
  destruct buf as [input|].
  2:{ exists (- EINVAL, g, []).
      split; [destruct f; reflexivity|apply store_outcome_rejected]. }
  assert (Hall := fun g0 (E : policy g0 = policy g)
                        (L : length (cs_cpu_dbs_info g0)
                             = length (cs_cpu_dbs_info g)) =>
            recalculate_down_threshold_all_total (online_cpus e) g0
              ltac:(rewrite E; exact Hcur) ltac:(rewrite L; exact Hon)).
  destruct (lookup_lt_is_Some_2 _ _ Hcs) as [d0 Hd0].
  destruct f;
    cbn [sysfs_store];
    unfold store_sampling_rate, store_suspend_sampling_rate,
      store_standby_sampling_rate, store_rate,
      store_suspend_sampling_up_factor, store_standby_sampling_up_factor,
      store_standby_delay_factor, store_standby_threshold_freq,
      store_sampling_down_factor, store_sampling_down_factor_relax_khz,
      store_ignore_nice_load, store_suspend_max_freq, store_input_boost_freq,
      store_input_boost_ms, store_power_optimal_freq,
      store_high_freq_sampling_up_factor, store_max_non_oc_freq,
      store_oc_freq_boost_ms, store_cpu_up_rate, store_cpu_down_rate,
      store_cpu_up_freq, store_cpu_down_freq, store_up_nr_cpus,
      store_max_cpu_lock, store_dvfs_debug, store_boost_mincpus,
      store_clamped, store_int_cond, store_int_conv,
      store_bounded_int, store_int, __store_int, then_recalculate_freq_limits,
      zero_or_verified, verified, verify_freq,
      MAX_SAMPLING_DOWN_FACTOR, IGNORE_NICE_ALWAYS;
    cbn [mbind option_bind suspend standby set_tuners tuners policy].
  all: try (crack; cbn [mbind option_bind];
            (eexists; split; [reflexivity|]);
            first [apply store_outcome_rejected | accepted]).
  - (* up_threshold *)
    unfold store_up_threshold. crack; cbn [mbind option_bind];
      try (eexists; split; [reflexivity|apply store_outcome_rejected]).
    destruct (Hall (set_tuners (set_up_threshold input (tuners g)) g)
                eq_refl eq_refl) as (cpus & -> & Hlen).
    cbn [mbind option_bind]. eexists. split; [reflexivity|].
    apply store_outcome_accepted;
      [repeat split; cbn; [exact Hlen|tauto..]|in_range|stays_valid].
  - (* down_differential *)
    unfold store_down_differential. crack; cbn [mbind option_bind];
      try (eexists; split; [reflexivity|apply store_outcome_rejected]).
    destruct (Hall (set_tuners (set_down_differential input (tuners g)) g)
                eq_refl eq_refl) as (cpus & -> & Hlen).
    cbn [mbind option_bind]. eexists. split; [reflexivity|].
    apply store_outcome_accepted;
      [repeat split; cbn; [exact Hlen|tauto..]|in_range|stays_valid].
  - (* io_is_busy *)
    unfold store_io_is_busy.
    set (percent := if 100 <=? input then 1 else input).
    assert (Hp : 0 <= percent < 100)
      by (subst percent; destruct (Z.leb_spec 100 input); lia).
    assert (Hnew : 0 <= u32 (percent * 128) / 100 <= 126).
    { rewrite u32_small by lia. split; [apply Z.div_pos; lia|].
      assert (percent * 128 / 100 < 127)
        by (apply Z.div_lt_upper_bound; lia).
      lia. }
    destruct (percent =? io_is_busy (tuners g)).
    { cbn [mbind option_bind]. eexists. split; [reflexivity|].
      apply store_outcome_accepted; [apply same_shape_refl|tauto|tauto]. }
    cbn [tuners set_tuners io_is_busy assign object_beq].
    destruct (u32 (percent * 128) / 100 =? 1);
      [|destruct (negb (io_is_busy (tuners g) =? 1))];
      cbn [mbind option_bind];
      try (eexists; split; [reflexivity|accepted]).
    cbn [cs_cpu_dbs_info set_tuners].
    destruct (io_fold_total
                (fun j dbs_info =>
                   set_prev (prev_cpu_idle dbs_info) (prev_cpu_wall dbs_info)
                     (prev_cpu_nice dbs_info) (get_cpu_iowait_time_us e j)
                     dbs_info)
                (online_cpus e) (cs_cpu_dbs_info g) Hon)
      as (cpus & -> & Hlen).
    cbn [mbind option_bind]. eexists. split; [reflexivity|].
    apply store_outcome_accepted;
      [repeat split; cbn; [exact Hlen|tauto..]|in_range|stays_valid].
  - (* min_cpu_lock *)
    unfold store_min_cpu_lock, cpufreq_dynamic_min_cpu_unlock,
      cpufreq_dynamic_min_cpu_lock.
    cbn [cs_cpu_dbs_info set_tuners suspend]. rewrite Hd0.
    cbn [mbind option_bind].
    crack; cbn [mbind option_bind];
      (eexists; split; [reflexivity|accepted]).
  - (* the hotplug tables *)
    unfold store_hotplug_param. destruct Hfile as [x Hx]. rewrite Hx.
    cbn [mbind option_bind]. eexists. split; [reflexivity|].
    apply store_outcome_accepted; [|destruct which; tauto..].
    split; [destruct which; reflexivity|].
    split; [destruct which; reflexivity|].
    intros which' n ud.
    destruct which, which'; cbn [hotplug_table_of _hotplug_freq _hotplug_rq
                                 set__hotplug_freq set__hotplug_rq];
      first [reflexivity
            |apply hotplug_param_alter; eexists; exact Hx].
Qed.


Lemma same_shape_trans g0 g1 g2 :
  same_shape g0 g1 -> same_shape g1 g2 -> same_shape g0 g2.
Proof.
  intros (Ep & El & Eh) (Ep' & El' & Eh').
  split; [congruence|]. split; [congruence|].
  intros which n ud. rewrite Eh'. apply Eh.
Qed.

Lemma same_shape_ready e g g' :
  same_shape g g' -> sysfs_ready e g -> sysfs_ready e g'.
Proof.
  intros (Ep & El & _) H. unfold sysfs_ready. rewrite Ep, El. exact H.
Qed.

Lemma same_shape_admissible g g' w :
  same_shape g g' -> write_admissible g w -> write_admissible g' w.
Proof.
  intros (_ & _ & Eh) [Hin Hfile]. split; [exact Hin|].
  destruct w as [[f buf] count]. cbn [fst snd] in *.
  destruct f; try exact I. apply Eh. exact Hfile.
Qed.

(** What a sequence of writes guarantees, from the guarantees of each
    write. *)
Lemma sysfs_stores_outcome e msr ws : forall g,
  sysfs_ready e g ->
  Forall (write_admissible g) ws ->
  exists g' acts,
    sysfs_stores e msr ws g = Some (g', acts) /\
    same_shape g g' /\
    (tunables_in_range (num_possible_cpus e) (tuners g) ->
     tunables_in_range (num_possible_cpus e) (tuners g')) /\
    (policy_min (policy g) <= policy_max (policy g) ->
     table_within_policy (policy g) ->
     frequency_tunables_valid (num_present_cpus e) (policy g) (tuners g) ->
     frequency_tunables_valid (num_present_cpus e) (policy g) (tuners g')).
Proof.
  induction ws as [|[[f buf] count] ws IH]; intros g Hready Hws.
  - exists g, []. split; [reflexivity|].
    split; [apply same_shape_refl|tauto].
  - apply Forall_cons_1 in Hws as [Hw Hws].
    destruct (sysfs_store_step e msr f buf count g Hready Hw)
      as ([[rc g1] acts1] & Hstore & Hout).
    destruct Hout as (Hshape & _ & _ & Hrange & Hvalid).
    destruct (IH g1) as (g' & acts' & Hrun & Hshape' & Hrange' & Hvalid').
    { exact (same_shape_ready e g g1 Hshape Hready). }
    { eapply Forall_impl; [|exact Hws].
      intros w. apply same_shape_admissible. exact Hshape. }
    exists g', (acts1 ++ acts'). cbn [sysfs_stores]. rewrite Hstore.
    cbn [mbind option_bind]. rewrite Hrun. cbn [mbind option_bind].
    split; [reflexivity|].
    split; [exact (same_shape_trans _ _ _ Hshape Hshape')|].
    destruct Hshape as (Ep & _).
    split; [tauto|]. rewrite Ep in Hvalid'. tauto.
Qed.

(** X18.  Every write to a file of the governor runs to its end and either
    returns the length it was given or returns -EINVAL and changes
    nothing; a buffer that holds no number is always answered with
    -EINVAL.  No write changes the policy. *)
Theorem sysfs_store_rejects_cleanly
    (e : sysfs_env) (min_rate : Z) (f : sysfs_file) (buf : option Z)
    (count : Z) (g : gov) :
  sysfs_ready e g ->
  write_admissible g (f, buf, count) ->
  exists rc g' acts,
    sysfs_store e min_rate f buf count g = Some (rc, g', acts) /\
    (rc = count \/ (rc = - EINVAL /\ g' = g /\ acts = [])) /\
    (buf = None -> rc = - EINVAL) /\
    policy g' = policy g.
Proof.
  intros Hready Hw.
  destruct (sysfs_store_step e min_rate f buf count g Hready Hw)
    as ([[rc g'] acts] & Hstore & Hout).
  destruct Hout as ((Ep & _) & Hrc & Hnone & _).
  exists rc, g', acts. repeat split; assumption.
Qed.

(** X19.  Whatever is written to the files, in whatever order, the tunables
    stay in their ranges: the factors in [1, 10], ignore_nice_load in
    [0, 2], the hotplug rates at most 40, the core counts at most
    num_possible_cpus(), boost_mincpus at most 4, dvfs_debug 0 or 1,
    io_is_busy at most 126/128, and
    [0 < down_differential < up_threshold <= 100]. *)
Theorem sysfs_stores_keep_ranges
    (e : sysfs_env) (min_rate : Z) (ws : list (sysfs_file * option Z * Z))
    (g : gov) :
  sysfs_ready e g ->
  Forall (write_admissible g) ws ->
  tunables_in_range (num_possible_cpus e) (tuners g) ->
  exists g' acts,
    sysfs_stores e min_rate ws g = Some (g', acts) /\
    tunables_in_range (num_possible_cpus e) (tuners g').
Proof.
  intros Hready Hws Hrange.
  destruct (sysfs_stores_outcome e min_rate ws g Hready Hws)
    as (g' & acts & Hrun & _ & Hr & _).
  exists g', acts. split; [exact Hrun|exact (Hr Hrange)].
Qed.

(** X20.  Whatever is written to the files, in whatever order, the frequency
    tunables stay valid for the policy: input_boost_freq,
    max_non_oc_freq, power_optimal_freq and suspend_max_freq are 0 or
    inside the policy limits, and the derived limits are those that
    [recalculate_freq_limits] computes from the tunables.  (The table
    lookup of the kernel is assumed to answer inside the policy
    limits.) *)
Theorem sysfs_stores_keep_frequencies_valid
    (e : sysfs_env) (min_rate : Z) (ws : list (sysfs_file * option Z * Z))
    (g : gov) :
  sysfs_ready e g ->
  Forall (write_admissible g) ws ->
  policy_min (policy g) <= policy_max (policy g) ->
  table_within_policy (policy g) ->
  frequency_tunables_valid (num_present_cpus e) (policy g) (tuners g) ->
  exists g' acts,
    sysfs_stores e min_rate ws g = Some (g', acts) /\
    policy g' = policy g /\
    frequency_tunables_valid (num_present_cpus e) (policy g') (tuners g').
Proof.
  intros Hready Hws Hmm Htab Hvalid.
  destruct (sysfs_stores_outcome e min_rate ws g Hready Hws)
    as (g' & acts & Hrun & (Ep & _) & _ & Hv).
  exists g', acts. split; [exact Hrun|]. split; [exact Ep|].
  rewrite Ep. exact (Hv Hmm Htab Hvalid).
Qed.

Lemma u32_to_int x : 0 <= x < 2 ^ 32 -> u32 (to_int x) = x.
Proof.
  intros H. unfold to_int. rewrite (u32_small x H).
  destruct (Z.ltb_spec x (2 ^ 31)); [apply u32_small; lia|].
  unfold u32. replace (x - 2 ^ 32) with (x + (-1) * 2 ^ 32) by lia.
  rewrite Z.mod_add by lia. apply Z.mod_small. lia.
Qed.

(** X21.  Values that are stored in another unit read back as they were
    written.  io_is_busy: a percentage below 100 is stored in 128ths and
    shown as the same percentage (a write of the number that is already
    stored is ignored).  input_boost_ms: stored in microseconds in 32
    bits and shown in milliseconds, so a number whose thousandfold fits
    32 bits is shown as written, and in general what is shown is
    [(input * 1000 mod 2^32) / 1000].  The hotplug thresholds: stored in a
    table of [int]s, shown unsigned. *)
Theorem converted_values_read_back
    (e : sysfs_env) (min_rate : Z) (input count : Z) (g : gov) :
  0 <= input < 2 ^ 32 ->
  Forall (fun c => (c < length (cs_cpu_dbs_info g))%nat) (online_cpus e) ->
  (input < 100 -> input <> io_is_busy (tuners g) ->
   exists g',
     sysfs_store e min_rate f_io_is_busy (Some input) count g
       = Some (count, g', []) /\
     sysfs_show f_io_is_busy g' = Some input) /\
  (input < 100 -> input = io_is_busy (tuners g) ->
   sysfs_store e min_rate f_io_is_busy (Some input) count g
     = Some (count, g, [])) /\
  (exists g',
     sysfs_store e min_rate f_input_boost_ms (Some input) count g
       = Some (count, g', []) /\
     input_boost_us (tuners g') = u32 (input * 1000) /\
     sysfs_show f_input_boost_ms g' = Some (u32 (input * 1000) / 1000) /\
     (input * 1000 < 2 ^ 32 ->
      sysfs_show f_input_boost_ms g' = Some input)) /\
  (forall which num_core up_down,
     is_Some (hotplug_param (hotplug_table_of which g) num_core up_down) ->
     exists g',
       sysfs_store e min_rate (f_hotplug which num_core up_down)
         (Some input) count g = Some (count, g', []) /\
       sysfs_show (f_hotplug which num_core up_down) g' = Some input).
Proof.
  intros Hin Hon.
  split; [|split; [|split]].
  - intros Hlt Hne. cbn [sysfs_store]. unfold store_io_is_busy.
    destruct (Z.leb_spec 100 input) as [|_]; [lia|].
    destruct (Z.eqb_spec input (io_is_busy (tuners g))) as [|_];
      [contradiction|].
    cbn [tuners set_tuners io_is_busy assign object_beq].
    rewrite (u32_small (input * 128)) by lia.
    assert (Hshow : u32 (u32 (input * 128 / 100 + 1) * 100) / 128 = input).
    { pose proof (Z.div_mod (input * 128) 100 ltac:(lia)) as Hdm.
      pose proof (Z.mod_pos_bound (input * 128) 100 ltac:(lia)) as Hr.
      assert (0 <= input * 128 / 100 <= 127).
      { split; [apply Z.div_pos; lia|].
        apply Z.div_le_upper_bound; lia. }
      rewrite (u32_small (input * 128 / 100 + 1)) by lia.
      rewrite u32_small by lia.
      symmetry.
      apply (Z.div_unique _ 128 input (100 - (input * 128) mod 100)); lia. }
    assert (Hres : forall g', io_is_busy (tuners g') = input * 128 / 100 ->
              sysfs_show f_io_is_busy g' = Some input).
    { intros g' E. cbn [sysfs_show]. rewrite E, Hshow. reflexivity. }
    destruct (input * 128 / 100 =? 1);
      [|destruct (negb (io_is_busy (tuners g) =? 1))];
      cbn [mbind option_bind];
      try (eexists; split; [reflexivity|apply Hres; reflexivity]).
    cbn [cs_cpu_dbs_info set_tuners].
    destruct (io_fold_total
                (fun j dbs_info =>
                   set_prev (prev_cpu_idle dbs_info) (prev_cpu_wall dbs_info)
                     (prev_cpu_nice dbs_info) (get_cpu_iowait_time_us e j)
                     dbs_info)
                (online_cpus e) (cs_cpu_dbs_info g) Hon)
      as (cpus & -> & Hlen).
    cbn [mbind option_bind]. eexists. split; [reflexivity|].
    apply Hres. reflexivity.
  - intros Hlt ->. cbn [sysfs_store]. unfold store_io_is_busy.
    destruct (Z.leb_spec 100 (io_is_busy (tuners g))) as [|_]; [lia|].
    rewrite Z.eqb_refl. reflexivity.
  - cbn [sysfs_store].
    unfold store_input_boost_ms, store_int_conv, __store_int.
    cbn [mbind option_bind]. eexists. split; [reflexivity|].
    cbn. split; [reflexivity|]. split; [reflexivity|].
    intros Hfit. rewrite u32_small by lia.
    rewrite Z.div_mul by lia. reflexivity.
  - intros which num_core up_down [x Hx]. cbn [sysfs_store].
    unfold store_hotplug_param. rewrite Hx. cbn [mbind option_bind].
    eexists. split; [reflexivity|].
    cbn [sysfs_show]. unfold show_hotplug_param.
    assert (Hnew : hotplug_param
                     (alter (fun row => <[up_down := to_int input]> row)
                        (Z.to_nat (num_core - 1)) (hotplug_table_of which g))
                     num_core up_down = Some (to_int input)).
    { unfold hotplug_param in *.
      destruct (num_core - 1 <? 0); [discriminate Hx|].
      rewrite list_lookup_alter_eq.
      destruct (hotplug_table_of which g !! Z.to_nat (num_core - 1))
        as [row|]; [|discriminate Hx].
      cbn in *. apply list_lookup_insert_eq.
      eapply lookup_lt_Some. exact Hx. }
    destruct which; cbn [hotplug_table_of _hotplug_freq _hotplug_rq
                         set__hotplug_freq set__hotplug_rq] in *;
      rewrite Hnew; cbn [mbind option_bind];
      rewrite u32_to_int by exact Hin; reflexivity.
Qed.

(** ** The governor callback *)

Lemma start_cores_total (t : dbs_tuners) (p : cpufreq_policy)
    (smp : nat -> cpu_sample) (cores : list nat) :
  policy_cur p <> 0 ->
  forall cpus0 : list cpu_dbs_info_s,
  Forall (fun c => (c < length cpus0)%nat) cores ->
  exists cpus,
    start_cores t p smp cores cpus0 = Some cpus /\
    length cpus = length cpus0.
Proof.
  intros Hcur. unfold start_cores.
  induction cores as [|c cores IH]; intros cpus0 Hall.
  - exists cpus0. split; reflexivity.
  - apply Forall_cons_1 in Hall as [Hc Hall].
    destruct (lookup_lt_is_Some_2 _ _ Hc) as [dc Hdc].
    cbn [foldl mbind option_bind]. rewrite Hdc. cbn [mbind option_bind].
    unfold start_core at 2.
    destruct (recalculate_down_threshold_total t p
                (set_prev (cur_idle_time (smp c)) (cur_wall_time (smp c))
                   (if negb (ignore_nice t =? 0) then cur_nice_stat (smp c)
                    else prev_cpu_nice dc)
                   (cur_io_time (smp c)) dc) Hcur) as [d' Hd'].
    rewrite Hd'. cbn [mbind option_bind].
    destruct (IH (<[c := d']> cpus0)) as (cpus & Hrun & Hlen).
    { rewrite length_insert. exact Hall. }
    exists cpus. split; [exact Hrun|].
    rewrite Hlen. apply length_insert.
Qed.

Lemma first_start_facts e p min_rate t :
  0 < sampling_rate t < 2 ^ 32 ->
  let t' := (first_start e p min_rate t).1 in
  let min_rate' := (first_start e p min_rate t).2 in
  recalculate_freq_limits (present_cpus e) p t' = t' /\
  min_rate <= min_rate' /\
  0 < sampling_rate t' < 2 ^ 32 /\
  sampling_rate t <= sampling_rate t' /\
  u32 (usecs_to_jiffies min_rate') <= sampling_rate t' /\
  sampling_rate t' <= standby_sampling_rate t' /\
  sampling_rate t' <= suspend_sampling_rate t' /\
  max_freq t' = max_freq t /\ min_freq t' = min_freq t.
Proof.
  intros Hrate. unfold first_start. cbn [fst snd].
  set (m := Z.max min_rate _).
  pose proof (u32_range (usecs_to_jiffies m)) as Hu.
  split; [reflexivity|]. cbn.
  repeat split; lia.
Qed.

(** X22.  [CPUFREQ_GOV_START].  For a core that is offline or a policy whose
    current frequency is 0 the callback returns -EINVAL and changes
    nothing.  Otherwise the count of started cores goes up by one.  When
    this is the first start and the sysfs group cannot be created, the
    callback returns that error and no timer is started.  In every other
    case it returns 0 and leaves: the policy installed, its limits copied
    to max_freq and min_freq, the history empty, the run-queue tracker
    reset, the core enabled with the current frequency as its requested
    frequency, the delay at the Active sampling rate, and the timer
    queued for the next jiffy that is a multiple of the delay.  The first
    start also raises the three sampling rates (the Active rate to at
    least min_sampling_rate in jiffies, the other two to at least the
    Active rate) and computes the frequency limits. *)
Theorem governor_start_initialises
    (p : cpufreq_policy) (this : nat) (e : governor_env) (g : gov)
    (gl : dbs_globals) :
  (this < length (cs_cpu_dbs_info g))%nat ->
  Forall (fun j => (j < length (cs_cpu_dbs_info g))%nat) (policy_cpus p) ->
  0 < sampling_rate (tuners g) < 2 ^ 32 ->
  0 <= jiffies e ->
  let first := u32 (dbs_enable gl + 1) =? 1 in
  exists rc g' gl' timer,
    cpufreq_governor_dbs p this CPUFREQ_GOV_START e g gl
      = Some (rc, g', gl', [], timer) /\
    (cpu_online e = false \/ policy_cur p = 0 ->
     rc = - EINVAL /\ g' = g /\ gl' = gl /\ timer = None) /\
    (cpu_online e = true -> policy_cur p <> 0 ->
     dbs_enable gl' = u32 (dbs_enable gl + 1) /\
     (first = true -> sysfs_create_group e <> 0 ->
      rc = sysfs_create_group e /\ timer = None /\
      min_sampling_rate gl' = min_sampling_rate gl) /\
     (first = false \/ sysfs_create_group e = 0 ->
      rc = 0 /\
      policy g' = p /\
      num_hist (hotplug_history g') = 0 /\
      rq_data g' = start_rq_work (rq_data g) /\
      delay g' = sampling_rate (tuners g') /\
      max_freq (tuners g') = policy_max p /\
      min_freq (tuners g') = policy_min p /\
      (exists d', cs_cpu_dbs_info g' !! this = Some d' /\
         requested_freq d' = policy_cur p /\ down_skip d' = 0 /\
         enable d' = true) /\
      (exists d, timer = Some d /\ 0 < d <= delay g' /\
         (jiffies e + d) mod delay g' = 0) /\
      (first = true ->
       recalculate_freq_limits (present_cpus e) p (tuners g') = tuners g' /\
       min_sampling_rate gl <= min_sampling_rate gl' /\
       u32 (usecs_to_jiffies (min_sampling_rate gl'))
         <= sampling_rate (tuners g') /\
       sampling_rate (tuners g') <= standby_sampling_rate (tuners g') /\
       sampling_rate (tuners g') <= suspend_sampling_rate (tuners g')))).
Proof.
  intros Hthis Hcpus Hrate Hj first.
  unfold cpufreq_governor_dbs.
  destruct (cpu_online e) eqn:Eon; cbn [negb orb].
  2:{ eexists _, _, _, _. split; [reflexivity|].
      split; [intros _; repeat split|intros E; discriminate E]. }
  destruct (Z.eqb_spec (policy_cur p) 0) as [Ecur|Ecur].
  { eexists _, _, _, _. split; [reflexivity|].
    split; [intros _; repeat split|intros _ E; contradiction]. }
  set (t := assign o_min_freq (policy_min p)
              (assign o_max_freq (policy_max p) (tuners g))).
  cbn zeta.
  cbn [cs_cpu_dbs_info set_rq_data set_num_hist set_hotplug_history
       set_policy set_tuners].
  destruct (start_cores_total t p (idle_sample e) (policy_cpus p) Ecur
              (cs_cpu_dbs_info g) Hcpus) as (cpus & Hfold & Hlen).
  rewrite Hfold. cbn [mbind option_bind].
  destruct (lookup_lt_is_Some_2 cpus this ltac:(rewrite Hlen; exact Hthis))
    as [d1 Hd1].
  rewrite Hd1. cbn [mbind option_bind].
  fold first.
  set (d2 := set_requested_freq (policy_cur p) (set_down_skip 0 d1)).
  set (g2 := set_cs_cpu_dbs_info (<[this := d2]> cpus) _).
  assert (Hg2 : policy g2 = p /\ tuners g2 = t
                /\ num_hist (hotplug_history g2) = 0
                /\ rq_data g2 = start_rq_work (rq_data g)
                /\ cs_cpu_dbs_info g2 !! this = Some d2).
  { subst g2. cbn. repeat split.
    apply list_lookup_insert_eq. rewrite Hlen. exact Hthis. }
  destruct Hg2 as (Ep & Et & En & Erq & Ed2).
  assert (Hinit : forall t0,
            0 < sampling_rate t0 < 2 ^ 32 ->
            exists g' d,
              dbs_timer_init (jiffies e) this (set_tuners t0 g2)
                = Some (g', d) /\
              policy g' = p /\ tuners g' = t0 /\
              num_hist (hotplug_history g') = 0 /\
              rq_data g' = start_rq_work (rq_data g) /\
              delay g' = sampling_rate t0 /\
              (exists d', cs_cpu_dbs_info g' !! this = Some d' /\
                 requested_freq d' = policy_cur p /\ down_skip d' = 0 /\
                 enable d' = true) /\
              0 < d <= delay g' /\ (jiffies e + d) mod delay g' = 0).
  { intros t0 Ht0. unfold dbs_timer_init.
    cbn [cs_cpu_dbs_info set_delay set_tuners tuners]. rewrite Ed2.
    cbn [mbind option_bind].
    set (g3 := set_cs_cpu_dbs_info _ _).
    assert (Hdl : delay g3 = sampling_rate t0) by reflexivity.
    destruct (timer_delay_aligned (jiffies e) g3 Hj
                ltac:(rewrite Hdl; exact Ht0)) as (d & -> & Hd & Hmod).
    cbn [mbind option_bind]. exists g3, d. split; [reflexivity|].
    split; [exact Ep|]. split; [reflexivity|].
    split; [exact En|]. split; [exact Erq|]. split; [exact Hdl|].
    split; [|split; assumption].
    eexists. split.
    - subst g3. cbn. apply list_lookup_insert_eq.
      eapply lookup_lt_Some. exact Ed2.
    - repeat split. }
  assert (Ht : 0 < sampling_rate t < 2 ^ 32
               /\ max_freq t = policy_max p /\ min_freq t = policy_min p)
    by (subst t; cbn; repeat split; lia).
  destruct Ht as (Hrt & Hmax & Hmin).
  rewrite Ep, Et.
  destruct first eqn:Efirst; cbn [andb].
  - destruct (Z.eqb_spec (sysfs_create_group e) 0) as [Erc|Erc];
      cbn [negb].
    + pose proof (first_start_facts e p (min_sampling_rate gl) t Hrt)
        as (Hrec & Hmr & Hr' & _ & Hu & Hsb & Hsu & Hmx & Hmn).
      destruct (first_start e p (min_sampling_rate gl) t) as [t0 mr].
      cbn [fst snd] in *.
      destruct (Hinit t0 Hr')
        as (g' & d & -> & Hp' & Ht' & Hn' & Hrq' & Hdl' & Hd' & Hd & Hmod).
      cbn [mbind option_bind]. eexists _, _, _, _. split; [reflexivity|].
      split; [intros [E|E]; [discriminate E|contradiction]|].
      intros _ _. cbn [dbs_enable min_sampling_rate].
      split; [reflexivity|]. split; [intros _ E; contradiction|].
      intros _. rewrite Ht'.
      split; [reflexivity|]. split; [exact Hp'|]. split; [exact Hn'|].
      split; [exact Hrq'|]. split; [rewrite Hdl'; reflexivity|].
      split; [congruence|]. split; [congruence|]. split; [exact Hd'|].
      split; [eexists; split; [reflexivity|split; assumption]|].
      intros _. repeat split; assumption.
    + eexists _, _, _, _. split; [reflexivity|].
      split; [intros [E|E]; [discriminate E|contradiction]|].
      intros _ _. cbn [dbs_enable min_sampling_rate].
      split; [reflexivity|].
      split; [intros _ _; repeat split|].
      intros [E|E]; [discriminate E|contradiction].
  - destruct (Hinit t Hrt)
      as (g' & d & -> & Hp' & Ht' & Hn' & Hrq' & Hdl' & Hd' & Hd & Hmod).
    cbn [mbind option_bind]. eexists _, _, _, _. split; [reflexivity|].
    split; [intros [E|E]; [discriminate E|contradiction]|].
    intros _ _. cbn [dbs_enable min_sampling_rate].
    split; [reflexivity|]. split; [intros E; discriminate E|].
    intros _. rewrite Ht'.
    split; [reflexivity|]. split; [exact Hp'|]. split; [exact Hn'|].
    split; [exact Hrq'|]. split; [rewrite Hdl'; reflexivity|].
    split; [exact Hmax|]. split; [exact Hmin|]. split; [exact Hd'|].
    split; [eexists; split; [reflexivity|split; assumption]|].
    intros E; discriminate E.
Qed.


(** X23.  [CPUFREQ_GOV_LIMITS] asks the driver for a frequency only when the
    current frequency lies outside the new limits, and then for the limit
    that is violated, which also becomes the requested frequency; with
    the current frequency inside the limits the per-core state is left
    as it is.  It returns 0, recomputes the frequency limits for the
    policy the governor holds and changes no other tunable. *)
Theorem governor_limits_clamps
    (p : cpufreq_policy) (this : nat) (e : governor_env) (g : gov)
    (gl : dbs_globals) (d : cpu_dbs_info_s) :
  cs_cpu_dbs_info g !! this = Some d ->
  policy_min p <= policy_max p ->
  let cur := policy_cur (policy g) in
  exists g' d' acts,
    cpufreq_governor_dbs p this CPUFREQ_GOV_LIMITS e g gl
      = Some (0, g', gl, acts, None) /\
    cs_cpu_dbs_info g' !! this = Some d' /\
    (policy_min p <= cur <= policy_max p -> acts = [] /\ d' = d) /\
    (policy_max p < cur ->
     acts = [cpufreq_driver_target (policy_max p) CPUFREQ_RELATION_H] /\
     requested_freq d' = policy_max p) /\
    (cur < policy_min p ->
     acts = [cpufreq_driver_target (policy_min p) CPUFREQ_RELATION_L] /\
     requested_freq d' = policy_min p) /\
    (forall j, j <> this ->
       cs_cpu_dbs_info g' !! j = cs_cpu_dbs_info g !! j) /\
    policy g' = policy g /\
    tuners g' = recalculate_freq_limits (present_cpus e) (policy g) (tuners g).
Proof.
  intros Hd Hmm cur. unfold cpufreq_governor_dbs. rewrite Hd.
  cbn [mbind option_bind]. fold cur.
  assert (Hl : forall x, <[this := x]> (cs_cpu_dbs_info g) !! this = Some x).
  { intros x. apply list_lookup_insert_eq. eapply lookup_lt_Some. exact Hd. }
  assert (Ho : forall x j, j <> this ->
            <[this := x]> (cs_cpu_dbs_info g) !! j = cs_cpu_dbs_info g !! j).
  { intros x j Hj. apply list_lookup_insert_ne. congruence. }
  destruct (Z.ltb_spec (policy_max p) cur) as [Hhi|Hhi];
    [|destruct (Z.ltb_spec cur (policy_min p)) as [Hlo|Hlo]];
    (eexists _, _, _; split; [reflexivity|]);
    cbn [cs_cpu_dbs_info set_tuners set_cs_cpu_dbs_info policy tuners];
    (split; [apply Hl|]);
    (split; [intros ?; first [lia | split; reflexivity]|]);
    (split; [intros ?; first [lia | split; reflexivity]|]);
    (split; [intros ?; first [lia | split; reflexivity]|]);
    (split; [apply Ho|]); split; reflexivity.
Qed.

(** X24.  [CPUFREQ_GOV_STOP] returns 0, takes one off the count of started
    cores and disables the core: from then on the transition notifier
    answers NOTIFY_DONE for that core and changes nothing.  The other
    cores, the tunables and the policy are left alone. *)
Theorem governor_stop_silences_notifier
    (p : cpufreq_policy) (this : nat) (e : governor_env) (g : gov)
    (gl : dbs_globals) (d : cpu_dbs_info_s) :
  cs_cpu_dbs_info g !! this = Some d ->
  exists g',
    cpufreq_governor_dbs p this CPUFREQ_GOV_STOP e g gl
      = Some (0, g',
              {| dbs_enable := u32 (dbs_enable gl - 1);
                 min_sampling_rate := min_sampling_rate gl |}, [], None) /\
    cs_cpu_dbs_info g' !! this = Some (set_enable false d) /\
    (forall freq_new,
       dbs_cpufreq_notifier this freq_new g' = Some (NOTIFY_DONE, g')) /\
    (forall j, j <> this ->
       cs_cpu_dbs_info g' !! j = cs_cpu_dbs_info g !! j) /\
    tuners g' = tuners g /\ policy g' = policy g /\
    suspend g' = suspend g /\ standby g' = standby g.
Proof.
  intros Hd. unfold cpufreq_governor_dbs, dbs_timer_exit. rewrite Hd.
  cbn [mbind option_bind]. eexists. split; [reflexivity|].
  assert (Hl : <[this := set_enable false d]> (cs_cpu_dbs_info g) !! this
               = Some (set_enable false d)).
  { apply list_lookup_insert_eq. eapply lookup_lt_Some. exact Hd. }
  cbn [cs_cpu_dbs_info set_cs_cpu_dbs_info tuners policy suspend standby].
  split; [exact Hl|]. split.
  { intros freq_new. unfold dbs_cpufreq_notifier.
    cbn [cs_cpu_dbs_info set_cs_cpu_dbs_info]. rewrite Hl. reflexivity. }
  split; [intros j Hj; apply list_lookup_insert_ne; congruence|].
  repeat split.
Qed.

(** ** When the down threshold is recomputed *)

(** C8 (as amended).  Whenever [recalculate_down_threshold] runs, the new
    down_threshold is [(up_threshold - down_differential) * freq_lo /
    policy->cur] when that quotient lies in
    [10, up_threshold - down_differential], and half of
    [up_threshold - down_differential] otherwise; nothing else in the
    per-core state changes.  The transition notifier runs it for an
    enabled core exactly when the new frequency is above [policy->min],
    after setting freq_lo to the table frequency below the new one.  A
    notification at or below [policy->min] sets freq_lo to [policy->min]
    and leaves down_threshold as it was, and [CPUFREQ_GOV_LIMITS] leaves
    both as they were.  (The products are assumed to fit 32 bits.) *)
Theorem down_threshold_recomputation
    (freq_cpu : nat) (freq_new : Z) (g : gov) (d : cpu_dbs_info_s)
    (p : cpufreq_policy) (e : governor_env) (gl : dbs_globals) :
  cs_cpu_dbs_info g !! freq_cpu = Some d ->
  enable d = true ->
  threshold_invariant (tuners g) ->
  0 <= down_differential (tuners g) ->
  0 < policy_cur (policy g) ->
  let span := up_threshold (tuners g) - down_differential (tuners g) in
  let value (lo : Z) :=
    let quotient := span * lo / policy_cur (policy g) in
    if decide (10 <= quotient <= span) then quotient else span / 2 in
  let below :=
    cpufreq_frequency_table_target (policy g) (freq_new - 1)
      CPUFREQ_RELATION_H in
  0 <= below -> span * below < 2 ^ 32 ->
  (forall d0, 0 <= freq_lo d0 -> span * freq_lo d0 < 2 ^ 32 ->
     exists d1,
       recalculate_down_threshold (tuners g) (policy g) d0 = Some d1 /\
       down_threshold d1 = value (freq_lo d0) /\
       d1 = set_down_threshold (down_threshold d1) d0) /\
  (policy_min (policy g) < freq_new ->
   exists g' d',
     dbs_cpufreq_notifier freq_cpu freq_new g = Some (NOTIFY_OK, g') /\
     cs_cpu_dbs_info g' !! freq_cpu = Some d' /\
     freq_lo d' = below /\
     down_threshold d' = value below) /\
  (freq_new <= policy_min (policy g) ->
   exists g' d',
     dbs_cpufreq_notifier freq_cpu freq_new g = Some (NOTIFY_OK, g') /\
     cs_cpu_dbs_info g' !! freq_cpu = Some d' /\
     freq_lo d' = policy_min (policy g) /\
     down_threshold d' = down_threshold d) /\
  (exists g' d' acts,
     cpufreq_governor_dbs p freq_cpu CPUFREQ_GOV_LIMITS e g gl
       = Some (0, g', gl, acts, None) /\
     cs_cpu_dbs_info g' !! freq_cpu = Some d' /\
     freq_lo d' = freq_lo d /\
     down_threshold d' = down_threshold d).
Proof.
  intros Hd Hen Hinv Hdd Hcur span value below Hb0 Hb32.
  assert (Hl : forall x, <[freq_cpu := x]> (cs_cpu_dbs_info g) !! freq_cpu
                         = Some x).
  { intros x. apply list_lookup_insert_eq. eapply lookup_lt_Some. exact Hd. }
  assert (Hre : forall d0, 0 <= freq_lo d0 -> span * freq_lo d0 < 2 ^ 32 ->
            recalculate_down_threshold (tuners g) (policy g) d0
            = Some (set_down_threshold (value (freq_lo d0)) d0)).
  { intros d0 H0 H32.
    exact (recalculate_down_threshold_value (tuners g) (policy g) d0
             Hinv Hdd Hcur H0 H32). }
  split; [|split; [|split]].
  - intros d0 H0 H32. eexists. split; [exact (Hre d0 H0 H32)|].
    split; reflexivity.
  - intros Hnew.
    rewrite (dbs_cpufreq_notifier_recalculates freq_cpu freq_new g d
               Hd Hen Hnew).
    fold below.
    match goal with
    | |- context [set_freq_lo below ?x] => set (d1 := x)
    end.
    rewrite (Hre (set_freq_lo below d1)) by exact Hb0 || exact Hb32.
    cbn [mbind option_bind]. eexists _, _. split; [reflexivity|].
    cbn [cs_cpu_dbs_info set_cs_cpu_dbs_info]. split; [apply Hl|].
    split; reflexivity.
  - intros Hnew.
    destruct (dbs_cpufreq_notifier_below_min freq_cpu freq_new g d
                Hd Hen Hnew) as (g' & d' & Hrun & Hd' & Hdt & Hlo).
    exists g', d'. repeat split; assumption.
  - unfold cpufreq_governor_dbs. rewrite Hd. cbn [mbind option_bind].
    destruct (policy_max p <? policy_cur (policy g));
      [|destruct (policy_cur (policy g) <? policy_min p)];
      (eexists _, _, _; split; [reflexivity|]);
      cbn [cs_cpu_dbs_info set_tuners set_cs_cpu_dbs_info];
      (split; [apply Hl|]); split; reflexivity.
Qed.

End MoreProperties.

(** ** The same properties at concrete inputs *)

Lemma check_down_window_rule_witness :
  let g := unlocked_idle_gov in
  let h := hotplug_history g in
  let window := last_samples h (cpu_down_rate (tuners g)) in
  exists b g',
    check_down 1000000 3 g = Some (b, g') /\
    (b = true <->
     num_hist h <> 0 /\ num_hist h mod cpu_down_rate (tuners g) = 0 /\
     maximum (freq <$> window) <= 200000 /\
     maximum (rq_avg <$> window) <= 200) /\
    (b = true ->
     num_hist (hotplug_history g') = 0 /\
     usage (hotplug_history g') = usage h /\
     rq_data g' = rq_data g /\ tuners g' = tuners g /\
     suspend g' = suspend g /\ standby g' = standby g /\
     delay g' = delay g /\ last_input_time g' = last_input_time g /\
     _hotplug_rq g' = _hotplug_rq g /\ _hotplug_freq g' = _hotplug_freq g /\
     cs_cpu_dbs_info g' = cs_cpu_dbs_info g /\ policy g' = policy g) /\
    (b = false -> g' = g).
Proof.
  apply (check_down_window_rule 1000000 3 unlocked_idle_gov 200000 200).
  - intros [H _]. discriminate H.
  - discriminate.
  - intros [H _]. apply H. reflexivity.
  - intros [H _]. apply H. reflexivity.
  - reflexivity.
  - reflexivity.
  - compute_prop.
  - compute_prop.
  - compute_prop.
  - apply Forall_app; split; apply Forall_replicate; compute_prop.
  - apply Forall_app; split; apply Forall_replicate; compute_prop.
Defined.

Lemma tick_records_sample_witness :
  exists g' acts u,
    @dbs_check_cpu exynos_kernel 0 half_busy_env unlocked_busy_gov
      = Some (g', acts) /\
    0 <= sample_slot unlocked_busy_gov < 40 /\
    usage (hotplug_history g') !! Z.to_nat (sample_slot unlocked_busy_gov)
      = Some u /\
    freq u = policy_cur (policy unlocked_busy_gov) /\
    rq_avg u = nr_run_avg (rq_data unlocked_busy_gov) /\
    nr_run_avg (rq_data g') = 0.
Proof.
  apply (@tick_records_sample exynos_kernel 0%nat half_busy_env
           unlocked_busy_gov).
  tick_ready_concrete.
Defined.

Lemma tick_keeps_history_count_witness :
  exists g' acts,
    @dbs_check_cpu exynos_kernel 0 half_busy_env unlocked_busy_gov
      = Some (g', acts) /\
    length (usage (hotplug_history g')) = 40%nat /\
    0 <= num_hist (hotplug_history g') <= 40 /\
    num_hist (hotplug_history g')
      <> max_hotplug_rate (tuners unlocked_busy_gov) /\
    (num_hist (hotplug_history unlocked_busy_gov)
       < max_hotplug_rate (tuners unlocked_busy_gov) ->
     num_hist (hotplug_history g')
       < max_hotplug_rate (tuners unlocked_busy_gov)).
Proof.
  apply (@tick_keeps_history_count exynos_kernel 0%nat half_busy_env
           unlocked_busy_gov).
  tick_ready_concrete.
Defined.

Lemma tick_keeps_loads_percentages_witness :
  exists g' acts,
    @dbs_check_cpu exynos_kernel 0 half_busy_env (started_gov 800000)
      = Some (g', acts) /\
    loads_are_percentages (usage (hotplug_history g')).
Proof.
  apply (@tick_keeps_loads_percentages exynos_kernel 0%nat half_busy_env
           (started_gov 800000)).
  - tick_ready_concrete.
  - apply Forall_replicate. repeat constructor; lia.
Defined.

Lemma tick_request_is_requested_freq_witness :
  exists g' acts d',
    @dbs_check_cpu exynos_kernel 0 full_busy_env (started_gov 800000)
      = Some (g', acts) /\
    cs_cpu_dbs_info g' !! 0%nat = Some d' /\
    let requests := List.filter (fun a => negb (is_hotplug a)) acts in
    (requests = [] /\
     requested_freq d' = requested_freq (started_dbs_info 0 800000)) \/
    exists rel, requests = [cpufreq_driver_target (requested_freq d') rel].
Proof.
  apply (@tick_request_is_requested_freq exynos_kernel 0%nat full_busy_env
           (started_gov 800000) (started_dbs_info 0 800000)).
  - tick_ready_concrete.
  - reflexivity.
Defined.

Lemma tick_leaves_configuration_witness :
  exists g' acts,
    @dbs_check_cpu exynos_kernel 0 idle_env (started_gov 200000)
      = Some (g', acts) /\
    tuners g' = tuners (started_gov 200000) /\
    policy g' = policy (started_gov 200000) /\
    _hotplug_rq g' = _hotplug_rq (started_gov 200000) /\
    _hotplug_freq g' = _hotplug_freq (started_gov 200000) /\
    suspend g' = suspend (started_gov 200000) /\
    last_input_time g' = last_input_time (started_gov 200000) /\
    (standby (started_gov 200000) = true -> standby g' = true) /\
    (is_active (started_gov 200000) = false
     \/ is_boosted (now idle_env) (started_gov 200000) = true ->
     standby g' = standby (started_gov 200000)
     /\ delay g' = delay (started_gov 200000)) /\
    (delay g' = delay (started_gov 200000)
     \/ delay g' = standby_sampling_rate (tuners (started_gov 200000))).
Proof.
  apply (@tick_leaves_configuration exynos_kernel 0%nat idle_env
           (started_gov 200000)).
  tick_ready_concrete.
Defined.

Lemma tick_respects_core_limits_witness :
  let g := started_gov 200000 in
  let env := uniform_env 1000000 1 (busy_sample 30000 0) in
  let t := tuners g in
  let no_more := max_cpu_lock t <> 0 /\ max_cpu_lock t <= online env in
  let too_many := max_cpu_lock t <> 0 /\ max_cpu_lock t < online env in
  exists g' acts,
    @dbs_check_cpu exynos_kernel 0 env g = Some (g', acts) /\
    (online env = possible env \/ no_more ->
     forall c, queue_up_work c ∉ acts) /\
    (online env = 1 \/
     (~ too_many /\ min_cpu_lock t <> 0 /\ online env <= min_cpu_lock t) ->
     forall c, queue_down_work c ∉ acts) /\
    (online env <> possible env -> ~ no_more ->
     min_cpu_lock t <> 0 -> online env < min_cpu_lock t ->
     queue_up_work (cpu (started_dbs_info 0 200000)) ∈ acts).
Proof.
  apply (@tick_respects_core_limits exynos_kernel 0%nat
           (uniform_env 1000000 1 (busy_sample 30000 0))
           (started_gov 200000) (started_dbs_info 0 200000)).
  - tick_ready_concrete.
  - reflexivity.
Defined.

Lemma rq_work_fn_weighted_mean_witness :
  let rq := {| nr_run_avg := 150; update_rate := 10;
               last_time := 5000000; total_time := 30 |} in
  exists r,
    rq_work_fn 15000000 3 rq = Some r /\
    nr_run_avg r = (300 * 10 + 150 * 30) / (30 + 10) /\
    Z.min 300 150 <= nr_run_avg r <= Z.max 300 150 /\
    total_time r = 30 + 10 /\
    last_time r = 15000000 /\
    update_rate r = 10.
Proof.
  apply (rq_work_fn_weighted_mean 15000000 3
           {| nr_run_avg := 150; update_rate := 10;
              last_time := 5000000; total_time := 30 |});
    compute_prop.
Defined.

Lemma cpu_up_work_cores_witness :
  let mask := [true; false; true; false] in
  let ups := cpu_up_work 1000000 mask (started_gov 200000) in
  sublist ups [1; 3]%nat /\
  (0%nat ∉ ups) /\
  (0 <= cpu_up_budget 1000000 2 (started_gov 200000) ->
   Z.of_nat (length ups) <= cpu_up_budget 1000000 2 (started_gov 200000)) /\
  (2 <= cpu_up_budget 1000000 2 (started_gov 200000) \/
   - 2 ^ 31 + 2 <= cpu_up_budget 1000000 2 (started_gov 200000) < 0 ->
   ups = [1; 3]%nat) /\
  (standby (started_gov 200000) = false -> (4 <= 4)%nat ->
   ups = [1; 3]%nat).
Proof.
  apply (cpu_up_work_cores 1000000 [true; false; true; false]
           (started_gov 200000)).
  cbn; lia.
Defined.

Lemma cpu_down_work_cores_witness :
  let mask := [true; true; true; true] in
  let downs := cpu_down_work 1000000 mask (started_gov 200000) in
  sublist downs [0; 1; 2; 3]%nat /\
  (0%nat ∉ downs) /\
  Z.of_nat (length downs) <= Z.max 0 (4 - 2) /\
  (is_boosted 1000000 (started_gov 200000) = true ->
   boost_mincpus (tuners (started_gov 200000)) <> 0 ->
   Z.of_nat (length downs)
   <= Z.max 0 (4 - boost_mincpus (tuners (started_gov 200000)) - 1)).
Proof.
  apply (cpu_down_work_cores 1000000 [true; true; true; true]
           (started_gov 200000)).
  - cbn; lia.
  - cbn; lia.
Defined.

Lemma do_dbs_timer_rearms_aligned_witness :
  exists g' acts d,
    @do_dbs_timer exynos_kernel 0 idle_env 1234 (started_gov 200000)
      = Some (g', acts, d) /\
    @dbs_check_cpu exynos_kernel 0 idle_env (started_gov 200000)
      = Some (g', acts) /\
    0 < d <= delay g' /\
    (1234 + d) mod delay g' = 0.
Proof.
  apply (@do_dbs_timer_rearms_aligned exynos_kernel 0%nat idle_env 1234
           (started_gov 200000)).
  - tick_ready_concrete.
  - lia.
  - compute_prop.
  - compute_prop.
Defined.

Lemma notifier_repairs_requested_freq_witness :
  let g := stray_gov in
  let d := stray_dbs_info in
  (enable d = false ->
   @dbs_cpufreq_notifier exynos_kernel 0 1000000 g = Some (NOTIFY_DONE, g)) /\
  (enable d = true ->
   exists g' d',
     @dbs_cpufreq_notifier exynos_kernel 0 1000000 g = Some (NOTIFY_OK, g') /\
     cs_cpu_dbs_info g' !! 0%nat = Some d' /\
     policy_min (policy g) <= requested_freq d' <= policy_max (policy g) /\
     (policy_min (policy g) <= requested_freq d <= policy_max (policy g) ->
      requested_freq d' = requested_freq d) /\
     (~ policy_min (policy g) <= requested_freq d <= policy_max (policy g) ->
      requested_freq d' = 1000000) /\
     (forall j, j <> 0%nat ->
        cs_cpu_dbs_info g' !! j = cs_cpu_dbs_info g !! j) /\
     tuners g' = tuners g /\ policy g' = policy g /\
     standby g' = standby g /\ suspend g' = suspend g).
Proof.
  apply (@notifier_repairs_requested_freq exynos_kernel 0%nat 1000000
           stray_gov stray_dbs_info).
  - reflexivity.
  - discriminate.
  - compute_prop.
Defined.

Lemma store_min_cpu_lock_takes_effect_witness :
  let e := two_online_sysfs in
  let g := started_gov 200000 in
  exists g1,
    store_min_cpu_lock e (Some 3) 2 g
      = Some (2, g1, [queue_up_work 0]) /\
    min_cpu_lock (tuners g1) = 3 /\
    (forall o, o <> o_min_cpu_lock ->
       object_value o (tuners g1) = object_value o (tuners g)) /\
    (forall now online possible b g',
       check_up now online possible g1 = Some (b, g') ->
       online <> possible ->
       ~ (max_cpu_lock (tuners g) <> 0 /\ max_cpu_lock (tuners g) <= online) ->
       online < 3 -> b = true) /\
    (forall now online b g',
       check_down now online g1 = Some (b, g') ->
       ~ (max_cpu_lock (tuners g) <> 0 /\ max_cpu_lock (tuners g) < online) ->
       online <= 3 -> b = false).
Proof.
  destruct (store_min_cpu_lock_takes_effect two_online_sysfs 3 2
              (started_gov 200000) (started_dbs_info 0 200000))
    as (g1 & acts & Hrun & Hlock & Hframe & _ & Hup & _ & Hcu & Hcd).
  - reflexivity.
  - compute_prop.
  - compute_prop.
  - compute_prop.
  - rewrite Hup in Hrun by compute_prop.
    exists g1. split; [exact Hrun|]. split; [exact Hlock|].
    split; [exact Hframe|]. split.
    + intros now online possible b g' H1 H2 H3 H4.
      apply (Hcu now online possible b g' H1 H2 H3); [discriminate|exact H4].
    + intros now online b g' H1 H2 H3.
      apply (Hcd now online b g' H1 H2); [discriminate|exact H3].
Defined.

Lemma input_event_opens_boost_window_witness :
  let g := boost_gov in
  let d0 := started_dbs_info 0 200000 in
  exists g1 run d1,
    hotplug_input_event 2000000 true g = Some (g1, run) /\
    standby g1 = false /\
    delay g1 = sampling_rate (tuners g) /\
    suspend g1 = suspend g /\ tuners g1 = tuners g /\ policy g1 = policy g /\
    last_input_time g1 = 2000000 /\
    (forall t, is_boosted t g1 = true <->
               0 < input_boost_freq (tuners g) /\
               t < 2000000 + input_boost_us (tuners g)) /\
    cs_cpu_dbs_info g1 !! 0%nat = Some d1 /\
    same_control d0 d1 /\
    oc_boost_cycles d1
      = (if _oc_limit (tuners g) =? 0 then oc_boost_cycles d0
         else u32 (_oc_limit (tuners g) * 2)) /\
    (run = true <->
     true = true /\
     input_boost_us (tuners g) <= u64 (2000000 - last_input_time g) /\
     policy_cur (policy g) < input_boost_freq (tuners g)).
Proof.
  apply (input_event_opens_boost_window 2000000 true boost_gov
           (started_dbs_info 0 200000)).
  - reflexivity.
  - lia.
  - compute_prop.
  - compute_prop.
Defined.

Lemma input_boost_raises_frequency_witness :
  exists g1 run,
    hotplug_input_event 990000 true boost_gov = Some (g1, run) /\
    exists g' acts d',
      @dbs_check_cpu exynos_kernel 0 idle_env g1 = Some (g', acts) /\
      cs_cpu_dbs_info g' !! 0%nat = Some d' /\
      requested_freq d' = input_boost_freq (tuners boost_gov) /\
      cpufreq_driver_target (input_boost_freq (tuners boost_gov))
        CPUFREQ_RELATION_H ∈ acts.
Proof.
  eexists _, _. split; [reflexivity|].
  eapply (@input_boost_raises_frequency exynos_kernel 990000 true idle_env
            boost_gov).
  - tick_ready_concrete.
  - reflexivity.
  - reflexivity.
  - compute_prop.
  - compute_prop.
  - lia.
  - compute_prop.
  - compute_prop.
Defined.

Lemma suspend_resume_cycle_witness :
  let g := suspended_gov in
  exists g2,
    pm_notifier_call PM_POST_SUSPEND g = (NOTIFY_OK, (g, [resume_work])) /\
    run_work 5000000 [0; 1]%nat resume_work g
    = Some (g2, [cpufreq_driver_target (policy_max (policy g))
                   CPUFREQ_RELATION_H]) /\
    is_active g2 = true /\
    delay g2 = sampling_rate (tuners g) /\
    last_input_time g2 = 5000000 /\
    (forall c d, c ∈ [0; 1]%nat -> cs_cpu_dbs_info g2 !! c = Some d ->
       requested_freq d = policy_max (policy g)) /\
    (forall c, c ∉ [0; 1]%nat ->
       cs_cpu_dbs_info g2 !! c = cs_cpu_dbs_info g !! c).
Proof.
  pose proof (suspend_resume_cycle PM_POST_SUSPEND 5000000 [0; 1]%nat
                suspended_gov) as H.
  cbn [pm_notifier_call dbs_resume] in H.
  destruct H as (_ & _ & _ & g2 & Hrun & Ha & Hd & Hl & _ & _ & _ & _
                 & Hin & Hout).
  - repeat constructor; cbn; lia.
  - exists g2. repeat split; assumption.
Defined.

Lemma sysfs_store_rejects_cleanly_witness :
  exists rc g' acts,
    @sysfs_store exynos_kernel exynos_support exynos_sysfs 10000
      f_up_threshold (Some 101) 4 (started_gov 200000)
      = Some (rc, g', acts) /\
    (rc = 4 \/ (rc = - EINVAL /\ g' = started_gov 200000 /\ acts = [])) /\
    (Some 101 = None -> rc = - EINVAL) /\
    policy g' = policy (started_gov 200000).
Proof.
  apply (@sysfs_store_rejects_cleanly exynos_kernel exynos_support
           exynos_sysfs 10000 f_up_threshold (Some 101) 4
           (started_gov 200000)).
  - split; [cbn; lia|]. split; [discriminate|].
    split; [repeat constructor; cbn; lia|cbn; lia].
  - split; [cbn; lia|exact I].
Defined.

Lemma sysfs_stores_keep_ranges_witness :
  exists g' acts,
    @sysfs_stores exynos_kernel exynos_support exynos_sysfs 10000
      example_writes (started_gov 200000) = Some (g', acts) /\
    tunables_in_range 4 (tuners g').
Proof.
  apply (@sysfs_stores_keep_ranges exynos_kernel exynos_support
           exynos_sysfs 10000 example_writes (started_gov 200000)).
  - split; [cbn; lia|]. split; [discriminate|].
    split; [repeat constructor; cbn; lia|cbn; lia].
  - repeat constructor; cbn; try lia. eexists; reflexivity.
  - compute_prop.
Defined.

Lemma sysfs_stores_keep_frequencies_valid_witness :
  exists g' acts,
    @sysfs_stores exynos_kernel exynos_support exynos_sysfs 10000
      example_writes (started_gov 200000) = Some (g', acts) /\
    policy g' = policy (started_gov 200000) /\
    frequency_tunables_valid 4 (policy g') (tuners g').
Proof.
  apply (@sysfs_stores_keep_frequencies_valid exynos_kernel exynos_support
           exynos_sysfs 10000 example_writes (started_gov 200000)).
  - split; [cbn; lia|]. split; [discriminate|].
    split; [repeat constructor; cbn; lia|cbn; lia].
  - repeat constructor; cbn; try lia. eexists; reflexivity.
  - compute_prop.
  - apply exynos_table_within.
  - apply default_tuners_valid.
Defined.

Lemma converted_values_read_back_witness :
  let e := exynos_sysfs in
  let g := started_gov 200000 in
  let store := @sysfs_store exynos_kernel exynos_support e 10000 in
  let show := @sysfs_show exynos_support in
  (exists g',
     store f_io_is_busy (Some 37) 3 g = Some (3, g', []) /\
     show f_io_is_busy g' = Some 37) /\
  (exists g',
     store f_input_boost_ms (Some 37) 3 g = Some (3, g', []) /\
     input_boost_us (tuners g') = 37000 /\
     show f_input_boost_ms g' = Some 37) /\
  (exists g',
     store f_input_boost_ms (Some 5000000) 8 g = Some (8, g', []) /\
     input_boost_us (tuners g') = 705032704 /\
     show f_input_boost_ms g' = Some 705032) /\
  (exists g',
     store (f_hotplug tbl_hotplug_rq 2 0) (Some 37) 3 g
       = Some (3, g', []) /\
     show (f_hotplug tbl_hotplug_rq 2 0) g' = Some 37).
Proof.
  pose proof (fun input count =>
                @converted_values_read_back exynos_kernel exynos_support
                  exynos_sysfs 10000 input count (started_gov 200000))
    as H.
  assert (Hon : Forall (fun c => (c < length (cs_cpu_dbs_info
                                                (started_gov 200000)))%nat)
                  (online_cpus exynos_sysfs))
    by (repeat constructor; cbn; lia).
  destruct (H 37 3 ltac:(lia) Hon) as (Hio & _ & Hms & Hhp).
  destruct (H 5000000 8 ltac:(lia) Hon) as (_ & _ & Hwrap & _).
  split; [apply Hio; [lia|discriminate]|].
  split.
  { destruct Hms as (g' & Hrun & Hus & _ & Hshow).
    exists g'. split; [exact Hrun|]. split; [exact Hus|].
    apply Hshow. lia. }
  split.
  { destruct Hwrap as (g' & Hrun & Hus & Hshow & _).
    exists g'. split; [exact Hrun|]. split; [exact Hus|exact Hshow]. }
  apply Hhp. eexists; reflexivity.
Defined.

Lemma governor_start_initialises_witness :
  let p := exynos_policy 800000 in
  let e := exynos_governor_env in
  let g := started_gov 200000 in
  exists g' gl' d' d,
    @cpufreq_governor_dbs exynos_support p 0 CPUFREQ_GOV_START e g
      fresh_globals
      = Some (0, g', gl', [], Some d) /\
    dbs_enable gl' = 1 /\
    policy g' = p /\
    num_hist (hotplug_history g') = 0 /\
    delay g' = sampling_rate (tuners g') /\
    cs_cpu_dbs_info g' !! 0%nat = Some d' /\
    requested_freq d' = 800000 /\ enable d' = true /\
    0 < d <= delay g' /\ (1234 + d) mod delay g' = 0.
Proof.
  destruct (@governor_start_initialises exynos_support
              (exynos_policy 800000) 0%nat exynos_governor_env
              (started_gov 200000) fresh_globals)
    as (rc & g' & gl' & timer & Hrun & _ & Hok).
  - cbn; lia.
  - repeat constructor; cbn; lia.
  - compute_prop.
  - compute_prop.
  - destruct (Hok eq_refl ltac:(discriminate)) as (Hen & _ & Hstart).
    destruct (Hstart (or_intror eq_refl))
      as (-> & Hp & Hn & _ & Hd & _ & _ & (d' & Hd' & Hreq & _ & Hena)
          & (d & -> & Hrange & Hmod) & _).
    exists g', gl', d', d. repeat split; try assumption; apply Hrange.
Defined.

Lemma governor_limits_clamps_witness :
  let p := capped_policy in
  let g := started_gov 1000000 in
  exists g' d',
    @cpufreq_governor_dbs exynos_support p 0 CPUFREQ_GOV_LIMITS
      exynos_governor_env g fresh_globals
      = Some (0, g', fresh_globals,
              [cpufreq_driver_target 800000 CPUFREQ_RELATION_H], None) /\
    cs_cpu_dbs_info g' !! 0%nat = Some d' /\
    requested_freq d' = 800000 /\
    policy g' = policy g.
Proof.
  destruct (@governor_limits_clamps exynos_support capped_policy 0%nat
              exynos_governor_env (started_gov 1000000) fresh_globals
              (started_dbs_info 0 1000000))
    as (g' & d' & acts & Hrun & Hd' & _ & Hmax & _ & _ & Hp & _).
  - reflexivity.
  - compute_prop.
  - destruct Hmax as [-> Hreq]; [reflexivity|].
    exists g', d'. repeat split; assumption.
Defined.

Lemma governor_stop_silences_notifier_witness :
  let g := started_gov 800000 in
  exists g',
    @cpufreq_governor_dbs exynos_support (exynos_policy 800000) 0
      CPUFREQ_GOV_STOP exynos_governor_env g
      {| dbs_enable := 1; min_sampling_rate := 10000 |}
      = Some (0, g',
              {| dbs_enable := u32 (1 - 1); min_sampling_rate := 10000 |},
              [], None) /\
    cs_cpu_dbs_info g' !! 0%nat
      = Some (set_enable false (started_dbs_info 0 800000)) /\
    (forall freq_new,
       @dbs_cpufreq_notifier exynos_kernel 0 freq_new g'
       = Some (NOTIFY_DONE, g')) /\
    (forall j, j <> 0%nat ->
       cs_cpu_dbs_info g' !! j = cs_cpu_dbs_info g !! j) /\
    tuners g' = tuners g /\ policy g' = policy g /\
    suspend g' = suspend g /\ standby g' = standby g.
Proof.
  apply (@governor_stop_silences_notifier exynos_kernel exynos_support
           (exynos_policy 800000) 0%nat exynos_governor_env
           (started_gov 800000)
           {| dbs_enable := 1; min_sampling_rate := 10000 |}
           (started_dbs_info 0 800000)).
  reflexivity.
Defined.

Lemma down_threshold_recomputation_witness :
  let g := started_gov 500000 in
  let d := started_dbs_info 0 500000 in
  let value (lo : Z) :=
    let quotient := 80 * lo / 500000 in
    if decide (10 <= quotient <= 80) then quotient else 80 / 2 in
  (exists d1,
     recalculate_down_threshold (tuners g) (policy g) (set_freq_lo 400000 d)
       = Some d1 /\
     down_threshold d1 = value 400000 /\
     down_threshold d1 = 64 /\
     d1 = set_down_threshold 64 (set_freq_lo 400000 d)) /\
  (exists g' d',
     @dbs_cpufreq_notifier exynos_kernel 0 500000 g = Some (NOTIFY_OK, g') /\
     cs_cpu_dbs_info g' !! 0%nat = Some d' /\
     freq_lo d' = 400000 /\
     down_threshold d' = 64) /\
  (exists g' d',
     @dbs_cpufreq_notifier exynos_kernel 0 200000 g = Some (NOTIFY_OK, g') /\
     cs_cpu_dbs_info g' !! 0%nat = Some d' /\
     freq_lo d' = 200000 /\
     down_threshold d' = down_threshold d) /\
  (exists g' d' acts,
     @cpufreq_governor_dbs exynos_support capped_policy 0 CPUFREQ_GOV_LIMITS
       exynos_governor_env g fresh_globals
       = Some (0, g', fresh_globals, acts, None) /\
     cs_cpu_dbs_info g' !! 0%nat = Some d' /\
     freq_lo d' = freq_lo d /\
     down_threshold d' = down_threshold d).
Proof.
  intros g d value.
  pose proof (fun freq_new =>
                @down_threshold_recomputation exynos_kernel exynos_support
                  0%nat freq_new (started_gov 500000)
                  (started_dbs_info 0 500000) capped_policy
                  exynos_governor_env fresh_globals eq_refl eq_refl)
    as H.
  assert (Hinv : threshold_invariant (tuners (started_gov 500000)))
    by compute_prop.
  assert (Hdd : 0 <= down_differential (tuners (started_gov 500000)))
    by compute_prop.
  assert (Hcur : 0 < policy_cur (policy (started_gov 500000)))
    by reflexivity.
  split; [|split; [|split]].
  - destruct (H 500000 Hinv Hdd Hcur) as (Hval & _);
      [compute_prop..|].
    destruct (Hval (set_freq_lo 400000 (started_dbs_info 0 500000)))
      as (d1 & Hrun & Hdt & Hd1); [compute_prop..|].
    exists d1. split; [exact Hrun|]. split; [exact Hdt|].
    split; [exact Hdt|]. rewrite Hd1, Hdt. reflexivity.
  - destruct (H 500000 Hinv Hdd Hcur) as (_ & Hup & _);
      [compute_prop..|].
    apply Hup. reflexivity.
  - destruct (H 200000 Hinv Hdd Hcur) as (_ & _ & Hlow & _);
      [compute_prop..|].
    apply Hlow. compute_prop.
  - destruct (H 200000 Hinv Hdd Hcur) as (_ & _ & _ & Hlim);
      [compute_prop..|].
    exact Hlim.
Defined.

(** C8 on the code.  A transition that lands at 100 MHz, below the policy
    minimum of 200 MHz, sets freq_lo to 200 MHz and leaves down_threshold
    at 40, although the quotient for the new freq_lo is 53, inside
    [10, 80]; a change of the limits after it leaves the threshold at 40
    as well. *)
Lemma down_threshold_left_behind :
  let g := started_gov 300000 in
  exists g' d',
    @dbs_cpufreq_notifier exynos_kernel 0 100000 g = Some (NOTIFY_OK, g') /\
    cs_cpu_dbs_info g' !! 0%nat = Some d' /\
    100000 < policy_min (policy g) /\
    let span := up_threshold (tuners g') - down_differential (tuners g') in
    let quotient := span * freq_lo d' / policy_cur (policy g') in
    10 <= quotient <= span /\
    down_threshold d' <> quotient /\
    exists g'' d'',
      @cpufreq_governor_dbs exynos_support capped_policy 0
        CPUFREQ_GOV_LIMITS exynos_governor_env g' fresh_globals
        = Some (0, g'', fresh_globals, [], None) /\
      cs_cpu_dbs_info g'' !! 0%nat = Some d'' /\
      down_threshold d'' <> quotient.
Proof.
  eexists _, _. split; [reflexivity|]. split; [reflexivity|].
  split; [reflexivity|]. split; [compute_prop|].
  split; [discriminate|].
  eexists _, _. split; [reflexivity|]. split; [reflexivity|]. discriminate.
Qed.
